(** * District heating API: entity store, CRUD service, analytics, configuration

    A shallow embedding of [backend/models.py] and [backend/app.py].

    Conventions of the embedding.
    - A table is the list of its rows in primary-key order; [INTEGER PRIMARY
      KEY] columns receive [1 + max id] on insertion (SQLite row ids).  A row
      id is a 64-bit integer ([id_fits]).
    - A Python [float] and a [Float] column hold a binary64 number, with the
      arithmetic of the processor; SQLite stores NaN as NULL and zero without
      its sign ([sqlite_real]).  SQL [SUM] and Python's [sum] add from left
      to right (SQLite before 3.44, Python before 3.12).
    - A Python [int] is an unbounded integer; the database driver binds an
      integer parameter as a 64-bit integer and raises [OverflowError] when
      it does not fit ([int64]).
    - A Python [datetime] is naive or aware of its UTC offset; a [DateTime]
      column keeps the wall clock only.  A nullable column holds an [option].
    - A request handler is the Python function: its result is the value it
      returns or the exception it raises, together with the database it
      leaves behind.  A handler that raises leaves the session uncommitted,
      so the database it leaves behind is the one it found.  What the
      framework does with a returned value is [JSONResponse].
    - The database clock ([func.now()]) is an argument [now] of every
      handler that writes. *)

From Stdlib Require Import ZArith QArith List String Ascii Bool Lia.
From Stdlib Require Import Floats.
Import ListNotations.

#[local] Set Warnings "-inexact-float".

Local Open Scope string_scope.
Local Open Scope Z_scope.

(** ** Python and SQL values *)

(** The value of a [DateTime] column: a wall-clock time, in microseconds. *)
Abbreviation DateTime := Z (only parsing).

(** A Python [datetime]: naive, or aware of its offset from UTC. *)
Inductive datetime : Type :=
| naive (wall : Z)
| aware (wall : Z) (utcoffset : Z).

(** What a [DateTime] column keeps of a datetime. *)
Definition wall_clock (d : datetime) : Z :=
  match d with
  | naive wall => wall
  | aware wall _ => wall
  end.

(** Python's [==] on datetimes: a naive one never equals an aware one. *)
Definition datetime_eqb (a b : datetime) : bool :=
  match a, b with
  | naive x, naive y => x =? y
  | aware x o, aware y p => x - o =? y - p
  | _, _ => false
  end.

(** Python's [==] and [>] on floats. *)
Definition float_eqb (x y : float) : bool := (x =? y)%float.

Definition float_gt (x y : float) : bool := (y <? x)%float.

(** The double nearest to an integer. *)
Definition float_of_Z (n : Z) : float := SF2Prim (binary_normalize prec emax n 0 false).

(** The double nearest to [num / den], negated if [s]. *)
Definition nearest_float (s : bool) (num den : positive) : float :=
  SF2Prim (SFdiv prec emax (S754_finite s num 0) (S754_finite false den 0)).

(** What SQLite keeps of a double bound to a [Float] column: NaN becomes
    NULL, a zero is read back as [0.0]. *)
Definition sqlite_real (x : float) : option float :=
  if is_nan x then None
  else if float_eqb x 0%float then Some 0%float
  else Some x.

(** The integers the driver can bind: signed, 64 bits. *)
Definition int64 (n : Z) : bool := (- 2 ^ 63 <=? n) && (n <? 2 ^ 63).

Definition bindable (v : option Z) : bool :=
  match v with
  | Some n => int64 n
  | None => true
  end.

(** A row id is a signed 64-bit integer.  Once the largest one is taken
    SQLite tries ids at random and gives up with an error when it finds
    none free; of a table that has got that far the model keeps this last
    case only. *)
Definition fits (i : Z) : option (int64 i = true) :=
  match int64 i as b return option (b = true) with
  | true => Some eq_refl
  | false => None
  end.

Definition option_eqb {A} (eqb : A -> A -> bool) (x y : option A) : bool :=
  match x, y with
  | Some a, Some b => eqb a b
  | None, None => true
  | _, _ => false
  end.

(** The exceptions a request can end with. *)
Inductive Error : Type :=
| HTTPException (status_code : Z) (detail : string)
| RequestValidationError
| IntegrityError
| OperationalError
| OverflowError
| TypeError
| AttributeError
| ZeroDivisionError
| ValueError
| RecursionError.

Inductive Result (A : Type) : Type :=
| Ok (a : A)
| Err (e : Error).

Arguments Ok {A} a.
Arguments Err {A} e.

Definition bind {A B} (r : Result A) (k : A -> Result B) : Result B :=
  match r with
  | Ok a => k a
  | Err e => Err e
  end.

Notation "x <- r ;; k" := (bind r (fun x => k))
  (at level 61, r at next level, right associativity).

(** The error taxonomy of the service: 404 is [NotFound], 400 is [Conflict]. *)
Definition NotFound (e : Error) : Prop :=
  match e with HTTPException 404 _ => True | _ => False end.

Definition Conflict (e : Error) : Prop :=
  match e with HTTPException 400 _ => True | _ => False end.

(** A Python number: the analytics mix the integer [0] with floats. *)
Inductive number : Type :=
| Int (n : Z)
| Float (x : float).

(** [float(v)]: an integer beyond the largest double raises. *)
Definition float_of_int (n : Z) : Result float :=
  if Z.abs n <? 2 ^ 1024 - 2 ^ 970 then Ok (float_of_Z n) else Err OverflowError.

Definition as_float (v : number) : Result float :=
  match v with
  | Int n => float_of_int n
  | Float x => Ok x
  end.

(** [v > 0]. *)
Definition gt_0 (v : number) : bool :=
  match v with
  | Int n => 0 <? n
  | Float x => float_gt x 0%float
  end.

(** [n / d] on integers: the double nearest to the quotient. *)
Definition int_truediv (n d : Z) : Result float :=
  match d, n with
  | 0, _ => Err ZeroDivisionError
  | _, 0 => Ok (if d <? 0 then (-0)%float else 0%float)
  | _, _ =>
      let q := nearest_float (xorb (n <? 0) (d <? 0))
                             (Z.to_pos (Z.abs n)) (Z.to_pos (Z.abs d)) in
      if is_infinity q then Err OverflowError else Ok q
  end.

(** Python's true division: raises on a zero divisor; an integer operand
    of a float is converted first. *)
Definition truediv (a b : number) : Result float :=
  match a, b with
  | Int n, Int d => int_truediv n d
  | Float x, Int d =>
      if d =? 0 then Err ZeroDivisionError
      else y <- float_of_int d ;; Ok (x / y)%float
  | _, Float y =>
      x <- as_float a ;;
      if float_eqb y 0%float then Err ZeroDivisionError else Ok (x / y)%float
  end.

(** Nearest integer, ties to the even one. *)
Definition round_half_even (q : Q) : Z :=
  let n := Qnum q in
  let d := Z.pos (Qden q) in
  let f := n / d in
  match 2 * (n mod d) ?= d with
  | Lt => f
  | Gt => f + 1
  | Eq => if Z.even f then f else f + 1
  end.

(** A hundred times the number [m * 2 ^ e]. *)
Definition hundredfold (m : positive) (e : Z) : Q :=
  match e with
  | Zneg p => (Z.pos m * 100) # (2 ^ p)%positive
  | _ => inject_Z (Z.pos m * 100 * 2 ^ e)
  end.

(** Python's [round(x, 2)] on a float: the double nearest to the decimal
    with two places nearest to [x]; zeros, infinities and NaN round to
    themselves. *)
Definition float_round2 (x : float) : float :=
  match Prim2SF x with
  | S754_finite s m e =>
      match round_half_even (hundredfold m e) with
      | Z.pos k => nearest_float s k 100
      | _ => if s then (-0)%float else 0%float
      end
  | _ => x
  end.

(** [round(v, 2)]: an integer is returned as it is. *)
Definition round2 (v : number) : number :=
  match v with
  | Int n => Int n
  | Float x => Float (float_round2 x)
  end.

Fixpoint non_null {A} (col : list (option A)) : list A :=
  match col with
  | [] => []
  | None :: rest => non_null rest
  | Some v :: rest => v :: non_null rest
  end.

(** The sum of floats, added from left to right. *)
Definition float_total (values : list float) : float :=
  fold_left (fun acc v => acc + v)%float values 0%float.

(** SQL [SUM] over a [Float] column: NULLs are skipped, the sum of no value
    is NULL, and so is a sum that is not a number. *)
Definition sql_sum (col : list (option float)) : option float :=
  match non_null col with
  | [] => None
  | values =>
      let s := float_total values in
      if is_nan s then None else Some s
  end.

(** [scalar() or 0]. *)
Definition or_0 (v : option float) : number :=
  match v with
  | Some x => if float_eqb x 0%float then Int 0 else Float x
  | None => Int 0
  end.

(** Python's [sum] over a generator of attribute values: it starts from the
    integer [0], and adding [None] raises [TypeError]. *)
Fixpoint float_sum_from (acc : float) (xs : list (option float)) : Result float :=
  match xs with
  | [] => Ok acc
  | None :: _ => Err TypeError
  | Some v :: rest => float_sum_from (acc + v)%float rest
  end.

Definition py_sum (xs : list (option float)) : Result number :=
  match xs with
  | [] => Ok (Int 0)
  | None :: _ => Err TypeError
  | Some v :: rest => s <- float_sum_from (0 + v)%float rest ;; Ok (Float s)
  end.

(** ** The tables of [models.py] *)

Inductive RouteStatus : Type := ACTIVE | INACTIVE | MAINTENANCE | PLANNED.

Definition RouteStatus_eqb (a b : RouteStatus) : bool :=
  match a, b with
  | ACTIVE, ACTIVE | INACTIVE, INACTIVE
  | MAINTENANCE, MAINTENANCE | PLANNED, PLANNED => true
  | _, _ => false
  end.

(** Supply points.  [nullable=False] columns carry a plain value. *)
Module HeatCenter.
Record t : Type := mk {
  id : Z;
  name : string;
  location_lat : float;
  location_lng : float;
  address : option string;
  max_capacity_mw : float;
  current_output_mw : option float;
  efficiency_percent : option float;
  fuel_type : option string;
  is_active : option bool;
  commissioning_date : option DateTime;
  last_maintenance : option DateTime;
  description : option string;
  created_at : DateTime;
  updated_at : option DateTime;
  id_fits : int64 id = true
}.
End HeatCenter.

(** Demand points. *)
Module DemandSite.
Record t : Type := mk {
  id : Z;
  name : string;
  location_lat : float;
  location_lng : float;
  address : option string;
  site_type : option string;
  peak_demand_mw : float;
  current_demand_mw : option float;
  annual_consumption_mwh : option float;
  is_connected : option bool;
  connection_date : option DateTime;
  priority_level : option Z;
  floor_area_sqm : option float;
  building_age_years : option Z;
  insulation_rating : option string;
  description : option string;
  created_at : DateTime;
  updated_at : option DateTime;
  id_fits : int64 id = true
}.
End DemandSite.

(** Pipelines between a heat center and a demand site. *)
Module Route.
Record t : Type := mk {
  id : Z;
  heat_center_id : Z;
  demand_site_id : Z;
  distance_km : float;
  pipe_diameter_mm : option Z;
  max_flow_capacity_mw : float;
  current_flow_mw : option float;
  supply_temp_celsius : option float;
  return_temp_celsius : option float;
  pressure_bar : option float;
  heat_loss_percent : option float;
  installation_year : option Z;
  pipe_material : option string;
  insulation_type : option string;
  status : option RouteStatus;
  is_bidirectional : option bool;
  maintenance_due : option DateTime;
  construction_cost : option float;
  annual_maintenance_cost : option float;
  created_at : DateTime;
  updated_at : option DateTime;
  id_fits : int64 id = true
}.
End Route.

(** Key/value configuration. *)
Module SystemConfig.
Record t : Type := mk {
  id : Z;
  config_key : string;
  config_value : string;
  config_type : option string;
  description : option string;
  is_active : option bool;
  created_at : DateTime;
  updated_at : option DateTime
}.
End SystemConfig.

Record Database : Type := mkDatabase {
  heat_centers : list HeatCenter.t;
  demand_sites : list DemandSite.t;
  routes : list Route.t;
  system_config : list SystemConfig.t
}.

Definition empty_db : Database := mkDatabase [] [] [] [].

(** The row id SQLite gives to the next inserted row. *)
Definition next_id (ids : list Z) : Z := 1 + fold_right Z.max 0 ids.

(** A column default fills a value that is absent or [None] on INSERT. *)
Definition column_default {A} (d : A) (v : option A) : option A :=
  match v with
  | Some x => Some x
  | None => Some d
  end.

(** A nullable [Float] column on INSERT. *)
Definition nullable_real (v : option float) : option float :=
  match v with
  | Some x => sqlite_real x
  | None => None
  end.

(** A [Float] column with a default on INSERT: the default replaces an
    absent value or a [None], not a NaN. *)
Definition real_default (d : float) (v : option float) : option float :=
  match v with
  | Some x => sqlite_real x
  | None => Some d
  end.

(** ** The request models of [app.py] *)

Module HeatCenterCreate.
Record t : Type := mk {
  name : string;
  location_lat : float;
  location_lng : float;
  address : option string;
  max_capacity_mw : float;
  current_output_mw : option float;
  efficiency_percent : option float;
  fuel_type : option string;
  is_active : option bool;
  commissioning_date : option datetime;
  last_maintenance : option datetime;
  description : option string
}.
End HeatCenterCreate.

(** Every field is optional; the outer [option] is "was the field set in the
    request", the inner one is the value, which may be an explicit null. *)
Module HeatCenterUpdate.
Record t : Type := mk {
  name : option (option string);
  location_lat : option (option float);
  location_lng : option (option float);
  address : option (option string);
  max_capacity_mw : option (option float);
  current_output_mw : option (option float);
  efficiency_percent : option (option float);
  fuel_type : option (option string);
  is_active : option (option bool);
  commissioning_date : option (option datetime);
  last_maintenance : option (option datetime);
  description : option (option string)
}.
End HeatCenterUpdate.

Module DemandSiteCreate.
Record t : Type := mk {
  name : string;
  location_lat : float;
  location_lng : float;
  address : option string;
  site_type : option string;
  peak_demand_mw : float;
  current_demand_mw : option float;
  annual_consumption_mwh : option float;
  is_connected : option bool;
  connection_date : option datetime;
  priority_level : option Z;
  floor_area_sqm : option float;
  building_age_years : option Z;
  insulation_rating : option string;
  description : option string
}.
End DemandSiteCreate.

Module DemandSiteUpdate.
Record t : Type := mk {
  name : option (option string);
  location_lat : option (option float);
  location_lng : option (option float);
  address : option (option string);
  site_type : option (option string);
  peak_demand_mw : option (option float);
  current_demand_mw : option (option float);
  annual_consumption_mwh : option (option float);
  is_connected : option (option bool);
  connection_date : option (option datetime);
  priority_level : option (option Z);
  floor_area_sqm : option (option float);
  building_age_years : option (option Z);
  insulation_rating : option (option string);
  description : option (option string)
}.
End DemandSiteUpdate.

Module RouteCreate.
Record t : Type := mk {
  heat_center_id : Z;
  demand_site_id : Z;
  distance_km : float;
  pipe_diameter_mm : option Z;
  max_flow_capacity_mw : float;
  current_flow_mw : option float;
  supply_temp_celsius : option float;
  return_temp_celsius : option float;
  pressure_bar : option float;
  heat_loss_percent : option float;
  installation_year : option Z;
  pipe_material : option string;
  insulation_type : option string;
  status : option RouteStatus;
  is_bidirectional : option bool;
  maintenance_due : option datetime;
  construction_cost : option float;
  annual_maintenance_cost : option float
}.
End RouteCreate.

(** ** Queries *)

Definition set_heat_centers (db : Database) (l : list HeatCenter.t) : Database :=
  mkDatabase l (demand_sites db) (routes db) (system_config db).

Definition set_demand_sites (db : Database) (l : list DemandSite.t) : Database :=
  mkDatabase (heat_centers db) l (routes db) (system_config db).

Definition set_routes (db : Database) (l : list Route.t) : Database :=
  mkDatabase (heat_centers db) (demand_sites db) l (system_config db).

Definition set_system_config (db : Database) (l : list SystemConfig.t) : Database :=
  mkDatabase (heat_centers db) (demand_sites db) (routes db) l.

(** The row stored under an id, if there is one. *)
Definition heat_center_by_id (db : Database) (center_id : Z) : option HeatCenter.t :=
  find (fun c => HeatCenter.id c =? center_id) (heat_centers db).

Definition demand_site_by_id (db : Database) (site_id : Z) : option DemandSite.t :=
  find (fun s => DemandSite.id s =? site_id) (demand_sites db).

Definition route_by_id (db : Database) (route_id : Z) : option Route.t :=
  find (fun r => Route.id r =? route_id) (routes db).

(** [query.filter(Model.id == id).first()]: the id is bound as a 64-bit
    integer before the statement runs. *)
Definition first_by_id {A} (lookup : Z -> option A) (id : Z) : Result (option A) :=
  if int64 id then Ok (lookup id) else Err OverflowError.

(** [db.query(HeatCenter).filter(HeatCenter.id == center_id).first()] *)
Definition query_heat_center (db : Database) (center_id : Z) : Result (option HeatCenter.t) :=
  first_by_id (heat_center_by_id db) center_id.

Definition query_demand_site (db : Database) (site_id : Z) : Result (option DemandSite.t) :=
  first_by_id (demand_site_by_id db) site_id.

Definition query_route (db : Database) (route_id : Z) : Result (option Route.t) :=
  first_by_id (route_by_id db) route_id.

(** [db.query(Route).filter(Route.heat_center_id == center_id)] *)
Definition routes_of_heat_center (db : Database) (center_id : Z) : list Route.t :=
  filter (fun r => Route.heat_center_id r =? center_id) (routes db).

Definition routes_of_demand_site (db : Database) (site_id : Z) : list Route.t :=
  filter (fun r => Route.demand_site_id r =? site_id) (routes db).

(** The route that connects a pair, if there is one. *)
Definition route_between (db : Database) (center_id site_id : Z) : option Route.t :=
  find (fun r => (Route.heat_center_id r =? center_id)
                 && (Route.demand_site_id r =? site_id)) (routes db).

Definition config_by_key (db : Database) (key : string) : option SystemConfig.t :=
  find (fun c => String.eqb (SystemConfig.config_key c) key) (system_config db).

(** ** Partial updates

    [update_data = center_update.dict(exclude_unset=True)] followed by
    [setattr] for every item.  On commit the unit of work compares every
    attribute that was set with the value it had when the row was loaded
    (Python's [==]) and writes the columns that differ; the row is written
    only if some column differs, and that UPDATE is what fires
    [onupdate=func.now()].  A NULL in a [nullable=False] column makes the
    UPDATE fail.

    A column is described by [same], the comparison of a supplied value
    with the loaded one, and [store], the value the column takes, if it can
    take it. *)

Definition modifies {A B} (same : A -> B -> bool) (supplied : option A) (current : B)
  : bool :=
  match supplied with
  | Some v => negb (same v current)
  | None => false
  end.

Definition setattr {A B} (same : A -> B -> bool) (store : A -> option B)
    (supplied : option A) (current : B) : B :=
  match supplied with
  | Some v =>
      if same v current then current
      else match store v with
           | Some b => b
           | None => current
           end
  | None => current
  end.

Definition violates_not_null {A B} (store : A -> option B) (supplied : option A) : bool :=
  match supplied with
  | Some v => match store v with Some _ => false | None => true end
  | None => false
  end.

(** A nullable column of strings, booleans or integers. *)
Definition same_nullable {A} (eqb : A -> A -> bool) (v current : option A) : bool :=
  option_eqb eqb v current.

Definition store_nullable {A} (v : option A) : option (option A) := Some v.

(** A [nullable=False] column. *)
Definition same_required {A} (eqb : A -> A -> bool) (v : option A) (current : A) : bool :=
  option_eqb eqb v (Some current).

Definition store_required {A} (v : option A) : option A := v.

(** [Float] columns. *)
Definition store_real (v : option float) : option (option float) := Some (nullable_real v).

Definition store_required_real (v : option float) : option float := nullable_real v.

(** [DateTime] columns: the loaded value is a naive datetime. *)
Definition same_datetime (v : option datetime) (current : option DateTime) : bool :=
  option_eqb datetime_eqb v (option_map naive current).

Definition store_datetime (v : option datetime) : option (option DateTime) :=
  Some (option_map wall_clock v).

Definition onupdate (dirty : bool) (now : Z) (current : option Z) : option Z :=
  if dirty then Some now else current.

(** An integer column takes part in the UPDATE, with a value the driver
    cannot bind. *)
Definition overflows (supplied : option (option Z)) (current : option Z) : bool :=
  modifies (same_nullable Z.eqb) supplied current
  && match supplied with
     | Some v => negb (bindable v)
     | None => false
     end.

(** ** Heat centers *)

Definition create_heat_center (center : HeatCenterCreate.t) (now : Z) (db : Database)
  : Result HeatCenter.t * Database :=
  match fits (next_id (map HeatCenter.id (heat_centers db))) with
  | None => (Err OperationalError, db)
  | Some id_fits =>
      match sqlite_real (HeatCenterCreate.location_lat center),
            sqlite_real (HeatCenterCreate.location_lng center),
            sqlite_real (HeatCenterCreate.max_capacity_mw center) with
      | Some location_lat, Some location_lng, Some max_capacity_mw =>
          let db_center :=
            HeatCenter.mk
              (next_id (map HeatCenter.id (heat_centers db)))
              (HeatCenterCreate.name center)
              location_lat
              location_lng
              (HeatCenterCreate.address center)
              max_capacity_mw
              (real_default 0%float (HeatCenterCreate.current_output_mw center))
              (real_default 85%float (HeatCenterCreate.efficiency_percent center))
              (HeatCenterCreate.fuel_type center)
              (column_default true (HeatCenterCreate.is_active center))
              (option_map wall_clock (HeatCenterCreate.commissioning_date center))
              (option_map wall_clock (HeatCenterCreate.last_maintenance center))
              (HeatCenterCreate.description center)
              now
              None
              id_fits in
          (Ok db_center, set_heat_centers db (heat_centers db ++ [db_center]))
      | _, _, _ => (Err IntegrityError, db)
      end
  end.

Definition get_heat_center (center_id : Z) (db : Database) : Result HeatCenter.t :=
  center <- query_heat_center db center_id ;;
  match center with
  | None => Err (HTTPException 404 "Heat center not found")
  | Some center => Ok center
  end.

Definition heat_center_not_null_violation (u : HeatCenterUpdate.t) : bool :=
  violates_not_null store_required (HeatCenterUpdate.name u)
  || violates_not_null store_required_real (HeatCenterUpdate.location_lat u)
  || violates_not_null store_required_real (HeatCenterUpdate.location_lng u)
  || violates_not_null store_required_real (HeatCenterUpdate.max_capacity_mw u).

Definition heat_center_dirty (c : HeatCenter.t) (u : HeatCenterUpdate.t) : bool :=
  modifies (same_required String.eqb) (HeatCenterUpdate.name u) (HeatCenter.name c)
  || modifies (same_required float_eqb) (HeatCenterUpdate.location_lat u)
       (HeatCenter.location_lat c)
  || modifies (same_required float_eqb) (HeatCenterUpdate.location_lng u)
       (HeatCenter.location_lng c)
  || modifies (same_nullable String.eqb) (HeatCenterUpdate.address u) (HeatCenter.address c)
  || modifies (same_required float_eqb) (HeatCenterUpdate.max_capacity_mw u)
       (HeatCenter.max_capacity_mw c)
  || modifies (same_nullable float_eqb) (HeatCenterUpdate.current_output_mw u)
       (HeatCenter.current_output_mw c)
  || modifies (same_nullable float_eqb) (HeatCenterUpdate.efficiency_percent u)
       (HeatCenter.efficiency_percent c)
  || modifies (same_nullable String.eqb) (HeatCenterUpdate.fuel_type u)
       (HeatCenter.fuel_type c)
  || modifies (same_nullable Bool.eqb) (HeatCenterUpdate.is_active u) (HeatCenter.is_active c)
  || modifies same_datetime (HeatCenterUpdate.commissioning_date u)
       (HeatCenter.commissioning_date c)
  || modifies same_datetime (HeatCenterUpdate.last_maintenance u)
       (HeatCenter.last_maintenance c)
  || modifies (same_nullable String.eqb) (HeatCenterUpdate.description u)
       (HeatCenter.description c).

Definition heat_center_setattrs (c : HeatCenter.t) (u : HeatCenterUpdate.t) (now : Z)
  : HeatCenter.t :=
  HeatCenter.mk
    (HeatCenter.id c)
    (setattr (same_required String.eqb) store_required
       (HeatCenterUpdate.name u) (HeatCenter.name c))
    (setattr (same_required float_eqb) store_required_real
       (HeatCenterUpdate.location_lat u) (HeatCenter.location_lat c))
    (setattr (same_required float_eqb) store_required_real
       (HeatCenterUpdate.location_lng u) (HeatCenter.location_lng c))
    (setattr (same_nullable String.eqb) store_nullable
       (HeatCenterUpdate.address u) (HeatCenter.address c))
    (setattr (same_required float_eqb) store_required_real
       (HeatCenterUpdate.max_capacity_mw u) (HeatCenter.max_capacity_mw c))
    (setattr (same_nullable float_eqb) store_real
       (HeatCenterUpdate.current_output_mw u) (HeatCenter.current_output_mw c))
    (setattr (same_nullable float_eqb) store_real
       (HeatCenterUpdate.efficiency_percent u) (HeatCenter.efficiency_percent c))
    (setattr (same_nullable String.eqb) store_nullable
       (HeatCenterUpdate.fuel_type u) (HeatCenter.fuel_type c))
    (setattr (same_nullable Bool.eqb) store_nullable
       (HeatCenterUpdate.is_active u) (HeatCenter.is_active c))
    (setattr same_datetime store_datetime
       (HeatCenterUpdate.commissioning_date u) (HeatCenter.commissioning_date c))
    (setattr same_datetime store_datetime
       (HeatCenterUpdate.last_maintenance u) (HeatCenter.last_maintenance c))
    (setattr (same_nullable String.eqb) store_nullable
       (HeatCenterUpdate.description u) (HeatCenter.description c))
    (HeatCenter.created_at c)
    (onupdate (heat_center_dirty c u) now (HeatCenter.updated_at c))
    (HeatCenter.id_fits c).

(** [UPDATE heat_centers SET ... WHERE id = ?] *)
Definition write_heat_center (c' : HeatCenter.t) (l : list HeatCenter.t) : list HeatCenter.t :=
  map (fun c => if HeatCenter.id c =? HeatCenter.id c' then c' else c) l.

Definition update_heat_center (center_id : Z) (center_update : HeatCenterUpdate.t)
    (now : Z) (db : Database) : Result HeatCenter.t * Database :=
  match query_heat_center db center_id with
  | Err e => (Err e, db)
  | Ok None => (Err (HTTPException 404 "Heat center not found"), db)
  | Ok (Some center) =>
      if heat_center_not_null_violation center_update then (Err IntegrityError, db)
      else
        let center' := heat_center_setattrs center center_update now in
        (Ok center', set_heat_centers db (write_heat_center center' (heat_centers db)))
  end.

Definition delete_heat_center (center_id : Z) (db : Database) : Result string * Database :=
  match query_heat_center db center_id with
  | Err e => (Err e, db)
  | Ok None => (Err (HTTPException 404 "Heat center not found"), db)
  | Ok (Some center) =>
      let active_routes := List.length (routes_of_heat_center db center_id) in
      if (0 <? active_routes)%nat then
        (Err (HTTPException 400 "Cannot delete heat center with active routes"), db)
      else
        (Ok "Heat center deleted successfully",
         set_heat_centers db
           (filter (fun c => negb (HeatCenter.id c =? HeatCenter.id center))
                   (heat_centers db)))
  end.

(** ** Demand sites *)

Definition create_demand_site (site : DemandSiteCreate.t) (now : Z) (db : Database)
  : Result DemandSite.t * Database :=
  if bindable (DemandSiteCreate.priority_level site)
     && bindable (DemandSiteCreate.building_age_years site) then
    match fits (next_id (map DemandSite.id (demand_sites db))) with
    | None => (Err OperationalError, db)
    | Some id_fits =>
        match sqlite_real (DemandSiteCreate.location_lat site),
              sqlite_real (DemandSiteCreate.location_lng site),
              sqlite_real (DemandSiteCreate.peak_demand_mw site) with
        | Some location_lat, Some location_lng, Some peak_demand_mw =>
            let db_site :=
              DemandSite.mk
                (next_id (map DemandSite.id (demand_sites db)))
                (DemandSiteCreate.name site)
                location_lat
                location_lng
                (DemandSiteCreate.address site)
                (DemandSiteCreate.site_type site)
                peak_demand_mw
                (real_default 0%float (DemandSiteCreate.current_demand_mw site))
                (nullable_real (DemandSiteCreate.annual_consumption_mwh site))
                (column_default false (DemandSiteCreate.is_connected site))
                (option_map wall_clock (DemandSiteCreate.connection_date site))
                (column_default 1 (DemandSiteCreate.priority_level site))
                (nullable_real (DemandSiteCreate.floor_area_sqm site))
                (DemandSiteCreate.building_age_years site)
                (DemandSiteCreate.insulation_rating site)
                (DemandSiteCreate.description site)
                now
                None
                id_fits in
            (Ok db_site, set_demand_sites db (demand_sites db ++ [db_site]))
        | _, _, _ => (Err IntegrityError, db)
        end
    end
  else (Err OverflowError, db).

Definition get_demand_site (site_id : Z) (db : Database) : Result DemandSite.t :=
  site <- query_demand_site db site_id ;;
  match site with
  | None => Err (HTTPException 404 "Demand site not found")
  | Some site => Ok site
  end.

Definition demand_site_not_null_violation (u : DemandSiteUpdate.t) : bool :=
  violates_not_null store_required (DemandSiteUpdate.name u)
  || violates_not_null store_required_real (DemandSiteUpdate.location_lat u)
  || violates_not_null store_required_real (DemandSiteUpdate.location_lng u)
  || violates_not_null store_required_real (DemandSiteUpdate.peak_demand_mw u).

Definition demand_site_overflow (s : DemandSite.t) (u : DemandSiteUpdate.t) : bool :=
  overflows (DemandSiteUpdate.priority_level u) (DemandSite.priority_level s)
  || overflows (DemandSiteUpdate.building_age_years u) (DemandSite.building_age_years s).

Definition demand_site_dirty (s : DemandSite.t) (u : DemandSiteUpdate.t) : bool :=
  modifies (same_required String.eqb) (DemandSiteUpdate.name u) (DemandSite.name s)
  || modifies (same_required float_eqb) (DemandSiteUpdate.location_lat u)
       (DemandSite.location_lat s)
  || modifies (same_required float_eqb) (DemandSiteUpdate.location_lng u)
       (DemandSite.location_lng s)
  || modifies (same_nullable String.eqb) (DemandSiteUpdate.address u) (DemandSite.address s)
  || modifies (same_nullable String.eqb) (DemandSiteUpdate.site_type u)
       (DemandSite.site_type s)
  || modifies (same_required float_eqb) (DemandSiteUpdate.peak_demand_mw u)
       (DemandSite.peak_demand_mw s)
  || modifies (same_nullable float_eqb) (DemandSiteUpdate.current_demand_mw u)
       (DemandSite.current_demand_mw s)
  || modifies (same_nullable float_eqb) (DemandSiteUpdate.annual_consumption_mwh u)
       (DemandSite.annual_consumption_mwh s)
  || modifies (same_nullable Bool.eqb) (DemandSiteUpdate.is_connected u)
       (DemandSite.is_connected s)
  || modifies same_datetime (DemandSiteUpdate.connection_date u)
       (DemandSite.connection_date s)
  || modifies (same_nullable Z.eqb) (DemandSiteUpdate.priority_level u)
       (DemandSite.priority_level s)
  || modifies (same_nullable float_eqb) (DemandSiteUpdate.floor_area_sqm u)
       (DemandSite.floor_area_sqm s)
  || modifies (same_nullable Z.eqb) (DemandSiteUpdate.building_age_years u)
       (DemandSite.building_age_years s)
  || modifies (same_nullable String.eqb) (DemandSiteUpdate.insulation_rating u)
       (DemandSite.insulation_rating s)
  || modifies (same_nullable String.eqb) (DemandSiteUpdate.description u)
       (DemandSite.description s).

Definition demand_site_setattrs (s : DemandSite.t) (u : DemandSiteUpdate.t) (now : Z)
  : DemandSite.t :=
  DemandSite.mk
    (DemandSite.id s)
    (setattr (same_required String.eqb) store_required
       (DemandSiteUpdate.name u) (DemandSite.name s))
    (setattr (same_required float_eqb) store_required_real
       (DemandSiteUpdate.location_lat u) (DemandSite.location_lat s))
    (setattr (same_required float_eqb) store_required_real
       (DemandSiteUpdate.location_lng u) (DemandSite.location_lng s))
    (setattr (same_nullable String.eqb) store_nullable
       (DemandSiteUpdate.address u) (DemandSite.address s))
    (setattr (same_nullable String.eqb) store_nullable
       (DemandSiteUpdate.site_type u) (DemandSite.site_type s))
    (setattr (same_required float_eqb) store_required_real
       (DemandSiteUpdate.peak_demand_mw u) (DemandSite.peak_demand_mw s))
    (setattr (same_nullable float_eqb) store_real
       (DemandSiteUpdate.current_demand_mw u) (DemandSite.current_demand_mw s))
    (setattr (same_nullable float_eqb) store_real
       (DemandSiteUpdate.annual_consumption_mwh u) (DemandSite.annual_consumption_mwh s))
    (setattr (same_nullable Bool.eqb) store_nullable
       (DemandSiteUpdate.is_connected u) (DemandSite.is_connected s))
    (setattr same_datetime store_datetime
       (DemandSiteUpdate.connection_date u) (DemandSite.connection_date s))
    (setattr (same_nullable Z.eqb) store_nullable
       (DemandSiteUpdate.priority_level u) (DemandSite.priority_level s))
    (setattr (same_nullable float_eqb) store_real
       (DemandSiteUpdate.floor_area_sqm u) (DemandSite.floor_area_sqm s))
    (setattr (same_nullable Z.eqb) store_nullable
       (DemandSiteUpdate.building_age_years u) (DemandSite.building_age_years s))
    (setattr (same_nullable String.eqb) store_nullable
       (DemandSiteUpdate.insulation_rating u) (DemandSite.insulation_rating s))
    (setattr (same_nullable String.eqb) store_nullable
       (DemandSiteUpdate.description u) (DemandSite.description s))
    (DemandSite.created_at s)
    (onupdate (demand_site_dirty s u) now (DemandSite.updated_at s))
    (DemandSite.id_fits s).

Definition write_demand_site (s' : DemandSite.t) (l : list DemandSite.t) : list DemandSite.t :=
  map (fun s => if DemandSite.id s =? DemandSite.id s' then s' else s) l.

Definition update_demand_site (site_id : Z) (site_update : DemandSiteUpdate.t)
    (now : Z) (db : Database) : Result DemandSite.t * Database :=
  match query_demand_site db site_id with
  | Err e => (Err e, db)
  | Ok None => (Err (HTTPException 404 "Demand site not found"), db)
  | Ok (Some site) =>
      if demand_site_overflow site site_update then (Err OverflowError, db)
      else if demand_site_not_null_violation site_update then (Err IntegrityError, db)
      else
        let site' := demand_site_setattrs site site_update now in
        (Ok site', set_demand_sites db (write_demand_site site' (demand_sites db)))
  end.

Definition delete_demand_site (site_id : Z) (db : Database) : Result string * Database :=
  match query_demand_site db site_id with
  | Err e => (Err e, db)
  | Ok None => (Err (HTTPException 404 "Demand site not found"), db)
  | Ok (Some site) =>
      let active_routes := List.length (routes_of_demand_site db site_id) in
      if (0 <? active_routes)%nat then
        (Err (HTTPException 400 "Cannot delete demand site with active routes"), db)
      else
        (Ok "Demand site deleted successfully",
         set_demand_sites db
           (filter (fun s => negb (DemandSite.id s =? DemandSite.id site))
                   (demand_sites db)))
  end.

(** ** Routes *)

Definition create_route (route : RouteCreate.t) (now : Z) (db : Database)
  : Result Route.t * Database :=
  match query_heat_center db (RouteCreate.heat_center_id route) with
  | Err e => (Err e, db)
  | Ok None => (Err (HTTPException 404 "Heat center not found"), db)
  | Ok (Some heat_center) =>
      match query_demand_site db (RouteCreate.demand_site_id route) with
      | Err e => (Err e, db)
      | Ok None => (Err (HTTPException 404 "Demand site not found"), db)
      | Ok (Some demand_site) =>
          match route_between db (RouteCreate.heat_center_id route)
                                 (RouteCreate.demand_site_id route) with
          | Some existing_route =>
              (Err (HTTPException 400 "Route already exists between these locations"), db)
          | None =>
              if bindable (RouteCreate.pipe_diameter_mm route)
                 && bindable (RouteCreate.installation_year route) then
                match fits (next_id (map Route.id (routes db))) with
                | None => (Err OperationalError, db)
                | Some id_fits =>
                    match sqlite_real (RouteCreate.distance_km route),
                          sqlite_real (RouteCreate.max_flow_capacity_mw route) with
                    | Some distance_km, Some max_flow_capacity_mw =>
                        let db_route :=
                          Route.mk
                            (next_id (map Route.id (routes db)))
                            (RouteCreate.heat_center_id route)
                            (RouteCreate.demand_site_id route)
                            distance_km
                            (RouteCreate.pipe_diameter_mm route)
                            max_flow_capacity_mw
                            (real_default 0%float (RouteCreate.current_flow_mw route))
                            (real_default 80%float (RouteCreate.supply_temp_celsius route))
                            (real_default 40%float (RouteCreate.return_temp_celsius route))
                            (real_default 16%float (RouteCreate.pressure_bar route))
                            (real_default 2%float (RouteCreate.heat_loss_percent route))
                            (RouteCreate.installation_year route)
                            (RouteCreate.pipe_material route)
                            (RouteCreate.insulation_type route)
                            (column_default ACTIVE (RouteCreate.status route))
                            (column_default false (RouteCreate.is_bidirectional route))
                            (option_map wall_clock (RouteCreate.maintenance_due route))
                            (nullable_real (RouteCreate.construction_cost route))
                            (nullable_real (RouteCreate.annual_maintenance_cost route))
                            now
                            None
                            id_fits in
                        (Ok db_route, set_routes db (routes db ++ [db_route]))
                    | _, _ => (Err IntegrityError, db)
                    end
                end
              else (Err OverflowError, db)
          end
      end
  end.

Definition get_route (route_id : Z) (db : Database) : Result Route.t :=
  route <- query_route db route_id ;;
  match route with
  | None => Err (HTTPException 404 "Route not found")
  | Some route => Ok route
  end.

Definition delete_route (route_id : Z) (db : Database) : Result string * Database :=
  match query_route db route_id with
  | Err e => (Err e, db)
  | Ok None => (Err (HTTPException 404 "Route not found"), db)
  | Ok (Some route) =>
      (Ok "Route deleted successfully",
       set_routes db
         (filter (fun r => negb (Route.id r =? Route.id route)) (routes db)))
  end.

(** ** Listing

    [Query(default, ge=..., le=...)]: an absent parameter takes the default,
    a value outside the declared bounds is rejected before the handler runs. *)

Definition Query (default : Z) (ge le : option Z) (v : option Z) : Result Z :=
  match v with
  | None => Ok default
  | Some x =>
      let above := match ge with Some lo => lo <=? x | None => true end in
      let below := match le with Some hi => x <=? hi | None => true end in
      if above && below then Ok x else Err RequestValidationError
  end.

(** The rows that [OFFSET skip LIMIT limit] selects. *)
Definition page {A} (skip limit : Z) (query : list A) : list A :=
  firstn (Z.to_nat limit) (skipn (Z.to_nat skip) query).

(** [query.all()] runs the statement: each of its integer parameters is
    bound as a 64-bit integer. *)
Definition all_rows {A} (params : list Z) (rows : list A) : Result (list A) :=
  if forallb int64 params then Ok rows else Err OverflowError.

(** The parameter of a filter that is applied under [if id:]. *)
Definition filter_param (id : option Z) : list Z :=
  match id with
  | Some x => if x =? 0 then [] else [x]
  | None => []
  end.

(** [column == True] in a filter; NULL does not match. *)
Definition is_true (v : option bool) : bool := option_eqb Bool.eqb v (Some true).

Definition get_heat_centers (skip limit : option Z) (active_only : bool) (db : Database)
  : Result (list HeatCenter.t) :=
  skip <- Query 0 (Some 0) None skip ;;
  limit <- Query 100 (Some 1) (Some 1000) limit ;;
  let query := heat_centers db in
  let query :=
    if active_only then filter (fun c => is_true (HeatCenter.is_active c)) query
    else query in
  all_rows [limit; skip] (page skip limit query).

Definition get_demand_sites (skip limit : option Z) (connected_only : bool)
    (site_type : option string) (db : Database) : Result (list DemandSite.t) :=
  skip <- Query 0 (Some 0) None skip ;;
  limit <- Query 100 (Some 1) (Some 1000) limit ;;
  let query := demand_sites db in
  let query :=
    if connected_only then filter (fun s => is_true (DemandSite.is_connected s)) query
    else query in
  let query :=
    match site_type with
    | Some ty =>
        if String.eqb ty "" then query
        else filter (fun s => option_eqb String.eqb (DemandSite.site_type s) (Some ty)) query
    | None => query
    end in
  all_rows [limit; skip] (page skip limit query).

Definition get_routes (skip limit : option Z) (status : option RouteStatus)
    (heat_center_id demand_site_id : option Z) (db : Database) : Result (list Route.t) :=
  skip <- Query 0 (Some 0) None skip ;;
  limit <- Query 100 (Some 1) (Some 1000) limit ;;
  let query := routes db in
  let query :=
    match status with
    | Some st => filter (fun r => option_eqb RouteStatus_eqb (Route.status r) (Some st)) query
    | None => query
    end in
  let query :=
    match heat_center_id with
    | Some hc =>
        if hc =? 0 then query
        else filter (fun r => Route.heat_center_id r =? hc) query
    | None => query
    end in
  let query :=
    match demand_site_id with
    | Some ds =>
        if ds =? 0 then query
        else filter (fun r => Route.demand_site_id r =? ds) query
    | None => query
    end in
  all_rows (filter_param heat_center_id ++ filter_param demand_site_id ++ [limit; skip])
           (page skip limit query).

(** ** Analytics *)

(** [round((num / den * 100) if den > 0 else 0, 2)]; a [None] numerator
    raises when the division is evaluated. *)
Definition percent_of (num : option number) (den : number) : Result number :=
  p <- (if gt_0 den then
          match num with
          | None => Err TypeError
          | Some n => q <- truediv n den ;; Ok (Float (q * 100)%float)
          end
        else Ok (Int 0)) ;;
  Ok (round2 p).

Record Overview : Type := mkOverview {
  heat_centers_total : Z;
  heat_centers_active : Z;
  demand_sites_total : Z;
  demand_sites_connected : Z;
  routes_total : Z;
  routes_active : Z;
  total_generation_capacity_mw : float;
  current_generation_mw : float;
  capacity_utilization_percent : number;
  total_peak_demand_mw : float;
  current_demand_mw : float;
  demand_coverage_percent : number;
  total_pipeline_km : float;
  average_route_distance_km : number
}.

Definition count {A} (l : list A) : Z := Z.of_nat (List.length l).

(** The sums the overview starts from, each [scalar() or 0]. *)
Definition capacity_sum (db : Database) : number :=
  or_0 (sql_sum (map (fun c => Some (HeatCenter.max_capacity_mw c)) (heat_centers db))).

Definition output_sum (db : Database) : number :=
  or_0 (sql_sum (map HeatCenter.current_output_mw (heat_centers db))).

Definition peak_demand_sum (db : Database) : number :=
  or_0 (sql_sum (map (fun s => Some (DemandSite.peak_demand_mw s)) (demand_sites db))).

Definition demand_sum (db : Database) : number :=
  or_0 (sql_sum (map DemandSite.current_demand_mw (demand_sites db))).

Definition distance_sum (db : Database) : number :=
  or_0 (sql_sum (map (fun r => Some (Route.distance_km r)) (routes db))).

Definition get_analytics_overview (db : Database) : Result Overview :=
  let total_heat_centers := count (heat_centers db) in
  let active_heat_centers :=
    count (filter (fun c => is_true (HeatCenter.is_active c)) (heat_centers db)) in
  let total_demand_sites := count (demand_sites db) in
  let connected_demand_sites :=
    count (filter (fun s => is_true (DemandSite.is_connected s)) (demand_sites db)) in
  let total_routes := count (routes db) in
  let active_routes :=
    count (filter (fun r => option_eqb RouteStatus_eqb (Route.status r) (Some ACTIVE))
                  (routes db)) in
  let total_capacity := capacity_sum db in
  let current_output := output_sum db in
  let total_demand := peak_demand_sum db in
  let current_demand := demand_sum db in
  let total_pipeline_km := distance_sum db in
  total_generation_capacity_mw <- as_float total_capacity ;;
  current_generation_mw <- as_float current_output ;;
  utilization <- percent_of (Some current_output) total_capacity ;;
  total_peak_demand_mw <- as_float total_demand ;;
  current_demand_mw <- as_float current_demand ;;
  coverage <- percent_of (Some total_capacity) total_demand ;;
  pipeline_km <- as_float total_pipeline_km ;;
  average <- (if 0 <? total_routes then
                q <- truediv total_pipeline_km (Int total_routes) ;;
                Ok (round2 (Float q))
              else Ok (Int 0)) ;;
  Ok (mkOverview total_heat_centers active_heat_centers
        total_demand_sites connected_demand_sites
        total_routes active_routes
        total_generation_capacity_mw current_generation_mw utilization
        total_peak_demand_mw current_demand_mw coverage
        pipeline_km average).

(** One entry of the per-route list of a drill-down; [counterpart_id] is the
    [demand_site_id] in a heat center's view and the [heat_center_id] in a
    demand site's view. *)
Record RouteEntry : Type := mkRouteEntry {
  route_id : Z;
  counterpart_id : Z;
  entry_distance_km : float;
  entry_current_flow_mw : option float;
  entry_max_capacity_mw : float;
  entry_status : RouteStatus
}.

(** [route.status.value] raises on a NULL status. *)
Definition route_entry (counterpart : Route.t -> Z) (route : Route.t) : Result RouteEntry :=
  match Route.status route with
  | None => Err AttributeError
  | Some st =>
      Ok (mkRouteEntry (Route.id route) (counterpart route) (Route.distance_km route)
            (Route.current_flow_mw route) (Route.max_flow_capacity_mw route) st)
  end.

Fixpoint route_entries (counterpart : Route.t -> Z) (l : list Route.t)
  : Result (list RouteEntry) :=
  match l with
  | [] => Ok []
  | route :: rest =>
      e <- route_entry counterpart route ;;
      es <- route_entries counterpart rest ;;
      Ok (e :: es)
  end.

Record HeatCenterAnalytics : Type := mkHeatCenterAnalytics {
  center_info : HeatCenter.t;
  hc_capacity_utilization_percent : number;
  connected_demand_mw : float;
  hc_number_of_routes : Z;
  hc_routes : list RouteEntry
}.

Definition get_heat_center_analytics (center_id : Z) (db : Database)
  : Result HeatCenterAnalytics :=
  center <- query_heat_center db center_id ;;
  match center with
  | None => Err (HTTPException 404 "Heat center not found")
  | Some center =>
      let routes := routes_of_heat_center db center_id in
      connected_demand <- py_sum (map Route.current_flow_mw routes) ;;
      utilization <- percent_of (option_map Float (HeatCenter.current_output_mw center))
                                (Float (HeatCenter.max_capacity_mw center)) ;;
      connected_demand_mw <- as_float connected_demand ;;
      entries <- route_entries Route.demand_site_id routes ;;
      Ok (mkHeatCenterAnalytics center utilization connected_demand_mw
            (count routes) entries)
  end.

Record DemandSiteAnalytics : Type := mkDemandSiteAnalytics {
  site_info : DemandSite.t;
  total_supply_capacity_mw : float;
  current_supply_mw : float;
  ds_demand_coverage_percent : number;
  current_utilization_percent : number;
  ds_routes : list RouteEntry
}.

Definition get_demand_site_analytics (site_id : Z) (db : Database)
  : Result DemandSiteAnalytics :=
  site <- query_demand_site db site_id ;;
  match site with
  | None => Err (HTTPException 404 "Demand site not found")
  | Some site =>
      let routes := routes_of_demand_site db site_id in
      total_supply_capacity <-
        py_sum (map (fun r => Some (Route.max_flow_capacity_mw r)) routes) ;;
      current_supply <- py_sum (map Route.current_flow_mw routes) ;;
      total_supply_capacity_mw <- as_float total_supply_capacity ;;
      current_supply_mw <- as_float current_supply ;;
      coverage <- percent_of (Some total_supply_capacity)
                             (Float (DemandSite.peak_demand_mw site)) ;;
      utilization <- percent_of (option_map Float (DemandSite.current_demand_mw site))
                                (Float (DemandSite.peak_demand_mw site)) ;;
      entries <- route_entries Route.heat_center_id routes ;;
      Ok (mkDemandSiteAnalytics site total_supply_capacity_mw current_supply_mw
            coverage utilization entries)
  end.

(** [json.dumps(content, allow_nan=False)], as the framework renders a
    returned value: a float that is infinite or not a number raises. *)
Definition json_float (x : float) : bool := is_finite x.

Definition json_number (v : number) : bool :=
  match v with
  | Int _ => true
  | Float x => json_float x
  end.

Definition JSONResponse (o : Overview) : Result Overview :=
  if json_float (total_generation_capacity_mw o)
     && json_float (current_generation_mw o)
     && json_number (capacity_utilization_percent o)
     && json_float (total_peak_demand_mw o)
     && json_float (current_demand_mw o)
     && json_number (demand_coverage_percent o)
     && json_float (total_pipeline_km o)
     && json_number (average_route_distance_km o)
  then Ok o else Err ValueError.

(** ** Configuration *)

(** A Python [dict] with string keys, in insertion order. *)
Fixpoint dict_set {V} (d : list (string * V)) (k : string) (v : V) : list (string * V) :=
  match d with
  | [] => [(k, v)]
  | (k', v') :: rest =>
      if String.eqb k' k then (k', v) :: rest else (k', v') :: dict_set rest k v
  end.

Fixpoint dict_get {V} (d : list (string * V)) (k : string) : option V :=
  match d with
  | [] => None
  | (k', v') :: rest => if String.eqb k' k then Some v' else dict_get rest k
  end.

(** [str.lower()], on ASCII letters. *)
Definition lower_ascii (c : ascii) : ascii :=
  let n := nat_of_ascii c in
  if ((65 <=? n) && (n <=? 90))%nat then ascii_of_nat (n + 32) else c.

Fixpoint lower (s : string) : string :=
  match s with
  | EmptyString => EmptyString
  | String c rest => String (lower_ascii c) (lower rest)
  end.

Definition type_is (config : SystemConfig.t) (tag : string) : bool :=
  option_eqb String.eqb (SystemConfig.config_type config) (Some tag).

Section Config.

(** The parsers of the Python runtime: [int(str)], [float(str)] and
    [json.loads(str)], each with the exception it raises where it raises. *)
Variable Json : Type.
Variable py_int : string -> Result Z.
Variable py_float : string -> Result float.
Variable json_loads : string -> Result Json.

Inductive ConfigValue : Type :=
| VInt (n : Z)
| VFloat (x : float)
| VBool (b : bool)
| VJson (j : Json)
| VStr (s : string).

(** The conversion of one entry, "based on config_type". *)
Definition convert (config : SystemConfig.t) : Result ConfigValue :=
  let value := SystemConfig.config_value config in
  if type_is config "integer" then n <- py_int value ;; Ok (VInt n)
  else if type_is config "float" then x <- py_float value ;; Ok (VFloat x)
  else if type_is config "boolean" then
    let v := lower value in
    Ok (VBool (String.eqb v "true" || String.eqb v "1"
               || String.eqb v "yes" || String.eqb v "on"))
  else if type_is config "json" then j <- json_loads value ;; Ok (VJson j)
  else Ok (VStr value).

Fixpoint fill_config (configs : list SystemConfig.t) (config_dict : list (string * ConfigValue))
  : Result (list (string * ConfigValue)) :=
  match configs with
  | [] => Ok config_dict
  | config :: rest =>
      value <- convert config ;;
      fill_config rest (dict_set config_dict (SystemConfig.config_key config) value)
  end.

Definition default_map_config : list (string * ConfigValue) :=
  [ ("default_zoom", VInt 10);
    ("center_lat", VFloat 59.3293%float);
    ("center_lng", VFloat 18.0686%float);
    ("heat_center_icon", VStr "power-plant");
    ("demand_site_icon", VStr "building");
    ("route_color", VStr "#ff4444");
    ("route_width", VInt 3);
    ("max_zoom", VInt 18);
    ("min_zoom", VInt 5) ].

(** The value under ["map_config"] of the response. *)
Definition get_config (db : Database) : Result (list (string * ConfigValue)) :=
  let configs :=
    filter (fun c => is_true (SystemConfig.is_active c)) (system_config db) in
  config_dict <- fill_config configs [] ;;
  match config_dict with
  | [] => Ok default_map_config
  | _ => Ok config_dict
  end.

End Config.

Arguments VInt {Json} n.
Arguments VFloat {Json} x.
Arguments VBool {Json} b.
Arguments VJson {Json} j.
Arguments VStr {Json} s.
Arguments convert {Json} py_int py_float json_loads config.
Arguments fill_config {Json} py_int py_float json_loads configs config_dict.
Arguments default_map_config {Json}.
Arguments get_config {Json} py_int py_float json_loads db.

(** Python truthiness of an optional string. *)
Definition truthy (v : option string) : bool :=
  match v with
  | Some s => negb (String.eqb s "")
  | None => false
  end.

Definition write_config (c' : SystemConfig.t) (l : list SystemConfig.t) : list SystemConfig.t :=
  map (fun c => if SystemConfig.id c =? SystemConfig.id c' then c' else c) l.

Definition set_config (config_key config_value config_type : string)
    (description : option string) (now : Z) (db : Database) : Result string * Database :=
  let message := "Configuration '" ++ config_key ++ "' updated successfully" in
  match config_by_key db config_key with
  | Some config =>
      let description' :=
        if truthy description then description else SystemConfig.description config in
      let dirty :=
        negb (String.eqb config_value (SystemConfig.config_value config))
        || negb (option_eqb String.eqb (Some config_type) (SystemConfig.config_type config))
        || negb (option_eqb String.eqb description' (SystemConfig.description config)) in
      let config' :=
        SystemConfig.mk (SystemConfig.id config) (SystemConfig.config_key config)
          config_value (Some config_type) description'
          (SystemConfig.is_active config) (SystemConfig.created_at config)
          (onupdate dirty now (SystemConfig.updated_at config)) in
      (Ok message, set_system_config db (write_config config' (system_config db)))
  | None =>
      let config :=
        SystemConfig.mk (next_id (map SystemConfig.id (system_config db)))
          config_key config_value (Some config_type) description
          (column_default true None) now None in
      (Ok message, set_system_config db (system_config db ++ [config]))
  end.

(** ** The service as a transition system *)

Inductive Request : Type :=
| CreateHeatCenter (center : HeatCenterCreate.t)
| UpdateHeatCenter (center_id : Z) (center_update : HeatCenterUpdate.t)
| DeleteHeatCenter (center_id : Z)
| CreateDemandSite (site : DemandSiteCreate.t)
| UpdateDemandSite (site_id : Z) (site_update : DemandSiteUpdate.t)
| DeleteDemandSite (site_id : Z)
| CreateRoute (route : RouteCreate.t)
| DeleteRoute (route_id : Z)
| SetConfig (config_key config_value config_type : string) (description : option string).

(** The database a request leaves behind, served at clock [now]. *)
Definition serve (now : Z) (req : Request) (db : Database) : Database :=
  match req with
  | CreateHeatCenter center => snd (create_heat_center center now db)
  | UpdateHeatCenter center_id center_update =>
      snd (update_heat_center center_id center_update now db)
  | DeleteHeatCenter center_id => snd (delete_heat_center center_id db)
  | CreateDemandSite site => snd (create_demand_site site now db)
  | UpdateDemandSite site_id site_update =>
      snd (update_demand_site site_id site_update now db)
  | DeleteDemandSite site_id => snd (delete_demand_site site_id db)
  | CreateRoute route => snd (create_route route now db)
  | DeleteRoute route_id => snd (delete_route route_id db)
  | SetConfig config_key config_value config_type description =>
      snd (set_config config_key config_value config_type description now db)
  end.

Inductive reachable : Database -> Prop :=
| reachable_empty : reachable empty_db
| reachable_serve now req db : reachable db -> reachable (serve now req db).

(** The (heat center, demand site) pair a route connects. *)
Definition endpoints (r : Route.t) : Z * Z :=
  (Route.heat_center_id r, Route.demand_site_id r).

(** What every database built by the service satisfies: primary keys and
    configuration keys are unique, a route's endpoints exist, no two routes
    connect the same pair, and every route has a status. *)
Record consistent (db : Database) : Prop := mkConsistent {
  unique_pairs : NoDup (map endpoints (routes db));
  heat_center_pk : NoDup (map HeatCenter.id (heat_centers db));
  demand_site_pk : NoDup (map DemandSite.id (demand_sites db));
  route_pk : NoDup (map Route.id (routes db));
  config_pk : NoDup (map SystemConfig.id (system_config db));
  config_keys : NoDup (map SystemConfig.config_key (system_config db));
  positive_ids :
    (forall i, In i (map HeatCenter.id (heat_centers db)) -> 0 < i)
    /\ (forall i, In i (map DemandSite.id (demand_sites db)) -> 0 < i);
  endpoints_exist :
    forall r, In r (routes db) ->
      In (Route.heat_center_id r) (map HeatCenter.id (heat_centers db))
      /\ In (Route.demand_site_id r) (map DemandSite.id (demand_sites db));
  routes_filled :
    forall r, In r (routes db) -> Route.status r <> None
}.

(** ** What a partial update does to a column

    A column that was not supplied keeps its value; a supplied one takes
    the supplied value, as the column stores it. *)
Definition field_updated {A B} (stored : A -> B -> Prop) (supplied : option A)
    (old new : B) : Prop :=
  match supplied with
  | Some v => stored v new
  | None => new = old
  end.

(** Strings, booleans and integers are stored as they are. *)
Definition as_supplied {A} (v new : A) : Prop := new = v.

Definition as_required {A} (v : option A) (new : A) : Prop := v = Some new.

(** A float is stored as a number equal to it, a NaN as NULL. *)
Definition as_real (v new : option float) : Prop :=
  match v with
  | None => new = None
  | Some x =>
      if is_nan x then new = None
      else exists y, new = Some y /\ float_eqb x y = true
  end.

Definition as_required_real (v : option float) (new : float) : Prop :=
  exists x, v = Some x /\ float_eqb x new = true.

(** A datetime is stored without its offset. *)
Definition as_datetime (v : option datetime) (new : option DateTime) : Prop :=
  new = option_map wall_clock v.

(** What a partial update does to the columns of a row: the primary key and
    [created_at] stay, every other column is updated field by field. *)
Definition heat_center_updated (u : HeatCenterUpdate.t) (old new : HeatCenter.t) : Prop :=
  HeatCenter.id new = HeatCenter.id old
  /\ HeatCenter.created_at new = HeatCenter.created_at old
  /\ field_updated as_required (HeatCenterUpdate.name u)
       (HeatCenter.name old) (HeatCenter.name new)
  /\ field_updated as_required_real (HeatCenterUpdate.location_lat u)
       (HeatCenter.location_lat old) (HeatCenter.location_lat new)
  /\ field_updated as_required_real (HeatCenterUpdate.location_lng u)
       (HeatCenter.location_lng old) (HeatCenter.location_lng new)
  /\ field_updated as_supplied (HeatCenterUpdate.address u)
       (HeatCenter.address old) (HeatCenter.address new)
  /\ field_updated as_required_real (HeatCenterUpdate.max_capacity_mw u)
       (HeatCenter.max_capacity_mw old) (HeatCenter.max_capacity_mw new)
  /\ field_updated as_real (HeatCenterUpdate.current_output_mw u)
       (HeatCenter.current_output_mw old) (HeatCenter.current_output_mw new)
  /\ field_updated as_real (HeatCenterUpdate.efficiency_percent u)
       (HeatCenter.efficiency_percent old) (HeatCenter.efficiency_percent new)
  /\ field_updated as_supplied (HeatCenterUpdate.fuel_type u)
       (HeatCenter.fuel_type old) (HeatCenter.fuel_type new)
  /\ field_updated as_supplied (HeatCenterUpdate.is_active u)
       (HeatCenter.is_active old) (HeatCenter.is_active new)
  /\ field_updated as_datetime (HeatCenterUpdate.commissioning_date u)
       (HeatCenter.commissioning_date old) (HeatCenter.commissioning_date new)
  /\ field_updated as_datetime (HeatCenterUpdate.last_maintenance u)
       (HeatCenter.last_maintenance old) (HeatCenter.last_maintenance new)
  /\ field_updated as_supplied (HeatCenterUpdate.description u)
       (HeatCenter.description old) (HeatCenter.description new).

Definition demand_site_updated (u : DemandSiteUpdate.t) (old new : DemandSite.t) : Prop :=
  DemandSite.id new = DemandSite.id old
  /\ DemandSite.created_at new = DemandSite.created_at old
  /\ field_updated as_required (DemandSiteUpdate.name u)
       (DemandSite.name old) (DemandSite.name new)
  /\ field_updated as_required_real (DemandSiteUpdate.location_lat u)
       (DemandSite.location_lat old) (DemandSite.location_lat new)
  /\ field_updated as_required_real (DemandSiteUpdate.location_lng u)
       (DemandSite.location_lng old) (DemandSite.location_lng new)
  /\ field_updated as_supplied (DemandSiteUpdate.address u)
       (DemandSite.address old) (DemandSite.address new)
  /\ field_updated as_supplied (DemandSiteUpdate.site_type u)
       (DemandSite.site_type old) (DemandSite.site_type new)
  /\ field_updated as_required_real (DemandSiteUpdate.peak_demand_mw u)
       (DemandSite.peak_demand_mw old) (DemandSite.peak_demand_mw new)
  /\ field_updated as_real (DemandSiteUpdate.current_demand_mw u)
       (DemandSite.current_demand_mw old) (DemandSite.current_demand_mw new)
  /\ field_updated as_real (DemandSiteUpdate.annual_consumption_mwh u)
       (DemandSite.annual_consumption_mwh old) (DemandSite.annual_consumption_mwh new)
  /\ field_updated as_supplied (DemandSiteUpdate.is_connected u)
       (DemandSite.is_connected old) (DemandSite.is_connected new)
  /\ field_updated as_datetime (DemandSiteUpdate.connection_date u)
       (DemandSite.connection_date old) (DemandSite.connection_date new)
  /\ field_updated as_supplied (DemandSiteUpdate.priority_level u)
       (DemandSite.priority_level old) (DemandSite.priority_level new)
  /\ field_updated as_real (DemandSiteUpdate.floor_area_sqm u)
       (DemandSite.floor_area_sqm old) (DemandSite.floor_area_sqm new)
  /\ field_updated as_supplied (DemandSiteUpdate.building_age_years u)
       (DemandSite.building_age_years old) (DemandSite.building_age_years new)
  /\ field_updated as_supplied (DemandSiteUpdate.insulation_rating u)
       (DemandSite.insulation_rating old) (DemandSite.insulation_rating new)
  /\ field_updated as_supplied (DemandSiteUpdate.description u)
       (DemandSite.description old) (DemandSite.description new).

(** An update that the database finds unchanged when it is sent again: the
    floats it sets are numbers and the datetimes it sets carry no offset. *)
Definition is_number (v : option (option float)) : bool :=
  match v with
  | Some (Some x) => negb (is_nan x)
  | _ => true
  end.

Definition is_naive (v : option (option datetime)) : bool :=
  match v with
  | Some (Some (aware _ _)) => false
  | _ => true
  end.

Definition heat_center_settles (u : HeatCenterUpdate.t) : bool :=
  is_number (HeatCenterUpdate.current_output_mw u)
  && is_number (HeatCenterUpdate.efficiency_percent u)
  && is_naive (HeatCenterUpdate.commissioning_date u)
  && is_naive (HeatCenterUpdate.last_maintenance u).

Definition demand_site_settles (u : DemandSiteUpdate.t) : bool :=
  is_number (DemandSiteUpdate.current_demand_mw u)
  && is_number (DemandSiteUpdate.annual_consumption_mwh u)
  && is_number (DemandSiteUpdate.floor_area_sqm u)
  && is_naive (DemandSiteUpdate.connection_date u).

(** The tables a request leaves as they were. *)
Definition keeps_demand_sites (db db' : Database) : Prop :=
  demand_sites db' = demand_sites db.

Definition keeps_heat_centers (db db' : Database) : Prop :=
  heat_centers db' = heat_centers db.

Definition keeps_routes (db db' : Database) : Prop :=
  routes db' = routes db.

Definition keeps_system_config (db db' : Database) : Prop :=
  system_config db' = system_config db.

(** A computation that does not end in a division error. *)
Definition no_division_error {A} (r : Result A) : Prop := r <> Err ZeroDivisionError.

(** The entry types that [get_config] converts. *)
Definition converted_type (config : SystemConfig.t) : bool :=
  type_is config "integer" || type_is config "float"
  || type_is config "boolean" || type_is config "json".

(** ** Sample requests and databases *)

Definition sample_center (name : string) (max_capacity_mw current_output_mw : float)
  : HeatCenterCreate.t :=
  HeatCenterCreate.mk name 0%float 0%float None max_capacity_mw (Some current_output_mw)
    (Some 85%float) None (Some true) None None None.

Definition sample_site (name : string) (peak_demand_mw : float) : DemandSiteCreate.t :=
  DemandSiteCreate.mk name 0%float 0%float None (Some "Hotel") peak_demand_mw
    (Some 0%float) None (Some false) None (Some 1) None None None None.

Definition sample_route (heat_center_id demand_site_id : Z) : RouteCreate.t :=
  RouteCreate.mk heat_center_id demand_site_id 0.8%float None 10%float
    (Some 0%float) (Some 80%float) (Some 40%float) (Some 16%float)
    (Some 2%float) None None None (Some ACTIVE) (Some false) None None None.

(** The four heat centers of [seed_data.py], by capacity and output. *)
Definition seeded_centers : Database :=
  serve 4 (CreateHeatCenter (sample_center "Colocation Heat Hub - Paul Ave"
                               25%float 19.8%float))
 (serve 3 (CreateHeatCenter (sample_center "Fortress Green Heat Center"
                               35%float 28.7%float))
 (serve 2 (CreateHeatCenter (sample_center "Digital Realty Heat Center - 200 Paul"
                               75%float 58.2%float))
 (serve 1 (CreateHeatCenter (sample_center "Digital Realty Heat Center - 365 Main"
                               45%float 32.5%float))
    empty_db))).

(** One heat center, one demand site and the route between them. *)
Definition one_route : Database :=
  serve 3 (CreateRoute (sample_route 1 1))
 (serve 2 (CreateDemandSite (sample_site "Marriott Downtown Hotel" 8.5%float))
 (serve 1 (CreateHeatCenter (sample_center "Fortress Green Heat Center"
                               35%float 28.7%float))
    empty_db)).

(** A heat center of capacity zero with a route. *)
Definition idle_center : Database :=
  serve 3 (CreateRoute (sample_route 1 1))
 (serve 2 (CreateDemandSite (sample_site "SOMA Residential Complex" 12.3%float))
 (serve 1 (CreateHeatCenter (sample_center "Standby boiler" 0%float 0%float))
    empty_db)).

(** A configuration with a described entry and an entry tagged
    [structured]. *)
Definition configured : Database :=
  serve 2 (SetConfig "layers" "[1, 2]" "structured" None)
 (serve 1 (SetConfig "default_zoom" "12" "integer" (Some "initial zoom"))
    empty_db).

(** A heat center with a demand site and no route. *)
Definition no_route : Database :=
  serve 2 (CreateDemandSite (sample_site "Marriott Downtown Hotel" 8.5%float))
 (serve 1 (CreateHeatCenter (sample_center "Fortress Green Heat Center"
                               35%float 28.7%float))
    empty_db).

(** A heat center alone. *)
Definition center_only : Database :=
  serve 1 (CreateHeatCenter (sample_center "Fortress Green Heat Center"
                               35%float 28.7%float))
    empty_db.

(** An update request that sets no field, and one that sets [name] to null. *)
Definition empty_update : HeatCenterUpdate.t :=
  HeatCenterUpdate.mk None None None None None None None None None None None None.

Definition null_name_update : HeatCenterUpdate.t :=
  HeatCenterUpdate.mk (Some None) None None None None None None None None None None None.

(** An update of two fields of a heat center. *)
Definition output_update : HeatCenterUpdate.t :=
  HeatCenterUpdate.mk None None None None None (Some (Some 30%float)) None
    (Some None) None None None None.

Definition demand_update : DemandSiteUpdate.t :=
  DemandSiteUpdate.mk None None None None None None (Some (Some 7%float)) None
    (Some (Some true)) None None None None None None.

(** A heat center registered with a negative capacity. *)
Definition negative_capacity : Database :=
  serve 1 (CreateHeatCenter (sample_center "Fortress Green Heat Center"
                               (-10)%float 5%float))
    empty_db.

(** An update that sets the current output of a heat center to null, and
    the database it leaves. *)
Definition null_output_update : HeatCenterUpdate.t :=
  HeatCenterUpdate.mk None None None None None (Some None) None None None None None None.

Definition silent_center : Database :=
  serve 5 (UpdateHeatCenter 1 null_output_update) center_only.

(** An update that sets the current demand of a demand site to null, and
    the database it leaves. *)
Definition null_demand_update : DemandSiteUpdate.t :=
  DemandSiteUpdate.mk None None None None None None (Some None) None None None None None
    None None None.

Definition silent_site : Database :=
  serve 5 (UpdateDemandSite 1 null_demand_update) one_route.

(** An update that sets the priority of a demand site beyond 64 bits, one
    that sets the current output of a heat center to NaN, and one that
    sets its commissioning date with a UTC offset of one hour. *)
Definition huge_priority_update : DemandSiteUpdate.t :=
  DemandSiteUpdate.mk None None None None None None None None None None
    (Some (Some (2 ^ 63))) None None None None.

Definition nan_output_update : HeatCenterUpdate.t :=
  HeatCenterUpdate.mk None None None None None (Some (Some nan)) None None None None
    None None.

Definition dated_update : HeatCenterUpdate.t :=
  HeatCenterUpdate.mk None None None None None None None None None
    (Some (Some (aware 1700000000000000 3600000000))) None None.

(** A heat center of capacity 160 with an output of 23, and one with an
    output of 49: in double precision the percentages come out next to
    the ties 14.375 and 30.625. *)
Definition rounded_down : Database :=
  serve 1 (CreateHeatCenter (sample_center "Standby boiler" 160%float 23%float))
    empty_db.

Definition rounded_up : Database :=
  serve 1 (CreateHeatCenter (sample_center "Standby boiler" 160%float 49%float))
    empty_db.

(** Two heat centers whose capacities and outputs add up beyond the largest
    double. *)
Definition overflowing : Database :=
  serve 2 (CreateHeatCenter (sample_center "Fortress Green Heat Center"
                               1e308%float 1e308%float))
 (serve 1 (CreateHeatCenter (sample_center "Standby boiler" 1e308%float 1e308%float))
    empty_db).

(** Requests the database refuses: a heat center whose latitude is not a
    number, a demand site whose priority and a route whose pipe diameter
    are beyond 64 bits. *)
Definition unplaced_center : HeatCenterCreate.t :=
  HeatCenterCreate.mk "Standby boiler" nan 0%float None 35%float (Some 0%float)
    (Some 85%float) None (Some true) None None None.

Definition huge_priority_site : DemandSiteCreate.t :=
  DemandSiteCreate.mk "Marriott Downtown Hotel" 0%float 0%float None (Some "Hotel")
    8.5%float (Some 0%float) None (Some false) None (Some (2 ^ 63)) None None None None.

Definition wide_route : RouteCreate.t :=
  RouteCreate.mk 1 1 0.8%float (Some (2 ^ 63)) 10%float
    (Some 0%float) (Some 80%float) (Some 40%float) (Some 16%float)
    (Some 2%float) None None None (Some ACTIVE) (Some false) None None None.

(** A route registered with a flow that is not a number. *)
Definition unmetered_route : RouteCreate.t :=
  RouteCreate.mk 1 1 0.8%float None 10%float
    (Some nan) (Some 80%float) (Some 40%float) (Some 16%float)
    (Some 2%float) None None None (Some ACTIVE) (Some false) None None None.

Definition unmetered : Database := serve 3 (CreateRoute unmetered_route) no_route.

(** The same route, from a heat center of capacity zero. *)
Definition idle_unmetered : Database :=
  serve 3 (CreateRoute unmetered_route)
 (serve 2 (CreateDemandSite (sample_site "SOMA Residential Complex" 12.3%float))
 (serve 1 (CreateHeatCenter (sample_center "Standby boiler" 0%float 0%float))
    empty_db)).

(** A configuration with a json entry whose value nests brackets. *)
Definition nested : Database :=
  serve 1 (SetConfig "layers" "[[[[]]]]" "json" None) empty_db.

Ltac reach := repeat first [apply reachable_empty | apply reachable_serve].

(** * Facts *)
(** ** Numbers *)

Lemma int64_spec (n : Z) : int64 n = true <-> - 2 ^ 63 <= n < 2 ^ 63.
Proof. unfold int64. rewrite andb_true_iff, Z.leb_le, Z.ltb_lt. tauto. Qed.

Lemma fits_some (i : Z) : int64 i = true -> exists H, fits i = Some H.
Proof. unfold fits. destruct (int64 i); [eauto|discriminate]. Qed.

Lemma fits_none (i : Z) : int64 i = false -> fits i = None.
Proof. unfold fits. destruct (int64 i); [discriminate|reflexivity]. Qed.

Lemma float_gt_nonzero (y : float) : float_gt y 0%float = true -> float_eqb y 0%float = false.
Proof.
  unfold float_gt, float_eqb. rewrite ltb_spec, eqb_spec. unfold SFltb, SFeqb.
  change (Prim2SF 0%float) with (S754_zero false).
  destruct (Prim2SF y) as [s|s| |s m e]; simpl; try (intros H; discriminate H);
    destruct s; intros H; try discriminate H; reflexivity.
Qed.

Lemma float_eqb_self (x : float) : is_nan x = false -> float_eqb x x = true.
Proof. unfold is_nan, float_eqb. now rewrite negb_false_iff. Qed.

Lemma SFeqb_self (x y : spec_float) : SFeqb x y = true -> SFeqb x x = true.
Proof.
  unfold SFeqb. destruct x as [s|s| |s m e]; simpl; auto.
  - now destruct s.
  - intros _. destruct s; now rewrite Z.compare_refl, Pos.compare_cont_refl.
Qed.

(** A number that equals something is not a NaN. *)
Lemma float_eqb_not_nan (x y : float) : float_eqb x y = true -> is_nan x = false.
Proof.
  unfold is_nan, float_eqb. rewrite !eqb_spec. intros H.
  now rewrite (SFeqb_self _ _ H).
Qed.

Lemma sqlite_real_eqb (x y : float) : sqlite_real x = Some y -> float_eqb x y = true.
Proof.
  unfold sqlite_real. destruct (is_nan x) eqn:En; [discriminate|].
  destruct (float_eqb x 0%float) eqn:E0; intros H; injection H as <-; [exact E0|].
  now apply float_eqb_self.
Qed.

Lemma sqlite_real_none (x : float) : sqlite_real x = None <-> is_nan x = true.
Proof.
  unfold sqlite_real. destruct (is_nan x); [tauto|].
  destruct (float_eqb x 0%float); split; discriminate.
Qed.

(** [round_half_even] gives a nearest integer, the even one of two. *)
Lemma round_half_even_nearest (q : Q) :
  let n := Qnum q in
  let d := Z.pos (Qden q) in
  let k := round_half_even q in
  Z.abs (2 * n - 2 * k * d) <= d
  /\ (Z.abs (2 * n - 2 * k * d) = d -> Z.even k = true).
Proof.
  cbv zeta. unfold round_half_even.
  set (n := Qnum q). set (d := Z.pos (Qden q)).
  assert (Hd : 0 < d) by (unfold d; lia).
  pose proof (Z.div_mod n d ltac:(lia)) as Hdiv.
  pose proof (Z.mod_pos_bound n d Hd) as Hmod.
  set (f := n / d) in *. set (r := n mod d) in *. clearbody f r.
  assert (Hf : 2 * n - 2 * f * d = 2 * r) by (rewrite Hdiv; ring).
  assert (Hf' : 2 * n - 2 * (f + 1) * d = 2 * r - 2 * d) by (rewrite Hdiv; ring).
  destruct (Z.compare_spec (2 * r) d) as [E|E|E].
  - destruct (Z.even f) eqn:Ev.
    + rewrite Hf. split; [lia|auto].
    + rewrite Hf'. split; [lia|]. intros _. rewrite Z.even_add, Ev. reflexivity.
  - rewrite Hf. split; [lia|]. intros H. exfalso. lia.
  - rewrite Hf'. split; [lia|]. intros H. exfalso. lia.
Qed.

Lemma float_of_int_small (n : Z) :
  Z.abs n < 2 ^ 63 -> float_of_int n = Ok (float_of_Z n).
Proof.
  intros H. unfold float_of_int.
  replace (Z.abs n <? 2 ^ 1024 - 2 ^ 970) with true; [reflexivity|].
  symmetry. apply Z.ltb_lt. eapply Z.lt_trans; [exact H|]. reflexivity.
Qed.

(** ** Tables *)

Lemma next_id_above (ids : list Z) (x : Z) : In x ids -> x < next_id ids.
Proof.
  unfold next_id. induction ids as [|y ids IH]; cbn [fold_right In]; [tauto|].
  intros [->|H]; [lia|]. specialize (IH H). lia.
Qed.

Lemma next_id_fresh (ids : list Z) : ~ In (next_id ids) ids.
Proof. intros H. apply next_id_above in H. lia. Qed.

Lemma next_id_positive (ids : list Z) : 0 < next_id ids.
Proof.
  unfold next_id. assert (0 <= fold_right Z.max 0 ids); [|lia].
  induction ids; cbn [fold_right]; lia.
Qed.

Lemma NoDup_snoc {A} (l : list A) (x : A) : NoDup l -> ~ In x l -> NoDup (l ++ [x]).
Proof.
  intros Hl Hx. apply NoDup_app; [assumption|repeat constructor; simpl; tauto|].
  intros a Ha [<-|[]]. contradiction.
Qed.

Lemma NoDup_map_filter {A B} (column : A -> B) (keep : A -> bool) (rows : list A) :
  NoDup (map column rows) -> NoDup (map column (filter keep rows)).
Proof.
  induction rows as [|a rows IH]; simpl; [auto|].
  intros H. inversion H as [|? ? Hin Hnd]; subst.
  destruct (keep a); simpl; [|auto].
  constructor; [|auto]. rewrite in_map_iff in *.
  intros (x & Hx & Hf). apply Hin. exists x. split; [assumption|].
  apply filter_In in Hf. tauto.
Qed.

Section Keyed.

Context {A : Type} (key : A -> Z).

(** Rewriting the row with a given key keeps every key in place. *)
Lemma map_key_write (a' : A) (l : list A) :
  map key (map (fun a => if key a =? key a' then a' else a) l) = map key l.
Proof.
  induction l as [|a l IH]; simpl; [reflexivity|]. rewrite IH. f_equal.
  destruct (key a =? key a') eqn:E; [|reflexivity]. apply Z.eqb_eq in E. auto.
Qed.

(** With unique keys it keeps every column on which the new row agrees with
    the one it replaces. *)
Lemma map_write_agree {B} (f : A -> B) (a a' : A) (l : list A) :
  NoDup (map key l) -> In a l -> key a' = key a -> f a' = f a ->
  map f (map (fun x => if key x =? key a' then a' else x) l) = map f l.
Proof.
  intros Hnd Ha Hk Hf. rewrite map_map. apply map_ext_in. intros x Hx.
  destruct (key x =? key a') eqn:E; [|reflexivity]. apply Z.eqb_eq in E.
  rewrite Hf. f_equal. clear Hf.
  induction l as [|y l IH]; simpl in *; [tauto|].
  inversion Hnd as [|? ? Hy Hl]; subst.
  destruct Ha as [->|Ha], Hx as [->|Hx]; auto.
  - exfalso. apply Hy. rewrite <- Hk, <- E. now apply in_map.
  - exfalso. apply Hy. rewrite E, Hk. now apply in_map.
Qed.

Lemma find_key_In (k : Z) (l : list A) :
  In k (map key l) <-> exists a, find (fun a => key a =? k) l = Some a.
Proof.
  split.
  - intros H. destruct (find (fun a => key a =? k) l) as [a|] eqn:E; [eauto|].
    apply in_map_iff in H as (a & Ha & Hin).
    pose proof (find_none _ _ E a Hin) as Hf. simpl in Hf. lia.
  - intros (a & Ha). apply find_some in Ha as [Hin Hk].
    apply Z.eqb_eq in Hk. subst k. now apply in_map.
Qed.

Lemma find_key_sound (k : Z) (l : list A) (a : A) :
  find (fun a => key a =? k) l = Some a -> In a l /\ key a = k.
Proof. intros H. apply find_some in H as [? H]. apply Z.eqb_eq in H. auto. Qed.

(** With unique keys, deleting by key removes exactly the row found. *)
Lemma delete_by_key (l : list A) (a b : A) :
  NoDup (map key l) -> In a l ->
  (In b (filter (fun x => negb (key x =? key a)) l) <-> In b l /\ b <> a).
Proof.
  intros Hnd Ha. rewrite filter_In, negb_true_iff, Z.eqb_neq. split.
  - intros [Hb Hk]. split; [assumption|]. intros ->. auto.
  - intros [Hb Hne]. split; [assumption|]. intros Hk. apply Hne.
    clear Hne. induction l as [|x l IH]; simpl in *; [tauto|].
    inversion Hnd as [|? ? Hx Hl]; subst.
    destruct Ha as [->|Ha], Hb as [->|Hb]; auto.
    + exfalso. apply Hx. rewrite <- Hk. now apply in_map.
    + exfalso. apply Hx. rewrite Hk. now apply in_map.
Qed.

End Keyed.

(** ** Queries by id *)

Lemma first_by_id_ok {A} (lookup : Z -> option A) (id : Z) (r : option A) :
  first_by_id lookup id = Ok r <-> int64 id = true /\ r = lookup id.
Proof.
  unfold first_by_id. destruct (int64 id); split.
  - intros H. injection H as <-. auto.
  - now intros [_ ->].
  - discriminate.
  - intros [H _]. discriminate H.
Qed.

Lemma first_by_id_overflow {A} (lookup : Z -> option A) (id : Z) :
  int64 id = false -> first_by_id lookup id = Err OverflowError.
Proof. unfold first_by_id. now intros ->. Qed.

Lemma first_by_id_err {A} (lookup : Z -> option A) (id : Z) (e : Error) :
  first_by_id lookup id = Err e -> e = OverflowError /\ int64 id = false.
Proof.
  unfold first_by_id. destruct (int64 id); [discriminate|]. intros H.
  now injection H as <-.
Qed.

(** A stored id can be bound: the query by it finds its row. *)
Lemma query_heat_center_stored db center_id center :
  heat_center_by_id db center_id = Some center ->
  query_heat_center db center_id = Ok (Some center).
Proof.
  intros H. apply first_by_id_ok. split; [|now rewrite H].
  apply (find_key_sound HeatCenter.id) in H as [_ <-]. apply HeatCenter.id_fits.
Qed.

Lemma query_demand_site_stored db site_id site :
  demand_site_by_id db site_id = Some site ->
  query_demand_site db site_id = Ok (Some site).
Proof.
  intros H. apply first_by_id_ok. split; [|now rewrite H].
  apply (find_key_sound DemandSite.id) in H as [_ <-]. apply DemandSite.id_fits.
Qed.

Lemma query_route_stored db route_id route :
  route_by_id db route_id = Some route ->
  query_route db route_id = Ok (Some route).
Proof.
  intros H. apply first_by_id_ok. split; [|now rewrite H].
  apply (find_key_sound Route.id) in H as [_ <-]. apply Route.id_fits.
Qed.

Lemma query_heat_center_ok db center_id r :
  query_heat_center db center_id = Ok r -> heat_center_by_id db center_id = r.
Proof. intros H. apply first_by_id_ok in H as [_ ->]. reflexivity. Qed.

Lemma query_demand_site_ok db site_id r :
  query_demand_site db site_id = Ok r -> demand_site_by_id db site_id = r.
Proof. intros H. apply first_by_id_ok in H as [_ ->]. reflexivity. Qed.

Lemma query_route_ok db route_id r :
  query_route db route_id = Ok r -> route_by_id db route_id = r.
Proof. intros H. apply first_by_id_ok in H as [_ ->]. reflexivity. Qed.

(** ** The invariant *)

Lemma consistent_empty : consistent empty_db.
Proof.
  constructor; simpl; try constructor; try tauto.
Qed.

Lemma consistent_create_heat_center center now db :
  consistent db -> consistent (snd (create_heat_center center now db)).
Proof.
  intros H. unfold create_heat_center.
  destruct (fits _) as [Hid|]; [|exact H].
  destruct (sqlite_real (HeatCenterCreate.location_lat center)); [|exact H].
  destruct (sqlite_real (HeatCenterCreate.location_lng center)); [|exact H].
  destruct (sqlite_real (HeatCenterCreate.max_capacity_mw center)); [|exact H].
  destruct H as [Hp Hh Hd Hr Hc Hk [Hph Hpd] He Hf]. simpl.
  constructor; simpl; auto; rewrite ?map_app; simpl.
  - apply NoDup_snoc; [assumption|apply next_id_fresh].
  - split; [|assumption]. intros i Hi. apply in_app_or in Hi as [Hi|[<-|[]]]; auto.
    apply next_id_positive.
  - intros r Hr'. destruct (He r Hr'). split; [apply in_or_app|]; auto.
Qed.

Lemma consistent_update_heat_center center_id center_update now db :
  consistent db -> consistent (snd (update_heat_center center_id center_update now db)).
Proof.
  intros H. unfold update_heat_center.
  destruct (query_heat_center db center_id) as [[center|]|e]; try exact H.
  destruct (heat_center_not_null_violation center_update); [exact H|].
  destruct H as [Hp Hh Hd Hr Hc Hk Hpos He Hf]. simpl.
  constructor; simpl; auto; unfold write_heat_center;
    rewrite (map_key_write HeatCenter.id); auto.
Qed.

Lemma consistent_delete_heat_center center_id db :
  consistent db -> consistent (snd (delete_heat_center center_id db)).
Proof.
  intros H. unfold delete_heat_center.
  destruct (query_heat_center db center_id) as [[center|]|e] eqn:Efind; try exact H.
  destruct (0 <? _)%nat eqn:Ecount; [exact H|].
  apply query_heat_center_ok in Efind.
  apply (find_key_sound HeatCenter.id) in Efind as [Hin Hid].
  destruct H as [Hp Hh Hd Hr Hc Hk [Hph Hpd] He Hf]. simpl.
  constructor; simpl; auto.
  - now apply NoDup_map_filter.
  - split; [|assumption]. intros i Hi. apply Hph.
    apply in_map_iff in Hi as (c & <- & Hc'). apply filter_In in Hc' as [Hc' _].
    now apply in_map.
  - intros r Hr'. destruct (He r Hr') as [Hh' Hd']. split; [|assumption].
    apply in_map_iff in Hh' as (c & Hc1 & Hc2). apply in_map_iff. exists c.
    split; [assumption|]. apply filter_In. split; [assumption|].
    rewrite negb_true_iff, Z.eqb_neq, Hc1, Hid. intros Heq.
    apply Nat.ltb_ge in Ecount. unfold routes_of_heat_center in Ecount.
    assert (Hm : In r (filter (fun r => Route.heat_center_id r =? center_id) (routes db))).
    { apply filter_In. split; [assumption|]. now apply Z.eqb_eq. }
    destruct (filter _ (routes db)); [destruct Hm|simpl in Ecount; lia].
Qed.

Lemma consistent_create_demand_site site now db :
  consistent db -> consistent (snd (create_demand_site site now db)).
Proof.
  intros H. unfold create_demand_site.
  destruct (bindable _ && bindable _); [|exact H].
  destruct (fits _) as [Hid|]; [|exact H].
  destruct (sqlite_real (DemandSiteCreate.location_lat site)); [|exact H].
  destruct (sqlite_real (DemandSiteCreate.location_lng site)); [|exact H].
  destruct (sqlite_real (DemandSiteCreate.peak_demand_mw site)); [|exact H].
  destruct H as [Hp Hh Hd Hr Hc Hk [Hph Hpd] He Hf]. simpl.
  constructor; simpl; auto; rewrite ?map_app; simpl.
  - apply NoDup_snoc; [assumption|apply next_id_fresh].
  - split; [assumption|]. intros i Hi. apply in_app_or in Hi as [Hi|[<-|[]]]; auto.
    apply next_id_positive.
  - intros r Hr'. destruct (He r Hr'). split; [|apply in_or_app]; auto.
Qed.

Lemma consistent_update_demand_site site_id site_update now db :
  consistent db -> consistent (snd (update_demand_site site_id site_update now db)).
Proof.
  intros H. unfold update_demand_site.
  destruct (query_demand_site db site_id) as [[site|]|e]; try exact H.
  destruct (demand_site_overflow site site_update); [exact H|].
  destruct (demand_site_not_null_violation site_update); [exact H|].
  destruct H as [Hp Hh Hd Hr Hc Hk Hpos He Hf]. simpl.
  constructor; simpl; auto; unfold write_demand_site;
    rewrite (map_key_write DemandSite.id); auto.
Qed.

Lemma consistent_delete_demand_site site_id db :
  consistent db -> consistent (snd (delete_demand_site site_id db)).
Proof.
  intros H. unfold delete_demand_site.
  destruct (query_demand_site db site_id) as [[site|]|e] eqn:Efind; try exact H.
  destruct (0 <? _)%nat eqn:Ecount; [exact H|].
  apply query_demand_site_ok in Efind.
  apply (find_key_sound DemandSite.id) in Efind as [Hin Hid].
  destruct H as [Hp Hh Hd Hr Hc Hk [Hph Hpd] He Hf]. simpl.
  constructor; simpl; auto.
  - now apply NoDup_map_filter.
  - split; [assumption|]. intros i Hi. apply Hpd.
    apply in_map_iff in Hi as (c & <- & Hc'). apply filter_In in Hc' as [Hc' _].
    now apply in_map.
  - intros r Hr'. destruct (He r Hr') as [Hh' Hd']. split; [assumption|].
    apply in_map_iff in Hd' as (c & Hc1 & Hc2). apply in_map_iff. exists c.
    split; [assumption|]. apply filter_In. split; [assumption|].
    rewrite negb_true_iff, Z.eqb_neq, Hc1, Hid. intros Heq.
    apply Nat.ltb_ge in Ecount. unfold routes_of_demand_site in Ecount.
    assert (Hm : In r (filter (fun r => Route.demand_site_id r =? site_id) (routes db))).
    { apply filter_In. split; [assumption|]. now apply Z.eqb_eq. }
    destruct (filter _ (routes db)); [destruct Hm|simpl in Ecount; lia].
Qed.

Lemma route_between_none db center_id site_id :
  route_between db center_id site_id = None ->
  ~ In (center_id, site_id) (map endpoints (routes db)).
Proof.
  intros Hnone Hin. apply in_map_iff in Hin as (r & Hr & Hin).
  pose proof (find_none _ _ Hnone r Hin) as Hf. simpl in Hf.
  unfold endpoints in Hr. injection Hr as <- <-.
  rewrite !Z.eqb_refl in Hf. discriminate.
Qed.

Lemma route_between_some db center_id site_id :
  In (center_id, site_id) (map endpoints (routes db)) ->
  exists r, route_between db center_id site_id = Some r.
Proof.
  intros Hin. unfold route_between.
  destruct (find _ (routes db)) as [r|] eqn:E; [eauto|].
  exfalso. revert Hin. now apply route_between_none.
Qed.

Lemma consistent_create_route route now db :
  consistent db -> consistent (snd (create_route route now db)).
Proof.
  intros H. unfold create_route.
  destruct (query_heat_center db _) as [[heat_center|]|e] eqn:Eh; try exact H.
  destruct (query_demand_site db _) as [[demand_site|]|e] eqn:Ed; try exact H.
  destruct (route_between db _ _) as [existing_route|] eqn:Er; [exact H|].
  destruct (bindable _ && bindable _); [|exact H].
  destruct (fits _) as [Hid|]; [|exact H].
  destruct (sqlite_real (RouteCreate.distance_km route)); [|exact H].
  destruct (sqlite_real (RouteCreate.max_flow_capacity_mw route)); [|exact H].
  apply query_heat_center_ok in Eh. apply query_demand_site_ok in Ed.
  destruct H as [Hp Hh Hd Hr Hc Hk Hpos He Hf]. simpl.
  constructor; simpl; auto; rewrite ?map_app; simpl.
  - apply NoDup_snoc; [assumption|]. now apply route_between_none.
  - apply NoDup_snoc; [assumption|apply next_id_fresh].
  - intros r Hin. apply in_app_or in Hin as [Hin|[<-|[]]]; [auto|]. simpl.
    split; apply find_key_In; eauto.
  - intros r Hin. apply in_app_or in Hin as [Hin|[<-|[]]]; [auto|]. simpl.
    unfold column_default. destruct (RouteCreate.status route); discriminate.
Qed.

Lemma consistent_delete_route route_id db :
  consistent db -> consistent (snd (delete_route route_id db)).
Proof.
  intros H. unfold delete_route.
  destruct (query_route db route_id) as [[route|]|e]; try exact H.
  destruct H as [Hp Hh Hd Hr Hc Hk Hpos He Hf]. simpl.
  constructor; simpl; auto using NoDup_map_filter.
  - intros r Hin. apply filter_In in Hin as [Hin _]. auto.
  - intros r Hin. apply filter_In in Hin as [Hin _]. auto.
Qed.

Lemma config_by_key_sound db key config :
  config_by_key db key = Some config ->
  In config (system_config db) /\ SystemConfig.config_key config = key.
Proof.
  intros H. apply find_some in H as [Hin Hk]. apply String.eqb_eq in Hk. auto.
Qed.

Lemma config_by_key_none db key :
  config_by_key db key = None ->
  ~ In key (map SystemConfig.config_key (system_config db)).
Proof.
  intros Hnone Hin. apply in_map_iff in Hin as (c & Hc & Hin).
  pose proof (find_none _ _ Hnone c Hin) as Hf. simpl in Hf.
  rewrite Hc, String.eqb_refl in Hf. discriminate.
Qed.

Lemma consistent_set_config key value type description now db :
  consistent db -> consistent (snd (set_config key value type description now db)).
Proof.
  intros H. unfold set_config.
  destruct (config_by_key db key) as [config|] eqn:Efind.
  - apply config_by_key_sound in Efind as [Hin _].
    destruct H as [Hp Hh Hd Hr Hc Hk Hpos He Hf]. simpl.
    constructor; simpl; auto; unfold write_config.
    + now rewrite (map_key_write SystemConfig.id).
    + now rewrite (map_write_agree SystemConfig.id SystemConfig.config_key config).
  - apply config_by_key_none in Efind.
    destruct H as [Hp Hh Hd Hr Hc Hk Hpos He Hf]. simpl.
    constructor; simpl; auto; rewrite map_app; simpl.
    + apply NoDup_snoc; [assumption|apply next_id_fresh].
    + now apply NoDup_snoc.
Qed.

Lemma consistent_serve now req db : consistent db -> consistent (serve now req db).
Proof.
  intros H. destruct req; unfold serve.
  - now apply consistent_create_heat_center.
  - now apply consistent_update_heat_center.
  - now apply consistent_delete_heat_center.
  - now apply consistent_create_demand_site.
  - now apply consistent_update_demand_site.
  - now apply consistent_delete_demand_site.
  - now apply consistent_create_route.
  - now apply consistent_delete_route.
  - now apply consistent_set_config.
Qed.

Lemma reachable_consistent db : reachable db -> consistent db.
Proof.
  induction 1 as [|now req db _ IH]; [apply consistent_empty|].
  now apply consistent_serve.
Qed.

Lemma NoDup_map_inj {A B} (f : A -> B) (l : list A) (a b : A) :
  NoDup (map f l) -> In a l -> In b l -> f a = f b -> a = b.
Proof.
  induction l as [|x l IH]; simpl; [tauto|].
  intros Hnd Ha Hb Hf. inversion Hnd as [|? ? Hx Hl]; subst.
  destruct Ha as [->|Ha], Hb as [->|Hb]; auto.
  - exfalso. apply Hx. rewrite Hf. now apply in_map.
  - exfalso. apply Hx. rewrite <- Hf. now apply in_map.
Qed.
(** * Routes *)

(** C1. In every database the service can reach from the empty one, no two
    routes connect the same (heat center, demand site) pair: the pairs of
    the route table are duplicate-free, two routes with the same pair are
    the same route, and a creation request for a pair that is already
    connected is refused and leaves the database as it was. *)
Theorem route_pairs_unique (db : Database) :
  reachable db ->
  NoDup (map endpoints (routes db))
  /\ (forall r1 r2, In r1 (routes db) -> In r2 (routes db) ->
        endpoints r1 = endpoints r2 -> r1 = r2)
  /\ (forall route now,
        In (RouteCreate.heat_center_id route, RouteCreate.demand_site_id route)
           (map endpoints (routes db)) ->
        exists e, create_route route now db = (Err e, db)).
Proof.
  intros Hreach. apply reachable_consistent in Hreach.
  pose proof (unique_pairs _ Hreach) as Hnd. split; [assumption|]. split.
  - intros r1 r2. now apply NoDup_map_inj.
  - intros route now Hin. apply route_between_some in Hin as (r & Hr).
    unfold create_route.
    destruct (query_heat_center db _) as [[c|]|e]; [|eauto|eauto].
    destruct (query_demand_site db _) as [[s|]|e]; [|eauto|eauto].
    rewrite Hr. eauto.
Qed.

Lemma route_pairs_unique_witness :
  NoDup (map endpoints (routes one_route))
  /\ (forall r1 r2, In r1 (routes one_route) -> In r2 (routes one_route) ->
        endpoints r1 = endpoints r2 -> r1 = r2)
  /\ (forall route now,
        In (RouteCreate.heat_center_id route, RouteCreate.demand_site_id route)
           (map endpoints (routes one_route)) ->
        exists e, create_route route now one_route = (Err e, one_route)).
Proof. apply (route_pairs_unique one_route). unfold one_route. reach. Defined.

(** C2, as the code has it.  A route creation whose heat center id cannot
    be bound as a 64-bit integer fails with [OverflowError]; one whose heat
    center id can be bound and does not resolve fails with 404 "Heat center
    not found"; one whose heat center resolves fails with [OverflowError]
    if the demand site id cannot be bound and with 404 "Demand site not
    found" if it can and does not resolve; in a reachable database one for
    a pair that a route already connects fails with 400.  Each failure
    leaves the database as it was. *)
Theorem create_route_failures (db : Database) (route : RouteCreate.t) (now : Z) :
  (int64 (RouteCreate.heat_center_id route) = false ->
     create_route route now db = (Err OverflowError, db))
  /\ (int64 (RouteCreate.heat_center_id route) = true ->
      heat_center_by_id db (RouteCreate.heat_center_id route) = None ->
      create_route route now db
      = (Err (HTTPException 404 "Heat center not found"), db))
  /\ (heat_center_by_id db (RouteCreate.heat_center_id route) <> None ->
      int64 (RouteCreate.demand_site_id route) = false ->
      create_route route now db = (Err OverflowError, db))
  /\ (heat_center_by_id db (RouteCreate.heat_center_id route) <> None ->
      int64 (RouteCreate.demand_site_id route) = true ->
      demand_site_by_id db (RouteCreate.demand_site_id route) = None ->
      create_route route now db
      = (Err (HTTPException 404 "Demand site not found"), db))
  /\ (reachable db ->
      In (RouteCreate.heat_center_id route, RouteCreate.demand_site_id route)
         (map endpoints (routes db)) ->
      create_route route now db
      = (Err (HTTPException 400 "Route already exists between these locations"), db))
  /\ NotFound (HTTPException 404 "Heat center not found")
  /\ NotFound (HTTPException 404 "Demand site not found")
  /\ Conflict (HTTPException 400 "Route already exists between these locations")
  /\ ~ NotFound OverflowError.
Proof.
  unfold create_route.
  split; [|split; [|split; [|split; [|split; [|repeat split; auto]]]]].
  - intros Hh. unfold query_heat_center. now rewrite first_by_id_overflow.
  - intros Hh Hnone. unfold query_heat_center, first_by_id. now rewrite Hh, Hnone.
  - intros Hh Hd. destruct (heat_center_by_id db _) as [c|] eqn:Ec; [|contradiction].
    rewrite (query_heat_center_stored _ _ _ Ec).
    unfold query_demand_site. now rewrite first_by_id_overflow.
  - intros Hh Hd Hnone. destruct (heat_center_by_id db _) as [c|] eqn:Ec; [|contradiction].
    rewrite (query_heat_center_stored _ _ _ Ec).
    unfold query_demand_site, first_by_id. now rewrite Hd, Hnone.
  - intros Hreach Hin. apply reachable_consistent in Hreach.
    pose proof (endpoints_exist _ Hreach) as He.
    apply in_map_iff in Hin as (r & Hr & Hin). destruct (He r Hin) as [Hh Hd].
    unfold endpoints in Hr. injection Hr as Hr1 Hr2. rewrite Hr1 in Hh. rewrite Hr2 in Hd.
    apply (find_key_In HeatCenter.id) in Hh as (c & Hc).
    apply (find_key_In DemandSite.id) in Hd as (s & Hs).
    rewrite (query_heat_center_stored _ _ _ Hc), (query_demand_site_stored _ _ _ Hs).
    destruct (route_between_some db (RouteCreate.heat_center_id route)
                (RouteCreate.demand_site_id route)) as (r' & Hr').
    { apply in_map_iff. exists r. unfold endpoints. split; [congruence|assumption]. }
    now rewrite Hr'.
Qed.

Lemma create_route_failures_witness :
  create_route (sample_route 1 1) 9 empty_db
  = (Err (HTTPException 404 "Heat center not found"), empty_db)
  /\ create_route (sample_route 1 1) 9 center_only
     = (Err (HTTPException 404 "Demand site not found"), center_only)
  /\ create_route (sample_route 1 1) 9 one_route
     = (Err (HTTPException 400 "Route already exists between these locations"), one_route)
  /\ create_route (sample_route (2 ^ 63) 1) 9 one_route = (Err OverflowError, one_route)
  /\ create_route (sample_route 1 (- 2 ^ 63 - 1)) 9 one_route
     = (Err OverflowError, one_route).
Proof.
  destruct (create_route_failures empty_db (sample_route 1 1) 9) as (_ & H1 & _).
  destruct (create_route_failures center_only (sample_route 1 1) 9)
    as (_ & _ & _ & H2 & _).
  destruct (create_route_failures one_route (sample_route 1 1) 9)
    as (_ & _ & _ & _ & H3 & _).
  destruct (create_route_failures one_route (sample_route (2 ^ 63) 1) 9) as (H4 & _).
  destruct (create_route_failures one_route (sample_route 1 (- 2 ^ 63 - 1)) 9)
    as (_ & _ & H5 & _).
  split; [|split; [|split; [|split]]].
  - apply H1; reflexivity.
  - apply H2; [discriminate|reflexivity|reflexivity].
  - apply H3; [unfold one_route; reach|simpl; left; reflexivity].
  - apply H4. reflexivity.
  - apply H5; [discriminate|reflexivity].
Defined.

(** C2 as stated fails when neither id resolves: the demand site id does
    not resolve, yet the error names the heat center.  It also fails for a
    heat center id beyond 64 bits: the id does not resolve, and the request
    ends in [OverflowError], which is no 404. *)
Lemma create_route_names_heat_center_first :
  demand_site_by_id empty_db (RouteCreate.demand_site_id (sample_route 1 1)) = None
  /\ fst (create_route (sample_route 1 1) 9 empty_db)
     = Err (HTTPException 404 "Heat center not found")
  /\ fst (create_route (sample_route 1 1) 9 empty_db)
     <> Err (HTTPException 404 "Demand site not found")
  /\ heat_center_by_id one_route (RouteCreate.heat_center_id (sample_route (2 ^ 63) 1))
     = None
  /\ fst (create_route (sample_route (2 ^ 63) 1) 9 one_route) = Err OverflowError
  /\ ~ NotFound OverflowError.
Proof. repeat split; try discriminate. auto. Qed.

(** * Deletion *)

Lemma referencing_routes_count {key : Route.t -> Z} (l : list Route.t) (k : Z) :
  Nat.ltb 0 (List.length (filter (fun r => key r =? k) l)) = true
  <-> exists r, In r l /\ key r = k.
Proof.
  rewrite Nat.ltb_lt. split.
  - destruct (filter _ l) as [|r rest] eqn:E; simpl; [lia|]. intros _.
    assert (Hr : In r (filter (fun r => key r =? k) l)) by (rewrite E; now left).
    apply filter_In in Hr as [Hin Hk]. apply Z.eqb_eq in Hk. eauto.
  - intros (r & Hin & Hk).
    assert (Hr : In r (filter (fun r => key r =? k) l)).
    { apply filter_In. split; [assumption|]. now apply Z.eqb_eq. }
    destruct (filter _ l); [destruct Hr|simpl; lia].
Qed.

(** C3. In a reachable database, deleting a heat center or a demand site
    whose id resolves fails with 400 and changes nothing when some route
    references the id, and otherwise succeeds and removes that record and
    nothing else; deleting a route whose id resolves succeeds and removes
    that route and nothing else. *)
Theorem delete_guarded (db : Database) :
  reachable db ->
  (forall center_id center,
     heat_center_by_id db center_id = Some center ->
     ((exists r, In r (routes db) /\ Route.heat_center_id r = center_id) ->
        exists e, delete_heat_center center_id db = (Err e, db) /\ Conflict e)
     /\ ((forall r, In r (routes db) -> Route.heat_center_id r <> center_id) ->
        exists msg db',
          delete_heat_center center_id db = (Ok msg, db')
          /\ (forall c, In c (heat_centers db') <-> In c (heat_centers db) /\ c <> center)
          /\ keeps_demand_sites db db' /\ keeps_routes db db'
          /\ keeps_system_config db db'))
  /\ (forall site_id site,
     demand_site_by_id db site_id = Some site ->
     ((exists r, In r (routes db) /\ Route.demand_site_id r = site_id) ->
        exists e, delete_demand_site site_id db = (Err e, db) /\ Conflict e)
     /\ ((forall r, In r (routes db) -> Route.demand_site_id r <> site_id) ->
        exists msg db',
          delete_demand_site site_id db = (Ok msg, db')
          /\ (forall s, In s (demand_sites db') <-> In s (demand_sites db) /\ s <> site)
          /\ keeps_heat_centers db db' /\ keeps_routes db db'
          /\ keeps_system_config db db'))
  /\ (forall route_id route,
     route_by_id db route_id = Some route ->
     exists msg db',
       delete_route route_id db = (Ok msg, db')
       /\ (forall r, In r (routes db') <-> In r (routes db) /\ r <> route)
       /\ keeps_heat_centers db db' /\ keeps_demand_sites db db'
       /\ keeps_system_config db db').
Proof.
  intros Hreach. apply reachable_consistent in Hreach.
  split; [|split].
  - intros center_id center Hfind. unfold delete_heat_center.
    rewrite (query_heat_center_stored _ _ _ Hfind).
    apply (find_key_sound HeatCenter.id) in Hfind as [Hin Hid].
    unfold routes_of_heat_center. split.
    + intros Href. apply (@referencing_routes_count Route.heat_center_id) in Href.
      rewrite Href. eexists. split; [reflexivity|exact I].
    + intros Hnone.
      destruct (0 <? _)%nat eqn:E.
      { apply (@referencing_routes_count Route.heat_center_id) in E as (r & Hr & Hk).
        now destruct (Hnone r Hr). }
      do 2 eexists. split; [reflexivity|]. simpl.
      split; [|repeat split]. intros c.
      apply (delete_by_key HeatCenter.id); [apply (heat_center_pk _ Hreach)|assumption].
  - intros site_id site Hfind. unfold delete_demand_site.
    rewrite (query_demand_site_stored _ _ _ Hfind).
    apply (find_key_sound DemandSite.id) in Hfind as [Hin Hid].
    unfold routes_of_demand_site. split.
    + intros Href. apply (@referencing_routes_count Route.demand_site_id) in Href.
      rewrite Href. eexists. split; [reflexivity|exact I].
    + intros Hnone.
      destruct (0 <? _)%nat eqn:E.
      { apply (@referencing_routes_count Route.demand_site_id) in E as (r & Hr & Hk).
        now destruct (Hnone r Hr). }
      do 2 eexists. split; [reflexivity|]. simpl.
      split; [|repeat split]. intros s.
      apply (delete_by_key DemandSite.id); [apply (demand_site_pk _ Hreach)|assumption].
  - intros route_id route Hfind. unfold delete_route.
    rewrite (query_route_stored _ _ _ Hfind).
    apply (find_key_sound Route.id) in Hfind as [Hin Hid].
    do 2 eexists. split; [reflexivity|]. simpl.
    split; [|repeat split]. intros r.
    apply (delete_by_key Route.id); [apply (route_pk _ Hreach)|assumption].
Qed.

Lemma delete_guarded_witness :
  (exists e, delete_heat_center 1 one_route = (Err e, one_route) /\ Conflict e)
  /\ (exists e, delete_demand_site 1 one_route = (Err e, one_route) /\ Conflict e)
  /\ (exists msg db', delete_heat_center 1 no_route = (Ok msg, db')
                       /\ keeps_demand_sites no_route db')
  /\ (exists msg db', delete_demand_site 1 no_route = (Ok msg, db')
                       /\ keeps_heat_centers no_route db')
  /\ (exists msg db', delete_route 1 one_route = (Ok msg, db')
                       /\ keeps_heat_centers one_route db').
Proof.
  destruct (delete_guarded one_route ltac:(unfold one_route; reach)) as (Hh & Hd & Hr).
  destruct (delete_guarded no_route ltac:(unfold no_route; reach)) as (Hh' & Hd' & _).
  split; [|split; [|split; [|split]]].
  - eapply Hh; [reflexivity|].
    eexists. split; [left; reflexivity|reflexivity].
  - eapply Hd; [reflexivity|].
    eexists. split; [left; reflexivity|reflexivity].
  - destruct (Hh' 1 _ eq_refl) as [_ H].
    destruct H as (msg & db' & H1 & _ & H2 & _); [intros r []|]. eauto.
  - destruct (Hd' 1 _ eq_refl) as [_ H].
    destruct H as (msg & db' & H1 & _ & H2 & _); [intros r []|]. eauto.
  - destruct (Hr 1 _ eq_refl) as (msg & db' & H1 & _ & H2 & _). eauto.
Defined.
(** * Partial updates *)

Lemma option_eqb_eq {A} (eqb : A -> A -> bool) (x y : option A) :
  (forall a b, eqb a b = true -> a = b) -> option_eqb eqb x y = true -> x = y.
Proof.
  intros Heqb. destruct x, y; simpl; try discriminate; auto.
  intros H. f_equal. auto.
Qed.

Lemma string_eqb_true (a b : string) : String.eqb a b = true -> a = b.
Proof. apply String.eqb_eq. Qed.

Lemma bool_eqb_true (a b : bool) : Bool.eqb a b = true -> a = b.
Proof. apply Bool.eqb_prop. Qed.

Lemma Z_eqb_true (a b : Z) : Z.eqb a b = true -> a = b.
Proof. apply Z.eqb_eq. Qed.

Create HintDb eqb.

#[local] Hint Resolve string_eqb_true bool_eqb_true Z_eqb_true : eqb.

(** A column none of whose supplied values differs keeps its value. *)
Lemma modifies_false {A B} (same : A -> B -> bool) (store : A -> option B)
    (supplied : option A) (current : B) :
  modifies same supplied current = false -> setattr same store supplied current = current.
Proof.
  destruct supplied as [v|]; simpl; [|reflexivity].
  rewrite negb_false_iff. now intros ->.
Qed.

Ltac unmodified :=
  repeat match goal with
         | Hm : modifies _ _ _ = false |- _ =>
             rewrite (modifies_false _ _ _ _ Hm); clear Hm
         end.

Ltac split_orb H :=
  repeat match type of H with
         | (_ || _)%bool = false =>
             let H' := fresh "Hm" in
             apply orb_false_iff in H; destruct H as [H H']
         end.

Lemma heat_center_clean (c : HeatCenter.t) (u : HeatCenterUpdate.t) (now : Z) :
  heat_center_dirty c u = false -> heat_center_setattrs c u now = c.
Proof.
  intros H. unfold heat_center_setattrs. rewrite H. simpl.
  unfold heat_center_dirty in H. split_orb H.
  destruct c; simpl in *. unmodified. reflexivity.
Qed.

Lemma demand_site_clean (s : DemandSite.t) (u : DemandSiteUpdate.t) (now : Z) :
  demand_site_dirty s u = false -> demand_site_setattrs s u now = s.
Proof.
  intros H. unfold demand_site_setattrs. rewrite H. simpl.
  unfold demand_site_dirty in H. split_orb H.
  destruct s; simpl in *. unmodified. reflexivity.
Qed.

(** What each kind of column holds after the [setattr] loop and the
    UPDATE. *)
Lemma nullable_field {A} (eqb : A -> A -> bool) (supplied : option (option A))
    (current : option A) :
  (forall a b, eqb a b = true -> a = b) ->
  field_updated as_supplied supplied current
    (setattr (same_nullable eqb) store_nullable supplied current).
Proof.
  intros Heqb. destruct supplied as [v|]; simpl; [|reflexivity].
  unfold as_supplied, same_nullable.
  destruct (option_eqb eqb v current) eqn:E; [|reflexivity].
  symmetry. now apply (option_eqb_eq eqb).
Qed.

Lemma required_field {A} (eqb : A -> A -> bool) (supplied : option (option A))
    (current : A) :
  (forall a b, eqb a b = true -> a = b) ->
  violates_not_null store_required supplied = false ->
  field_updated as_required supplied current
    (setattr (same_required eqb) store_required supplied current).
Proof.
  intros Heqb. destruct supplied as [v|]; simpl; [|reflexivity].
  unfold as_required, same_required, store_required.
  destruct (option_eqb eqb v (Some current)) eqn:E.
  - intros _. now apply (option_eqb_eq eqb).
  - destruct v; [reflexivity|discriminate].
Qed.

Lemma real_field (supplied : option (option float)) (current : option float) :
  field_updated as_real supplied current
    (setattr (same_nullable float_eqb) store_real supplied current).
Proof.
  destruct supplied as [v|]; simpl; [|reflexivity].
  unfold as_real, same_nullable, store_real, nullable_real.
  destruct v as [x|], current as [y|]; simpl; try reflexivity.
  - destruct (float_eqb x y) eqn:E.
    + rewrite (float_eqb_not_nan _ _ E). eauto.
    + destruct (is_nan x) eqn:En.
      * apply sqlite_real_none in En. now rewrite En.
      * destruct (sqlite_real x) as [z|] eqn:Ez.
        -- apply sqlite_real_eqb in Ez. eauto.
        -- apply sqlite_real_none in Ez. congruence.
  - destruct (is_nan x) eqn:En.
    + apply sqlite_real_none in En. now rewrite En.
    + destruct (sqlite_real x) as [z|] eqn:Ez.
      * apply sqlite_real_eqb in Ez. eauto.
      * apply sqlite_real_none in Ez. congruence.
Qed.

Lemma required_real_field (supplied : option (option float)) (current : float) :
  violates_not_null store_required_real supplied = false ->
  field_updated as_required_real supplied current
    (setattr (same_required float_eqb) store_required_real supplied current).
Proof.
  destruct supplied as [v|]; simpl; [|reflexivity].
  unfold as_required_real, same_required, store_required_real, nullable_real.
  destruct v as [x|]; simpl; [|discriminate].
  destruct (float_eqb x current) eqn:E; [eauto|].
  destruct (sqlite_real x) as [z|] eqn:Ez; [|discriminate].
  apply sqlite_real_eqb in Ez. eauto.
Qed.

Lemma datetime_field (supplied : option (option datetime)) (current : option Z) :
  field_updated as_datetime supplied current
    (setattr same_datetime store_datetime supplied current).
Proof.
  destruct supplied as [v|]; simpl; [|reflexivity].
  unfold as_datetime, same_datetime.
  destruct v as [[w|w o]|], current as [z|]; simpl; try reflexivity.
  destruct (w =? z) eqn:E; [|reflexivity]. apply Z.eqb_eq in E. now subst.
Qed.

(** A datetime with an offset never equals the stored one. *)
Lemma aware_modifies (w o : Z) (current : option Z) :
  modifies same_datetime (Some (Some (aware w o))) current = true.
Proof. now destruct current. Qed.

(** Nor does a NaN. *)
Lemma nan_modifies (x : float) (current : option float) :
  is_nan x = true ->
  modifies (same_nullable float_eqb) (Some (Some x)) current = true.
Proof.
  intros H. destruct current as [y|]; simpl; [|reflexivity].
  destruct (float_eqb x y) eqn:E; [|reflexivity].
  apply float_eqb_not_nan in E. congruence.
Qed.

Section Rewritten.

Context {A : Type} (key : A -> Z).

(** After the row with key [k] is rewritten, a lookup of [k] finds the new
    row and every other lookup is as before. *)
Lemma find_write_same (a a' : A) (l : list A) (k : Z) :
  find (fun x => key x =? k) l = Some a -> key a' = k ->
  find (fun x => key x =? k)
       (map (fun x => if key x =? key a' then a' else x) l) = Some a'.
Proof.
  intros Hfind Hk. subst k. induction l as [|x l IH]; simpl in *; [discriminate|].
  destruct (key x =? key a') eqn:E.
  - now rewrite Z.eqb_refl.
  - rewrite E. auto.
Qed.

Lemma find_write_other (a' : A) (l : list A) (k : Z) :
  k <> key a' ->
  find (fun x => key x =? k)
       (map (fun x => if key x =? key a' then a' else x) l)
  = find (fun x => key x =? k) l.
Proof.
  intros Hk. induction l as [|x l IH]; simpl; [reflexivity|].
  destruct (key x =? key a') eqn:E.
  - apply Z.eqb_eq in E. rewrite E.
    destruct (key a' =? k) eqn:E'; [apply Z.eqb_eq in E'; congruence|]. exact IH.
  - destruct (key x =? k); [reflexivity|exact IH].
Qed.

End Rewritten.

Lemma heat_center_setattrs_updated (c : HeatCenter.t) (u : HeatCenterUpdate.t) (now : Z) :
  heat_center_not_null_violation u = false ->
  heat_center_updated u c (heat_center_setattrs c u now).
Proof.
  intros H. unfold heat_center_not_null_violation in H. split_orb H.
  unfold heat_center_updated, heat_center_setattrs. simpl.
  repeat split;
    auto using required_field, required_real_field, real_field, datetime_field,
               nullable_field with eqb.
Qed.

Lemma demand_site_setattrs_updated (s : DemandSite.t) (u : DemandSiteUpdate.t) (now : Z) :
  demand_site_not_null_violation u = false ->
  demand_site_updated u s (demand_site_setattrs s u now).
Proof.
  intros H. unfold demand_site_not_null_violation in H. split_orb H.
  unfold demand_site_updated, demand_site_setattrs. simpl.
  repeat split;
    auto using required_field, required_real_field, real_field, datetime_field,
               nullable_field with eqb.
Qed.

(** C4, as the code has it.  An update of a heat center or a demand site on
    a resolving id fails and changes nothing when it sets a NOT NULL column
    to null or to NaN, and, before that, when it changes an integer column
    to a value beyond 64 bits.  Otherwise it succeeds: the supplied fields
    take the supplied values as the columns store them (a float as a number
    equal to it, a NaN as null, a datetime without its offset), every other
    field, the id and [created_at] keep theirs, no other row and no other
    table changes; [updated_at] is the time of the write when some supplied
    value differs from the stored one, and when none does the row is left
    exactly as it was.  A datetime with an offset and a NaN always differ
    from the stored value. *)
Theorem update_partial (db : Database) (now : Z) :
  (forall center_id center u,
     heat_center_by_id db center_id = Some center ->
     (heat_center_not_null_violation u = true ->
        update_heat_center center_id u now db = (Err IntegrityError, db))
     /\ (heat_center_not_null_violation u = false ->
        exists center' db',
          update_heat_center center_id u now db = (Ok center', db')
          /\ heat_center_by_id db' center_id = Some center'
          /\ (forall other, other <> center_id ->
                heat_center_by_id db' other = heat_center_by_id db other)
          /\ keeps_demand_sites db db' /\ keeps_routes db db'
          /\ keeps_system_config db db'
          /\ heat_center_updated u center center'
          /\ (heat_center_dirty center u = true ->
                HeatCenter.updated_at center' = Some now)
          /\ (heat_center_dirty center u = false -> center' = center)))
  /\ (forall site_id site u,
     demand_site_by_id db site_id = Some site ->
     (demand_site_overflow site u = true ->
        update_demand_site site_id u now db = (Err OverflowError, db))
     /\ (demand_site_overflow site u = false ->
         demand_site_not_null_violation u = true ->
         update_demand_site site_id u now db = (Err IntegrityError, db))
     /\ (demand_site_overflow site u = false ->
         demand_site_not_null_violation u = false ->
        exists site' db',
          update_demand_site site_id u now db = (Ok site', db')
          /\ demand_site_by_id db' site_id = Some site'
          /\ (forall other, other <> site_id ->
                demand_site_by_id db' other = demand_site_by_id db other)
          /\ keeps_heat_centers db db' /\ keeps_routes db db'
          /\ keeps_system_config db db'
          /\ demand_site_updated u site site'
          /\ (demand_site_dirty site u = true ->
                DemandSite.updated_at site' = Some now)
          /\ (demand_site_dirty site u = false -> site' = site)))
  /\ (forall c u w o,
        HeatCenterUpdate.commissioning_date u = Some (Some (aware w o))
        \/ HeatCenterUpdate.last_maintenance u = Some (Some (aware w o)) ->
        heat_center_dirty c u = true)
  /\ (forall s u w o,
        DemandSiteUpdate.connection_date u = Some (Some (aware w o)) ->
        demand_site_dirty s u = true)
  /\ (forall c u x,
        HeatCenterUpdate.current_output_mw u = Some (Some x) -> is_nan x = true ->
        heat_center_dirty c u = true)
  /\ (forall s u n,
        DemandSiteUpdate.priority_level u = Some (Some n) -> int64 n = false ->
        DemandSite.priority_level s <> Some n ->
        demand_site_overflow s u = true).
Proof.
  split; [|split; [|split; [|split; [|split]]]].
  - intros center_id center u Hfind. unfold update_heat_center.
    rewrite (query_heat_center_stored _ _ _ Hfind).
    split; intros Hv; rewrite Hv; [reflexivity|].
    pose proof (find_key_sound HeatCenter.id _ _ _ Hfind) as [_ Hid].
    do 2 eexists. split; [reflexivity|].
    split; [|split; [|split; [|split; [|split; [|split; [|split]]]]]];
      try reflexivity.
    + unfold heat_center_by_id, write_heat_center, set_heat_centers.
      cbn [heat_centers].
      apply (find_write_same HeatCenter.id center); [exact Hfind|exact Hid].
    + intros other Hother.
      unfold heat_center_by_id, write_heat_center, set_heat_centers.
      cbn [heat_centers].
      apply (find_write_other HeatCenter.id). simpl. congruence.
    + now apply heat_center_setattrs_updated.
    + intros Hd. simpl. now rewrite Hd.
    + apply heat_center_clean.
  - intros site_id site u Hfind. unfold update_demand_site.
    rewrite (query_demand_site_stored _ _ _ Hfind).
    split; [|split].
    + now intros ->.
    + now intros -> ->.
    + intros Ho Hv. rewrite Ho, Hv.
      pose proof (find_key_sound DemandSite.id _ _ _ Hfind) as [_ Hid].
      do 2 eexists. split; [reflexivity|].
      split; [|split; [|split; [|split; [|split; [|split; [|split]]]]]];
        try reflexivity.
      * unfold demand_site_by_id, write_demand_site, set_demand_sites.
        cbn [demand_sites].
        apply (find_write_same DemandSite.id site); [exact Hfind|exact Hid].
      * intros other Hother.
        unfold demand_site_by_id, write_demand_site, set_demand_sites.
        cbn [demand_sites].
        apply (find_write_other DemandSite.id). simpl. congruence.
      * now apply demand_site_setattrs_updated.
      * intros Hd. simpl. now rewrite Hd.
      * apply demand_site_clean.
  - intros c u w o H. unfold heat_center_dirty. rewrite !orb_true_iff.
    destruct H as [H|H]; rewrite H;
      pose proof (aware_modifies w o (HeatCenter.commissioning_date c));
      pose proof (aware_modifies w o (HeatCenter.last_maintenance c)); tauto.
  - intros s u w o H. unfold demand_site_dirty. rewrite !orb_true_iff, H.
    pose proof (aware_modifies w o (DemandSite.connection_date s)). tauto.
  - intros c u x H Hn. unfold heat_center_dirty. rewrite !orb_true_iff, H.
    pose proof (nan_modifies x (HeatCenter.current_output_mw c) Hn). tauto.
  - intros s u n H Hn Hne. unfold demand_site_overflow, overflows.
    rewrite H. cbn [bindable modifies]. rewrite Hn. cbn [negb].
    rewrite andb_true_r, orb_true_iff. left.
    unfold same_nullable. destruct (DemandSite.priority_level s) as [m|]; simpl;
      [|reflexivity].
    destruct (n =? m) eqn:E; [|reflexivity]. apply Z.eqb_eq in E. congruence.
Qed.
Lemma update_partial_witness :
  update_heat_center 1 null_name_update 50 center_only
  = (Err IntegrityError, center_only)
  /\ (exists center' db',
        update_heat_center 1 output_update 50 center_only = (Ok center', db')
        /\ (exists y, HeatCenter.current_output_mw center' = Some y
                      /\ float_eqb 30%float y = true)
        /\ HeatCenter.fuel_type center' = None
        /\ HeatCenter.updated_at center' = Some 50)
  /\ (exists center' db',
        update_heat_center 1 empty_update 50 center_only = (Ok center', db')
        /\ heat_center_by_id center_only 1 = Some center')
  /\ (exists site' db',
        update_demand_site 1 demand_update 50 no_route = (Ok site', db')
        /\ (exists y, DemandSite.current_demand_mw site' = Some y
                      /\ float_eqb 7%float y = true)
        /\ DemandSite.updated_at site' = Some 50)
  /\ update_demand_site 1 huge_priority_update 50 no_route = (Err OverflowError, no_route)
  /\ (exists center' db',
        update_heat_center 1 dated_update 60
          (snd (update_heat_center 1 dated_update 50 center_only)) = (Ok center', db')
        /\ HeatCenter.commissioning_date center' = Some 1700000000000000
        /\ HeatCenter.updated_at center' = Some 60).
Proof.
  destruct (update_partial center_only 50) as (Hh & _).
  destruct (update_partial no_route 50) as (_ & Hd & _).
  destruct (update_partial (snd (update_heat_center 1 dated_update 50 center_only)) 60)
    as (Hh' & _ & Haware & _).
  split; [|split; [|split; [|split; [|split]]]].
  - now apply (Hh 1 _ null_name_update eq_refl).
  - destruct (Hh 1 _ output_update eq_refl) as [_ H].
    destruct (H eq_refl) as (c' & db' & Heq & _ & _ & _ & _ & _ & Hupd & Hdirty & _).
    exists c', db'. split; [exact Heq|].
    destruct Hupd as (_ & _ & _ & _ & _ & _ & _ & Hout & _ & Hfuel & _).
    split; [exact Hout|]. split; [exact Hfuel|]. now apply Hdirty.
  - destruct (Hh 1 _ empty_update eq_refl) as [_ H].
    destruct (H eq_refl) as (c' & db' & Heq & _ & _ & _ & _ & _ & _ & _ & Hclean).
    exists c', db'. split; [exact Heq|]. now rewrite (Hclean eq_refl).
  - destruct (Hd 1 _ demand_update eq_refl) as (_ & _ & H).
    destruct (H eq_refl eq_refl)
      as (s' & db' & Heq & _ & _ & _ & _ & _ & Hupd & Hdirty & _).
    exists s', db'. split; [exact Heq|].
    destruct Hupd as (_ & _ & _ & _ & _ & _ & _ & _ & Hdem & _).
    split; [exact Hdem|]. now apply Hdirty.
  - destruct (Hd 1 _ huge_priority_update eq_refl) as (H & _). now apply H.
  - destruct (Hh' 1 _ dated_update eq_refl) as [_ H].
    destruct (H eq_refl) as (c' & db' & Heq & _ & _ & _ & _ & _ & Hupd & Hdirty & _).
    exists c', db'. split; [exact Heq|].
    destruct Hupd as (_ & _ & _ & _ & _ & _ & _ & _ & _ & _ & _ & Hdate & _).
    split; [exact Hdate|]. apply Hdirty.
    apply (Haware _ dated_update 1700000000000000 3600000000). now left.
Defined.

(** C4 as stated fails on [updated_at]: an update that sets no field is
    accepted and leaves [updated_at] empty, as it was when the row was
    inserted.  It also fails on the supplied values: a null for a NOT NULL
    column and an integer beyond 64 bits make the request fail, and a NaN
    is stored as null. *)
Lemma update_keeps_updated_at :
  (exists center',
     fst (update_heat_center 1 empty_update 50 center_only) = Ok center'
     /\ HeatCenter.created_at center' = 1
     /\ HeatCenter.updated_at center' = None)
  /\ fst (update_heat_center 1 null_name_update 50 center_only) = Err IntegrityError
  /\ fst (update_demand_site 1 huge_priority_update 50 no_route) = Err OverflowError
  /\ (exists center',
        fst (update_heat_center 1 nan_output_update 50 center_only) = Ok center'
        /\ HeatCenter.current_output_mw center' = None).
Proof.
  split; [eexists; repeat split|].
  split; [reflexivity|]. split; [reflexivity|]. eexists. split; reflexivity.
Qed.

(** * Analytics *)

Lemma bind_ok {A B} (r : Result A) (k : A -> Result B) (b : B) :
  bind r k = Ok b -> exists a, r = Ok a /\ k a = Ok b.
Proof. destruct r as [a|e]; simpl; [eauto|discriminate]. Qed.

Lemma bind_no_division_error {A B} (r : Result A) (k : A -> Result B) :
  no_division_error r -> (forall a, no_division_error (k a)) ->
  no_division_error (bind r k).
Proof.
  unfold no_division_error. destruct r as [a|e]; simpl; [auto|].
  intros H _ Heq. apply H. congruence.
Qed.

Lemma float_of_int_no_division_error (n : Z) : no_division_error (float_of_int n).
Proof. unfold float_of_int. destruct (_ <? _); discriminate. Qed.

Lemma as_float_no_division_error (v : number) : no_division_error (as_float v).
Proof. destruct v; simpl; [apply float_of_int_no_division_error|discriminate]. Qed.

(** A division under the guard [den > 0] does not raise for a zero
    divisor. *)
Lemma truediv_no_division_error (n den : number) :
  gt_0 den = true -> no_division_error (truediv n den).
Proof.
  destruct n as [n|x], den as [d|y]; simpl; intros Hpos.
  - apply Z.ltb_lt in Hpos. unfold int_truediv.
    destruct d as [|d|d]; try lia.
    destruct n as [|n|n]; try discriminate;
      destruct (is_infinity _); discriminate.
  - apply bind_no_division_error; [apply float_of_int_no_division_error|].
    intros x. rewrite (float_gt_nonzero _ Hpos). discriminate.
  - apply Z.ltb_lt in Hpos. destruct (d =? 0) eqn:E; [lia|].
    apply bind_no_division_error; [apply float_of_int_no_division_error|discriminate].
  - rewrite (float_gt_nonzero _ Hpos). discriminate.
Qed.

Lemma percent_of_no_division_error (num : option number) (den : number) :
  no_division_error (percent_of num den).
Proof.
  unfold percent_of. apply bind_no_division_error; [|discriminate].
  destruct (gt_0 den) eqn:E; [|discriminate].
  destruct num as [n|]; [|discriminate].
  apply bind_no_division_error; [now apply truediv_no_division_error|discriminate].
Qed.

(** The percentage of two floats: the rounded quotient times 100 under the
    guard, the integer 0 otherwise. *)
Lemma percent_of_float (n : number) (x den : float) :
  as_float n = Ok x ->
  percent_of (Some n) (Float den)
  = Ok (if float_gt den 0%float then Float (float_round2 (x / den * 100)%float)
        else Int 0).
Proof.
  intros Hx. unfold percent_of. simpl. destruct (float_gt den 0%float) eqn:E; [|reflexivity].
  assert (Hdiv : truediv n (Float den) = Ok (x / den)%float).
  { destruct n as [n|x0]; simpl in Hx |- *.
    - rewrite Hx. simpl. now rewrite (float_gt_nonzero _ E).
    - injection Hx as ->. now rewrite (float_gt_nonzero _ E). }
  rewrite Hdiv. reflexivity.
Qed.

Lemma percent_of_null (den : float) :
  percent_of None (Float den)
  = if float_gt den 0%float then Err TypeError else Ok (Int 0).
Proof. unfold percent_of. simpl. now destruct (float_gt den 0%float). Qed.

(** [scalar() or 0] is the integer 0 or a float that is a number other
    than zero. *)
Lemma or_0_cases (v : option float) :
  or_0 v = Int 0 \/ exists x, or_0 v = Float x /\ float_eqb x 0%float = false.
Proof.
  destruct v as [x|]; simpl; [|now left].
  destruct (float_eqb x 0%float) eqn:E; [now left|right; eauto].
Qed.

Lemma as_float_or_0 (v : option float) :
  exists x, as_float (or_0 v) = Ok x /\ gt_0 (or_0 v) = float_gt x 0%float.
Proof.
  destruct (or_0_cases v) as [->|(x & -> & _)]; [|simpl; eauto].
  exists 0%float. split; reflexivity.
Qed.

Lemma percent_of_or_0 (a b : option float) (x y : float) :
  as_float (or_0 a) = Ok x -> as_float (or_0 b) = Ok y ->
  percent_of (Some (or_0 a)) (or_0 b)
  = Ok (if float_gt y 0%float then Float (float_round2 (x / y * 100)%float)
        else Int 0).
Proof.
  intros Hx Hy. destruct (or_0_cases b) as [E|(d & E & _)]; rewrite E in *.
  - injection Hy as <-. reflexivity.
  - injection Hy as <-. now apply percent_of_float.
Qed.

(** Keys that are all different and lie in a range are no more than the
    range holds. *)
Lemma NoDup_range_count (ids : list Z) (lo hi : Z) :
  NoDup ids -> (forall i, In i ids -> lo <= i < hi) -> count ids <= Z.max 0 (hi - lo).
Proof.
  intros Hnd Hr.
  pose (range := map (fun n => lo + Z.of_nat n) (seq 0 (Z.to_nat (hi - lo)))).
  assert (Hincl : incl ids range).
  { intros i Hi. apply Hr in Hi. apply in_map_iff. exists (Z.to_nat (i - lo)).
    split; [lia|]. apply in_seq. lia. }
  pose proof (NoDup_incl_length Hnd Hincl) as Hlen.
  unfold range in Hlen. rewrite length_map, length_seq in Hlen. unfold count. lia.
Qed.

Lemma route_count_bound (db : Database) : consistent db -> count (routes db) <= 2 ^ 64.
Proof.
  intros H. pose proof (route_pk _ H) as Hnd.
  assert (Hc : count (routes db) = count (map Route.id (routes db)))
    by (unfold count; now rewrite length_map).
  rewrite Hc. change (2 ^ 64) with (Z.max 0 (2 ^ 63 - - 2 ^ 63)).
  apply NoDup_range_count; [exact Hnd|].
  intros i Hi. apply in_map_iff in Hi as (r & <- & _). apply int64_spec, Route.id_fits.
Qed.

Lemma float_of_int_bounded (n : Z) : Z.abs n <= 2 ^ 64 -> float_of_int n = Ok (float_of_Z n).
Proof.
  intros H. unfold float_of_int.
  replace (Z.abs n <? 2 ^ 1024 - 2 ^ 970) with true; [reflexivity|].
  symmetry. apply Z.ltb_lt.
  assert (2 ^ 64 < 2 ^ 1024 - 2 ^ 970) by (apply Z.ltb_lt; vm_compute; reflexivity).
  lia.
Qed.

(** The average of the overview, for a number of routes that converts to a
    float. *)
Lemma average_or_0 (v : option float) (x : float) (n : Z) :
  as_float (or_0 v) = Ok x -> 0 < n <= 2 ^ 64 ->
  exists q, truediv (or_0 v) (Int n) = Ok q.
Proof.
  intros Hx Hn. destruct (or_0_cases v) as [->|(d & -> & _)]; simpl.
  - unfold int_truediv. destruct n as [|n|n]; try lia. eauto.
  - destruct (n =? 0) eqn:E; [lia|].
    rewrite float_of_int_bounded by lia. simpl. eauto.
Qed.

(** What the overview answers with, field by field. *)
Lemma get_analytics_overview_ok (db : Database) (o : Overview) :
  get_analytics_overview db = Ok o ->
  as_float (capacity_sum db) = Ok (total_generation_capacity_mw o)
  /\ as_float (output_sum db) = Ok (current_generation_mw o)
  /\ as_float (peak_demand_sum db) = Ok (total_peak_demand_mw o)
  /\ as_float (demand_sum db) = Ok (current_demand_mw o)
  /\ as_float (distance_sum db) = Ok (total_pipeline_km o)
  /\ percent_of (Some (output_sum db)) (capacity_sum db)
     = Ok (capacity_utilization_percent o)
  /\ percent_of (Some (capacity_sum db)) (peak_demand_sum db)
     = Ok (demand_coverage_percent o)
  /\ (if 0 <? count (routes db)
      then exists q, truediv (distance_sum db) (Int (count (routes db))) = Ok q
                     /\ average_route_distance_km o = Float (float_round2 q)
      else average_route_distance_km o = Int 0)
  /\ heat_centers_total o = count (heat_centers db)
  /\ heat_centers_active o
     = count (filter (fun c => is_true (HeatCenter.is_active c)) (heat_centers db))
  /\ demand_sites_total o = count (demand_sites db)
  /\ demand_sites_connected o
     = count (filter (fun s => is_true (DemandSite.is_connected s)) (demand_sites db))
  /\ routes_total o = count (routes db)
  /\ routes_active o
     = count (filter (fun r => option_eqb RouteStatus_eqb (Route.status r) (Some ACTIVE))
                     (routes db)).
Proof.
  unfold get_analytics_overview. intros H.
  apply bind_ok in H as (cap & Hcap & H). apply bind_ok in H as (out & Hout & H).
  apply bind_ok in H as (u & Hu & H). apply bind_ok in H as (peak & Hpeak & H).
  apply bind_ok in H as (dem & Hdem & H). apply bind_ok in H as (cov & Hcov & H).
  apply bind_ok in H as (km & Hkm & H). apply bind_ok in H as (avg & Havg & H).
  injection H as <-. cbn [total_generation_capacity_mw current_generation_mw
    total_peak_demand_mw current_demand_mw total_pipeline_km capacity_utilization_percent
    demand_coverage_percent average_route_distance_km heat_centers_total
    heat_centers_active demand_sites_total demand_sites_connected routes_total
    routes_active].
  repeat (split; [first [assumption|reflexivity]|]).
  split; [|repeat split].
  destruct (0 <? count (routes db)).
  - apply bind_ok in Havg as (q & Hq & Havg). injection Havg as <-. eauto.
  - now injection Havg as <-.
Qed.

(** The overview answers as long as the number of routes converts to a
    float, as it does when their keys are 64-bit integers. *)
Lemma get_analytics_overview_answers (db : Database) :
  count (routes db) <= 2 ^ 64 -> exists o, get_analytics_overview db = Ok o.
Proof.
  intros Hn. unfold get_analytics_overview, capacity_sum, output_sum, peak_demand_sum,
    demand_sum, distance_sum.
  destruct (as_float_or_0 (sql_sum (map (fun c => Some (HeatCenter.max_capacity_mw c))
                                        (heat_centers db)))) as (cap & Hcap & _).
  destruct (as_float_or_0 (sql_sum (map HeatCenter.current_output_mw (heat_centers db))))
    as (out & Hout & _).
  destruct (as_float_or_0 (sql_sum (map (fun s => Some (DemandSite.peak_demand_mw s))
                                        (demand_sites db)))) as (peak & Hpeak & _).
  destruct (as_float_or_0 (sql_sum (map DemandSite.current_demand_mw (demand_sites db))))
    as (dem & Hdem & _).
  destruct (as_float_or_0 (sql_sum (map (fun r => Some (Route.distance_km r)) (routes db))))
    as (km & Hkm & _).
  rewrite Hcap, Hout, Hpeak, Hdem, Hkm.
  rewrite (percent_of_or_0 _ _ _ _ Hout Hcap), (percent_of_or_0 _ _ _ _ Hcap Hpeak).
  cbn [bind].
  destruct (0 <? count (routes db)) eqn:E.
  - apply Z.ltb_lt in E.
    destruct (average_or_0 _ _ (count (routes db)) Hkm) as (q & ->); [lia|].
    cbn [bind]. eauto.
  - cbn [bind]. eauto.
Qed.

Lemma get_analytics_overview_no_division_error (db : Database) :
  no_division_error (get_analytics_overview db).
Proof.
  unfold get_analytics_overview.
  apply bind_no_division_error; [apply as_float_no_division_error|]. intros cap.
  apply bind_no_division_error; [apply as_float_no_division_error|]. intros out.
  apply bind_no_division_error; [apply percent_of_no_division_error|]. intros u.
  apply bind_no_division_error; [apply as_float_no_division_error|]. intros peak.
  apply bind_no_division_error; [apply as_float_no_division_error|]. intros dem.
  apply bind_no_division_error; [apply percent_of_no_division_error|]. intros cov.
  apply bind_no_division_error; [apply as_float_no_division_error|]. intros km.
  apply bind_no_division_error; [|discriminate].
  destruct (0 <? count (routes db)) eqn:E; [|discriminate].
  apply bind_no_division_error; [|discriminate].
  now apply truediv_no_division_error.
Qed.

(** The utilization of the overview in terms of the totals it reports. *)
Lemma overview_percentages (db : Database) (o : Overview) :
  get_analytics_overview db = Ok o ->
  capacity_utilization_percent o
  = (if float_gt (total_generation_capacity_mw o) 0%float
     then Float (float_round2
                   (current_generation_mw o / total_generation_capacity_mw o * 100)%float)
     else Int 0)
  /\ demand_coverage_percent o
     = (if float_gt (total_peak_demand_mw o) 0%float
        then Float (float_round2
                      (total_generation_capacity_mw o / total_peak_demand_mw o * 100)%float)
        else Int 0).
Proof.
  intros H. apply get_analytics_overview_ok in H
    as (Hcap & Hout & Hpeak & _ & _ & Hu & Hcov & _).
  unfold capacity_sum, output_sum, peak_demand_sum in *.
  rewrite (percent_of_or_0 _ _ _ _ Hout Hcap) in Hu.
  rewrite (percent_of_or_0 _ _ _ _ Hcap Hpeak) in Hcov.
  injection Hu as <-. injection Hcov as <-. split; reflexivity.
Qed.

(** C5, as the code has it.  In a database built by the service the overview
    answers.  Its [capacity_utilization_percent] is computed in double
    precision from the two sums it also reports: when the sum of
    [max_capacity_mw] is positive it is [round(output / capacity * 100, 2)],
    and when that sum is not positive (zero, negative, or no heat center)
    it is the integer 0.  For the seeded capacities 45, 75, 35, 25 and
    outputs 32.5, 58.2, 28.7, 19.8 the sums are 180 and
    139.20000000000002 and the percentage is 77.33; for a capacity of 160
    the outputs 23 and 49 give 14.37 and 30.63. *)
Theorem overview_capacity_utilization (db : Database) :
  (reachable db -> exists o, get_analytics_overview db = Ok o)
  /\ (forall o,
        get_analytics_overview db = Ok o ->
        as_float (capacity_sum db) = Ok (total_generation_capacity_mw o)
        /\ as_float (output_sum db) = Ok (current_generation_mw o)
        /\ (float_gt (total_generation_capacity_mw o) 0%float = true ->
            capacity_utilization_percent o
            = Float (float_round2 (current_generation_mw o
                                   / total_generation_capacity_mw o * 100)%float))
        /\ (float_gt (total_generation_capacity_mw o) 0%float = false ->
            capacity_utilization_percent o = Int 0))
  /\ (exists o,
        get_analytics_overview seeded_centers = Ok o
        /\ capacity_sum seeded_centers = Float 180%float
        /\ output_sum seeded_centers = Float 139.20000000000002%float
        /\ capacity_utilization_percent o = Float 77.33%float)
  /\ (exists o,
        get_analytics_overview rounded_down = Ok o
        /\ capacity_utilization_percent o = Float 14.37%float)
  /\ (exists o,
        get_analytics_overview rounded_up = Ok o
        /\ capacity_utilization_percent o = Float 30.63%float).
Proof.
  split; [|split; [|split; [|split]]].
  - intros Hreach. apply get_analytics_overview_answers.
    now apply route_count_bound, reachable_consistent.
  - intros o Ho. destruct (overview_percentages _ _ Ho) as [Hu _].
    apply get_analytics_overview_ok in Ho as (Hcap & Hout & _).
    split; [exact Hcap|]. split; [exact Hout|]. rewrite Hu.
    split; intros E; rewrite E; reflexivity.
  - eexists. split; [vm_compute; reflexivity|]. repeat split.
  - eexists. split; [vm_compute; reflexivity|]. reflexivity.
  - eexists. split; [vm_compute; reflexivity|]. reflexivity.
Qed.

Lemma overview_capacity_utilization_witness :
  (exists o,
     get_analytics_overview seeded_centers = Ok o
     /\ capacity_utilization_percent o
        = Float (float_round2 (current_generation_mw o
                               / total_generation_capacity_mw o * 100)%float))
  /\ (exists o,
        get_analytics_overview empty_db = Ok o
        /\ capacity_utilization_percent o = Int 0).
Proof.
  split.
  - destruct (overview_capacity_utilization seeded_centers) as (Hans & Hfields & _).
    destruct Hans as (o & Ho); [unfold seeded_centers; reach|].
    exists o. split; [exact Ho|].
    destruct (Hfields o Ho) as (_ & _ & Hpos & _). apply Hpos.
    vm_compute in Ho. injection Ho as <-. reflexivity.
  - destruct (overview_capacity_utilization empty_db) as (Hans & Hfields & _).
    destruct Hans as (o & Ho); [reach|].
    exists o. split; [exact Ho|].
    destruct (Hfields o Ho) as (_ & _ & _ & Hzero). apply Hzero.
    vm_compute in Ho. injection Ho as <-. reflexivity.
Defined.

(** C5 as stated fails for a capacity sum that is negative: the sum is
    -10, not 0, the quotient times 100 rounds to -50, and the overview
    reports the integer 0. *)
Lemma overview_negative_capacity :
  capacity_sum negative_capacity = Float (-10)%float
  /\ output_sum negative_capacity = Float 5%float
  /\ float_round2 (5 / -10 * 100)%float = (-50)%float
  /\ exists o,
       get_analytics_overview negative_capacity = Ok o
       /\ capacity_utilization_percent o = Int 0.
Proof.
  split; [reflexivity|]. split; [reflexivity|]. split; [reflexivity|].
  eexists. split; [vm_compute; reflexivity|]. reflexivity.
Qed.

(** ** The drill-downs *)

Lemma float_sum_from_filled (xs : list (option float)) (acc : float) :
  (forall x, In x xs -> x <> None) ->
  float_sum_from acc xs = Ok (fold_left (fun a v => a + v)%float (non_null xs) acc).
Proof.
  revert acc. induction xs as [|[v|] xs IH]; intros acc H; simpl; [reflexivity| |].
  - apply IH. intros x Hx. apply H. now right.
  - exfalso. apply (H None); [now left|reflexivity].
Qed.

Lemma float_sum_from_null (xs : list (option float)) (acc : float) :
  In None xs -> float_sum_from acc xs = Err TypeError.
Proof.
  revert acc. induction xs as [|[v|] xs IH]; intros acc H; simpl; [destruct H| |reflexivity].
  apply IH. destruct H as [H|H]; [discriminate|exact H].
Qed.

Lemma float_sum_from_no_division_error (xs : list (option float)) (acc : float) :
  no_division_error (float_sum_from acc xs).
Proof.
  revert acc. induction xs as [|[v|] xs IH]; intros acc; simpl; auto; discriminate.
Qed.

(** [sum] over values that are all there is their float total. *)
Lemma py_sum_filled (xs : list (option float)) :
  (forall x, In x xs -> x <> None) ->
  exists n, py_sum xs = Ok n /\ as_float n = Ok (float_total (non_null xs)).
Proof.
  destruct xs as [|[v|] xs]; intros H.
  - exists (Int 0). split; reflexivity.
  - simpl. rewrite float_sum_from_filled by (intros x Hx; apply H; now right).
    simpl. eexists. split; reflexivity.
  - exfalso. apply (H None); [now left|reflexivity].
Qed.

Lemma py_sum_null (xs : list (option float)) : In None xs -> py_sum xs = Err TypeError.
Proof.
  destruct xs as [|[v|] xs]; intros H; simpl; [destruct H| |reflexivity].
  rewrite float_sum_from_null; [reflexivity|].
  destruct H as [H|H]; [discriminate|exact H].
Qed.

Lemma float_sum_from_err (xs : list (option float)) (acc : float) (e : Error) :
  float_sum_from acc xs = Err e -> e = TypeError.
Proof.
  revert acc. induction xs as [|[v|] xs IH]; intros acc; simpl; [discriminate|apply IH|].
  now intros H; injection H as <-.
Qed.

Lemma py_sum_err (xs : list (option float)) (e : Error) :
  py_sum xs = Err e -> e = TypeError.
Proof.
  destruct xs as [|[v|] xs]; simpl; [discriminate| |now intros H; injection H as <-].
  destruct (float_sum_from _ xs) eqn:E; simpl; [discriminate|].
  intros H. injection H as <-. now apply float_sum_from_err in E.
Qed.

(** What [sum] returns converts to a float. *)
Lemma py_sum_filled_float (xs : list (option float)) (n : number) (e : Error) :
  py_sum xs = Ok n -> as_float n <> Err e.
Proof.
  destruct xs as [|[v|] xs]; simpl; [|destruct (float_sum_from _ xs); simpl|];
    try discriminate; intros H; injection H as <-; discriminate.
Qed.

Lemma py_sum_no_division_error (xs : list (option float)) : no_division_error (py_sum xs).
Proof.
  destruct xs as [|[v|] xs]; simpl; try discriminate.
  apply bind_no_division_error; [apply float_sum_from_no_division_error|discriminate].
Qed.

Lemma route_entries_filled (counterpart : Route.t -> Z) (l : list Route.t) :
  (forall r, In r l -> Route.status r <> None) ->
  exists es, route_entries counterpart l = Ok es.
Proof.
  induction l as [|r l IH]; intros H; simpl; [eauto|].
  unfold route_entry. destruct (Route.status r) eqn:E.
  - simpl. destruct IH as (es & ->); [intros; apply H; now right|]. simpl. eauto.
  - exfalso. apply (H r); [now left|assumption].
Qed.

Lemma route_entries_no_division_error (counterpart : Route.t -> Z) (l : list Route.t) :
  no_division_error (route_entries counterpart l).
Proof.
  induction l as [|r l IH]; simpl; [discriminate|].
  apply bind_no_division_error.
  - unfold route_entry. destruct (Route.status r); discriminate.
  - intros e. apply bind_no_division_error; [exact IH|discriminate].
Qed.

Lemma route_entries_ok (counterpart : Route.t -> Z) (l : list Route.t) es :
  route_entries counterpart l = Ok es ->
  map route_id es = map Route.id l
  /\ map counterpart_id es = map counterpart l
  /\ map entry_current_flow_mw es = map Route.current_flow_mw l
  /\ map (fun e => Some (entry_status e)) es = map Route.status l.
Proof.
  revert es. induction l as [|r l IH]; intros es H; simpl in H.
  - injection H as <-. auto.
  - apply bind_ok in H as (e & He & H). apply bind_ok in H as (es' & Hes & H).
    injection H as <-. destruct (IH _ Hes) as (H1 & H2 & H3 & H4). unfold route_entry in He.
    destruct (Route.status r) eqn:Est; [|discriminate]. injection He as <-. simpl.
    now rewrite H1, H2, H3, H4, Est.
Qed.

Lemma non_null_filled {A B} (column : A -> B) (rows : list A) :
  non_null (map (fun r => Some (column r)) rows) = map column rows.
Proof. induction rows as [|r rows IH]; simpl; [reflexivity|]. now rewrite IH. Qed.

Lemma flows_filled (l : list Route.t) :
  (forall r, In r l -> Route.current_flow_mw r <> None) ->
  forall x, In x (map Route.current_flow_mw l) -> x <> None.
Proof. intros H x Hx. apply in_map_iff in Hx as (r & <- & Hr). now apply H. Qed.

Lemma capacities_filled (l : list Route.t) :
  forall x, In x (map (fun r => Some (Route.max_flow_capacity_mw r)) l) -> x <> None.
Proof. intros x Hx. apply in_map_iff in Hx as (r & <- & _). discriminate. Qed.

(** The percentage of a nullable column: null over a positive divisor
    raises. *)
Lemma percent_of_column (value : option float) (den : float) :
  percent_of (option_map Float value) (Float den)
  = if float_gt den 0%float then
      match value with
      | Some x => Ok (Float (float_round2 (x / den * 100)%float))
      | None => Err TypeError
      end
    else Ok (Int 0).
Proof.
  destruct value as [x|]; simpl option_map.
  - rewrite (percent_of_float (Float x) x den eq_refl). now destruct (float_gt den 0%float).
  - apply percent_of_null.
Qed.

(** The drill-down of a stored heat center, case by case. *)
Lemma heat_center_analytics_stored (db : Database) (id : Z) (c : HeatCenter.t) :
  consistent db ->
  heat_center_by_id db id = Some c ->
  (In None (map Route.current_flow_mw (routes_of_heat_center db id)) ->
   get_heat_center_analytics id db = Err TypeError)
  /\ (HeatCenter.current_output_mw c = None ->
      float_gt (HeatCenter.max_capacity_mw c) 0%float = true ->
      get_heat_center_analytics id db = Err TypeError)
  /\ ((forall r, In r (routes_of_heat_center db id) -> Route.current_flow_mw r <> None) ->
      HeatCenter.current_output_mw c <> None
      \/ float_gt (HeatCenter.max_capacity_mw c) 0%float = false ->
      exists a,
        get_heat_center_analytics id db = Ok a
        /\ center_info a = c
        /\ map route_id (hc_routes a) = map Route.id (routes_of_heat_center db id)
        /\ map counterpart_id (hc_routes a)
           = map Route.demand_site_id (routes_of_heat_center db id)
        /\ hc_number_of_routes a = count (routes_of_heat_center db id)
        /\ connected_demand_mw a
           = float_total (non_null (map Route.current_flow_mw (routes_of_heat_center db id)))
        /\ percent_of (option_map Float (HeatCenter.current_output_mw c))
                      (Float (HeatCenter.max_capacity_mw c))
           = Ok (hc_capacity_utilization_percent a)).
Proof.
  intros Hcons Hfind. pose proof (routes_filled _ Hcons) as Hst.
  unfold get_heat_center_analytics. rewrite (query_heat_center_stored _ _ _ Hfind).
  cbn [bind]. rewrite percent_of_column.
  split; [|split].
  - intros Hnull. now rewrite py_sum_null.
  - intros Hout Hpos. rewrite Hout, Hpos.
    destruct (py_sum _) as [n|e] eqn:E; [reflexivity|].
    apply py_sum_err in E. now subst.
  - intros Hflows Hok.
    destruct (py_sum_filled _ (flows_filled _ Hflows)) as (n & -> & Hn). cbn [bind].
    destruct (route_entries_filled Route.demand_site_id (routes_of_heat_center db id))
      as (es & Hes).
    { intros r Hr. apply filter_In in Hr as [Hr _]. now apply Hst. }
    assert (Hu : exists p,
               (if float_gt (HeatCenter.max_capacity_mw c) 0%float
                then match HeatCenter.current_output_mw c with
                     | Some x => Ok (Float (float_round2
                                    (x / HeatCenter.max_capacity_mw c * 100)%float))
                     | None => Err TypeError
                     end
                else Ok (Int 0)) = Ok p).
    { destruct (float_gt (HeatCenter.max_capacity_mw c) 0%float); [|eauto].
      destruct (HeatCenter.current_output_mw c); [eauto|].
      destruct Hok as [Hok|Hok]; [contradiction|discriminate]. }
    destruct Hu as (p & Hp). rewrite Hp. cbn [bind]. rewrite Hn, Hes. cbn [bind].
    eexists. split; [reflexivity|].
    cbn [center_info hc_routes hc_number_of_routes connected_demand_mw
         hc_capacity_utilization_percent].
    destruct (route_entries_ok _ _ _ Hes) as (H1 & H2 & _). repeat split; auto.
Qed.

(** The drill-down of a stored demand site, case by case. *)
Lemma demand_site_analytics_stored (db : Database) (id : Z) (s : DemandSite.t) :
  consistent db ->
  demand_site_by_id db id = Some s ->
  (In None (map Route.current_flow_mw (routes_of_demand_site db id)) ->
   get_demand_site_analytics id db = Err TypeError)
  /\ (DemandSite.current_demand_mw s = None ->
      float_gt (DemandSite.peak_demand_mw s) 0%float = true ->
      get_demand_site_analytics id db = Err TypeError)
  /\ ((forall r, In r (routes_of_demand_site db id) -> Route.current_flow_mw r <> None) ->
      DemandSite.current_demand_mw s <> None
      \/ float_gt (DemandSite.peak_demand_mw s) 0%float = false ->
      exists a,
        get_demand_site_analytics id db = Ok a
        /\ site_info a = s
        /\ map route_id (ds_routes a) = map Route.id (routes_of_demand_site db id)
        /\ map counterpart_id (ds_routes a)
           = map Route.heat_center_id (routes_of_demand_site db id)
        /\ total_supply_capacity_mw a
           = float_total (map Route.max_flow_capacity_mw (routes_of_demand_site db id))
        /\ current_supply_mw a
           = float_total (non_null (map Route.current_flow_mw (routes_of_demand_site db id)))
        /\ ds_demand_coverage_percent a
           = (if float_gt (DemandSite.peak_demand_mw s) 0%float
              then Float (float_round2 (total_supply_capacity_mw a
                                        / DemandSite.peak_demand_mw s * 100)%float)
              else Int 0)
        /\ percent_of (option_map Float (DemandSite.current_demand_mw s))
                      (Float (DemandSite.peak_demand_mw s))
           = Ok (current_utilization_percent a)).
Proof.
  intros Hcons Hfind. pose proof (routes_filled _ Hcons) as Hst.
  unfold get_demand_site_analytics. rewrite (query_demand_site_stored _ _ _ Hfind).
  cbn [bind]. rewrite percent_of_column.
  destruct (py_sum_filled _ (capacities_filled (routes_of_demand_site db id)))
    as (cap & -> & Hcap). cbn [bind].
  rewrite non_null_filled in Hcap.
  split; [|split].
  - intros Hnull. now rewrite py_sum_null.
  - intros Hdem Hpos. rewrite Hdem, Hpos.
    destruct (py_sum _) as [n|e] eqn:E.
    + cbn [bind]. rewrite Hcap. cbn [bind].
      destruct (as_float n) as [x|e] eqn:En;
        [|exfalso; exact (py_sum_filled_float _ _ e E En)].
      cbn [bind]. rewrite (percent_of_float _ _ _ Hcap). reflexivity.
    + apply py_sum_err in E. now subst.
  - intros Hflows Hok.
    destruct (py_sum_filled _ (flows_filled _ Hflows)) as (n & -> & Hn). cbn [bind].
    rewrite Hcap, Hn. cbn [bind]. rewrite (percent_of_float _ _ _ Hcap). cbn [bind].
    destruct (route_entries_filled Route.heat_center_id (routes_of_demand_site db id))
      as (es & Hes).
    { intros r Hr. apply filter_In in Hr as [Hr _]. now apply Hst. }
    assert (Hu : exists p,
               (if float_gt (DemandSite.peak_demand_mw s) 0%float
                then match DemandSite.current_demand_mw s with
                     | Some x => Ok (Float (float_round2
                                    (x / DemandSite.peak_demand_mw s * 100)%float))
                     | None => Err TypeError
                     end
                else Ok (Int 0)) = Ok p).
    { destruct (float_gt (DemandSite.peak_demand_mw s) 0%float); [|eauto].
      destruct (DemandSite.current_demand_mw s); [eauto|].
      destruct Hok as [Hok|Hok]; [contradiction|discriminate]. }
    destruct Hu as (p & Hp). rewrite Hp. cbn [bind]. rewrite Hes. cbn [bind].
    eexists. split; [reflexivity|].
    cbn [site_info ds_routes total_supply_capacity_mw current_supply_mw
         ds_demand_coverage_percent current_utilization_percent].
    destruct (route_entries_ok _ _ _ Hes) as (H1 & H2 & _). repeat split; auto.
Qed.

(** [round(x, 2)] on a finite float other than zero: the hundredths [k]
    are an integer nearest to [100 * |x|], the even one of two, and the
    result is the double nearest to [k / 100] with the sign of [x]. *)
Lemma float_round2_finite (x : float) (s : bool) (m : positive) (e : Z) :
  Prim2SF x = S754_finite s m e ->
  let h := hundredfold m e in
  let k := round_half_even h in
  float_round2 x = match k with
                   | Z.pos p => nearest_float s p 100
                   | _ => if s then (-0)%float else 0%float
                   end
  /\ Z.abs (2 * Qnum h - 2 * k * Z.pos (Qden h)) <= Z.pos (Qden h)
  /\ (Z.abs (2 * Qnum h - 2 * k * Z.pos (Qden h)) = Z.pos (Qden h) -> Z.even k = true).
Proof.
  intros Hx. cbv zeta. unfold float_round2. rewrite Hx. split; [reflexivity|].
  apply round_half_even_nearest.
Qed.

(** C6, as the code has it.  No analytics view ends in a division error,
    and in a database built by the service the overview answers.  Each
    percentage is [round(quotient * 100, 2)] in double precision when its
    divisor is positive and the integer 0 when it is not: the overview of
    the empty database reports 0 for capacity utilization, demand coverage
    and average route distance; the view of a stored heat center whose
    routes all have a flow reports 0 for a capacity that is not positive
    (0 in particular) and the rounded percentage of its output otherwise;
    the view of a stored demand site does the same for its coverage and
    its utilization.  [round(x, 2)] of a finite [x] is the double nearest
    to the hundredths nearest to [x], ties to even; an infinity and a NaN
    are returned as they are. *)
Theorem analytics_division_safe :
  (forall db id,
     no_division_error (get_analytics_overview db)
     /\ no_division_error (get_heat_center_analytics id db)
     /\ no_division_error (get_demand_site_analytics id db))
  /\ (forall db, reachable db -> exists o, get_analytics_overview db = Ok o)
  /\ (forall db o,
        get_analytics_overview db = Ok o ->
        capacity_utilization_percent o
        = (if float_gt (total_generation_capacity_mw o) 0%float
           then Float (float_round2 (current_generation_mw o
                                     / total_generation_capacity_mw o * 100)%float)
           else Int 0)
        /\ demand_coverage_percent o
           = (if float_gt (total_peak_demand_mw o) 0%float
              then Float (float_round2 (total_generation_capacity_mw o
                                        / total_peak_demand_mw o * 100)%float)
              else Int 0)
        /\ (if 0 <? routes_total o
            then exists q,
                   truediv (distance_sum db) (Int (routes_total o)) = Ok q
                   /\ average_route_distance_km o = Float (float_round2 q)
            else average_route_distance_km o = Int 0))
  /\ get_analytics_overview empty_db
     = Ok (mkOverview 0 0 0 0 0 0 0%float 0%float (Int 0) 0%float 0%float (Int 0)
             0%float (Int 0))
  /\ (forall db id c,
        reachable db ->
        heat_center_by_id db id = Some c ->
        (forall r, In r (routes_of_heat_center db id) -> Route.current_flow_mw r <> None) ->
        (HeatCenter.max_capacity_mw c = 0%float ->
         exists a,
           get_heat_center_analytics id db = Ok a
           /\ hc_capacity_utilization_percent a = Int 0)
        /\ (float_gt (HeatCenter.max_capacity_mw c) 0%float = false ->
            exists a,
              get_heat_center_analytics id db = Ok a
              /\ hc_capacity_utilization_percent a = Int 0)
        /\ (forall out,
              HeatCenter.current_output_mw c = Some out ->
              float_gt (HeatCenter.max_capacity_mw c) 0%float = true ->
              exists a,
                get_heat_center_analytics id db = Ok a
                /\ hc_capacity_utilization_percent a
                   = Float (float_round2 (out / HeatCenter.max_capacity_mw c * 100)%float)))
  /\ (forall db id s,
        reachable db ->
        demand_site_by_id db id = Some s ->
        (forall r, In r (routes_of_demand_site db id) -> Route.current_flow_mw r <> None) ->
        (float_gt (DemandSite.peak_demand_mw s) 0%float = false ->
         exists a,
           get_demand_site_analytics id db = Ok a
           /\ ds_demand_coverage_percent a = Int 0
           /\ current_utilization_percent a = Int 0)
        /\ (forall dem,
              DemandSite.current_demand_mw s = Some dem ->
              float_gt (DemandSite.peak_demand_mw s) 0%float = true ->
              exists a,
                get_demand_site_analytics id db = Ok a
                /\ ds_demand_coverage_percent a
                   = Float (float_round2 (total_supply_capacity_mw a
                                          / DemandSite.peak_demand_mw s * 100)%float)
                /\ current_utilization_percent a
                   = Float (float_round2 (dem / DemandSite.peak_demand_mw s * 100)%float)))
  /\ (forall x sign m e,
        Prim2SF x = S754_finite sign m e ->
        let h := hundredfold m e in
        let k := round_half_even h in
        float_round2 x = match k with
                         | Z.pos p => nearest_float sign p 100
                         | _ => if sign then (-0)%float else 0%float
                         end
        /\ Z.abs (2 * Qnum h - 2 * k * Z.pos (Qden h)) <= Z.pos (Qden h)
        /\ (Z.abs (2 * Qnum h - 2 * k * Z.pos (Qden h)) = Z.pos (Qden h) ->
            Z.even k = true))
  /\ float_round2 14.374999999999998%float = 14.37%float
  /\ float_round2 30.625000000000004%float = 30.63%float
  /\ float_round2 0.125%float = 0.12%float
  /\ float_round2 0.375%float = 0.38%float
  /\ float_round2 infinity = infinity
  /\ float_round2 nan = nan.
Proof.
  split; [|split; [|split; [|split; [|split; [|split; [|split]]]]]].
  - intros db id. split; [apply get_analytics_overview_no_division_error|]. split.
    + unfold get_heat_center_analytics.
      apply bind_no_division_error.
      { unfold query_heat_center, first_by_id. destruct (int64 id); discriminate. }
      intros [center|]; [|discriminate].
      apply bind_no_division_error; [apply py_sum_no_division_error|]. intros d.
      apply bind_no_division_error; [apply percent_of_no_division_error|]. intros p.
      apply bind_no_division_error; [apply as_float_no_division_error|]. intros x.
      apply bind_no_division_error; [apply route_entries_no_division_error|].
      discriminate.
    + unfold get_demand_site_analytics.
      apply bind_no_division_error.
      { unfold query_demand_site, first_by_id. destruct (int64 id); discriminate. }
      intros [site|]; [|discriminate].
      apply bind_no_division_error; [apply py_sum_no_division_error|]. intros c.
      apply bind_no_division_error; [apply py_sum_no_division_error|]. intros f.
      apply bind_no_division_error; [apply as_float_no_division_error|]. intros x.
      apply bind_no_division_error; [apply as_float_no_division_error|]. intros y.
      apply bind_no_division_error; [apply percent_of_no_division_error|]. intros p.
      apply bind_no_division_error; [apply percent_of_no_division_error|]. intros q.
      apply bind_no_division_error; [apply route_entries_no_division_error|].
      discriminate.
  - intros db Hreach. apply get_analytics_overview_answers.
    now apply route_count_bound, reachable_consistent.
  - intros db o Ho. destruct (overview_percentages _ _ Ho) as [Hu Hcov].
    split; [exact Hu|]. split; [exact Hcov|].
    apply get_analytics_overview_ok in Ho
      as (_ & _ & _ & _ & _ & _ & _ & Havg & _ & _ & _ & _ & Hr & _).
    rewrite Hr. exact Havg.
  - reflexivity.
  - intros db id c Hreach Hfind Hflows. apply reachable_consistent in Hreach.
    destruct (heat_center_analytics_stored db id c Hreach Hfind) as (_ & _ & Hans).
    specialize (Hans Hflows). rewrite percent_of_column in Hans.
    assert (Hzero : float_gt (HeatCenter.max_capacity_mw c) 0%float = false ->
                    exists a, get_heat_center_analytics id db = Ok a
                              /\ hc_capacity_utilization_percent a = Int 0).
    { intros Hcap. destruct Hans as (a & Ha & _ & _ & _ & _ & _ & Hu); [now right|].
      rewrite Hcap in Hu. injection Hu as Hu. eauto. }
    split; [|split; [exact Hzero|]].
    + intros Hcap. apply Hzero. rewrite Hcap. reflexivity.
    + intros out Hout Hpos.
      destruct Hans as (a & Ha & _ & _ & _ & _ & _ & Hu); [left; congruence|].
      rewrite Hpos, Hout in Hu. injection Hu as Hu. eauto.
  - intros db id s Hreach Hfind Hflows. apply reachable_consistent in Hreach.
    destruct (demand_site_analytics_stored db id s Hreach Hfind) as (_ & _ & Hans).
    specialize (Hans Hflows). rewrite percent_of_column in Hans. split.
    + intros Hpeak. destruct Hans as (a & Ha & _ & _ & _ & _ & _ & Hcov & Hu); [now right|].
      rewrite Hpeak in Hcov, Hu. injection Hu as Hu. eauto.
    + intros dem Hdem Hpos.
      destruct Hans as (a & Ha & _ & _ & _ & _ & _ & Hcov & Hu); [left; congruence|].
      rewrite Hpos in Hcov. rewrite Hpos, Hdem in Hu. injection Hu as Hu. eauto.
  - intros x sign m e Hx. now apply float_round2_finite.
  - repeat split; reflexivity.
Qed.

Lemma analytics_division_safe_witness :
  (exists a,
     get_heat_center_analytics 1 idle_center = Ok a
     /\ hc_capacity_utilization_percent a = Int 0)
  /\ (exists a,
        get_heat_center_analytics 1 rounded_up = Ok a
        /\ hc_capacity_utilization_percent a = Float 30.63%float)
  /\ (exists a,
        get_demand_site_analytics 1 one_route = Ok a
        /\ ds_demand_coverage_percent a = Float 117.65%float
        /\ current_utilization_percent a = Float 0%float)
  /\ (exists o,
        get_analytics_overview one_route = Ok o
        /\ capacity_utilization_percent o = Float 82%float
        /\ demand_coverage_percent o = Float 411.76%float
        /\ average_route_distance_km o = Float 0.8%float).
Proof.
  destruct analytics_division_safe as (_ & Hans & Hov & _ & Hhc & Hds & _).
  split; [|split; [|split]].
  - destruct (Hhc idle_center 1 _ ltac:(unfold idle_center; reach) eq_refl) as (Hidle & _).
    + intros r [<-|[]]. discriminate.
    + apply Hidle. reflexivity.
  - destruct (Hhc rounded_up 1 _ ltac:(unfold rounded_up; reach) eq_refl) as (_ & _ & Hpos).
    + intros r [].
    + destruct (Hpos 49%float eq_refl eq_refl) as (a & Ha & Hu). exists a.
      split; [exact Ha|]. rewrite Hu. reflexivity.
  - destruct (Hds one_route 1 _ ltac:(unfold one_route; reach) eq_refl) as (_ & Hpos).
    + intros r [<-|[]]. discriminate.
    + destruct (Hpos 0%float eq_refl eq_refl) as (a & Ha & Hcov & Hu). exists a.
      split; [exact Ha|]. rewrite Hcov, Hu.
      vm_compute in Ha. injection Ha as <-. split; reflexivity.
  - destruct (Hans one_route ltac:(unfold one_route; reach)) as (o & Ho).
    destruct (Hov one_route o Ho) as (Hu & Hcov & Havg). exists o.
    split; [exact Ho|]. rewrite Hu, Hcov.
    vm_compute in Ho. injection Ho as <-. repeat split.
Defined.

(** C6 as stated fails when the sums overflow: with two heat centers of
    capacity and output 1e308 both sums are infinite, the capacity
    utilization is not a number, not a percentage with two decimals, and
    the response cannot be rendered.  It also fails for a heat center of
    capacity 0 one of whose routes has no flow: its view raises
    [TypeError] and reports no utilization. *)
Lemma overflowing_utilization :
  reachable overflowing
  /\ (exists o,
        get_analytics_overview overflowing = Ok o
        /\ total_generation_capacity_mw o = infinity
        /\ current_generation_mw o = infinity
        /\ capacity_utilization_percent o = Float nan
        /\ JSONResponse o = Err ValueError)
  /\ reachable idle_unmetered
  /\ (exists c,
        get_heat_center 1 idle_unmetered = Ok c
        /\ HeatCenter.max_capacity_mw c = 0%float)
  /\ get_heat_center_analytics 1 idle_unmetered = Err TypeError.
Proof.
  split; [unfold overflowing; reach|]. split.
  - eexists. split; [vm_compute; reflexivity|]. repeat split.
  - split; [unfold idle_unmetered; reach|]. split; [|reflexivity].
    eexists. split; reflexivity.
Qed.

(** * Listing *)

Lemma Query_limit (x : Z) :
  Query 100 (Some 1) (Some 1000) (Some x)
  = if (1 <=? x) && (x <=? 1000) then Ok x else Err RequestValidationError.
Proof. reflexivity. Qed.

Lemma Query_skip (x : Z) :
  Query 0 (Some 0) None (Some x)
  = if 0 <=? x then Ok x else Err RequestValidationError.
Proof. unfold Query. now rewrite andb_true_r. Qed.

Lemma limit_rejected {A} (skip : option Z) (limit : Z) (k : Z -> Z -> Result A) :
  limit < 1 \/ 1000 < limit ->
  (skip <- Query 0 (Some 0) None skip ;;
   limit <- Query 100 (Some 1) (Some 1000) (Some limit) ;;
   k skip limit) = Err RequestValidationError.
Proof.
  intros H. rewrite Query_limit.
  replace ((1 <=? limit) && (limit <=? 1000)) with false
    by (symmetry; apply andb_false_iff; rewrite !Z.leb_gt; lia).
  destruct skip as [x|]; [rewrite Query_skip; destruct (0 <=? x)|]; reflexivity.
Qed.

Lemma page_length {A} (skip limit : Z) (query : list A) :
  0 <= limit -> Z.of_nat (List.length (page skip limit query)) <= limit.
Proof.
  intros H. unfold page.
  pose proof (firstn_le_length (Z.to_nat limit) (skipn (Z.to_nat skip) query)). lia.
Qed.

Lemma limit_accepted {A} (skip limit : Z) (k : Z -> Z -> Result A) :
  0 <= skip -> 1 <= limit <= 1000 ->
  (skip <- Query 0 (Some 0) None (Some skip) ;;
   limit <- Query 100 (Some 1) (Some 1000) (Some limit) ;;
   k skip limit) = k skip limit.
Proof.
  intros Hs Hl. rewrite Query_skip, Query_limit.
  replace (0 <=? skip) with true by (symmetry; apply Z.leb_le; lia).
  replace ((1 <=? limit) && (limit <=? 1000)) with true
    by (symmetry; apply andb_true_iff; rewrite !Z.leb_le; lia).
  reflexivity.
Qed.

Lemma all_rows_ok {A} (params : list Z) (rows l : list A) :
  all_rows params rows = Ok l -> l = rows.
Proof. unfold all_rows. destruct (forallb int64 params); congruence. Qed.

Lemma filter_param_bindable (id : option Z) :
  bindable id = true -> forallb int64 (filter_param id) = true.
Proof.
  destruct id as [x|]; simpl; [|reflexivity]. intros H.
  destruct (x =? 0); simpl; [reflexivity|]. now rewrite H.
Qed.

(** The parameters of a page that can be bound. *)
Lemma page_params_bound (ids : list Z) (skip limit : Z) :
  forallb int64 ids = true -> 0 <= skip < 2 ^ 63 -> 1 <= limit <= 1000 ->
  forallb int64 (ids ++ [limit; skip]) = true.
Proof.
  intros Hids Hs Hl. rewrite forallb_app, Hids. simpl.
  replace (int64 limit) with true by (symmetry; apply int64_spec; lia).
  replace (int64 skip) with true by (symmetry; apply int64_spec; lia).
  reflexivity.
Qed.

Lemma page_params_overflow (ids : list Z) (skip limit : Z) :
  2 ^ 63 <= skip -> forallb int64 (ids ++ [limit; skip]) = false.
Proof.
  intros Hs. rewrite forallb_app. simpl.
  replace (int64 skip) with false; [now rewrite !andb_false_r|].
  symmetry. destruct (int64 skip) eqn:E; [|reflexivity]. apply int64_spec in E. lia.
Qed.

(** C7, as the code has it.  Every list operation rejects a limit below 1
    or above 1000 as invalid, whatever the other parameters: a requested
    limit of 5000 is rejected, not clamped, and so is a limit of 0.  With
    [1 <= limit <= 1000], an offset that is a 64-bit integer, [0 <= skip <
    2^63], and filter ids that are, it answers with at most [limit]
    records; with an offset from [2^63] on, the query raises
    [OverflowError]. *)
Theorem list_limit_validated (db : Database) :
  (forall skip limit active_only connected_only site_type status hc ds,
     limit < 1 \/ 1000 < limit ->
     get_heat_centers skip (Some limit) active_only db = Err RequestValidationError
     /\ get_demand_sites skip (Some limit) connected_only site_type db
        = Err RequestValidationError
     /\ get_routes skip (Some limit) status hc ds db = Err RequestValidationError)
  /\ (forall skip active_only connected_only site_type status hc ds,
        get_heat_centers skip (Some 5000) active_only db = Err RequestValidationError
        /\ get_demand_sites skip (Some 5000) connected_only site_type db
           = Err RequestValidationError
        /\ get_routes skip (Some 5000) status hc ds db = Err RequestValidationError
        /\ get_heat_centers skip (Some 0) active_only db = Err RequestValidationError
        /\ get_demand_sites skip (Some 0) connected_only site_type db
           = Err RequestValidationError
        /\ get_routes skip (Some 0) status hc ds db = Err RequestValidationError)
  /\ (forall skip limit active_only connected_only site_type status hc ds,
        0 <= skip < 2 ^ 63 -> 1 <= limit <= 1000 ->
        bindable hc = true -> bindable ds = true ->
        (exists l, get_heat_centers (Some skip) (Some limit) active_only db = Ok l
                   /\ Z.of_nat (List.length l) <= limit)
        /\ (exists l, get_demand_sites (Some skip) (Some limit) connected_only site_type db
                      = Ok l
                      /\ Z.of_nat (List.length l) <= limit)
        /\ (exists l, get_routes (Some skip) (Some limit) status hc ds db = Ok l
                      /\ Z.of_nat (List.length l) <= limit))
  /\ (forall skip limit active_only connected_only site_type status hc ds,
        2 ^ 63 <= skip -> 1 <= limit <= 1000 ->
        get_heat_centers (Some skip) (Some limit) active_only db = Err OverflowError
        /\ get_demand_sites (Some skip) (Some limit) connected_only site_type db
           = Err OverflowError
        /\ get_routes (Some skip) (Some limit) status hc ds db = Err OverflowError).
Proof.
  assert (Hrej : forall skip limit active_only connected_only site_type status hc ds,
     limit < 1 \/ 1000 < limit ->
     get_heat_centers skip (Some limit) active_only db = Err RequestValidationError
     /\ get_demand_sites skip (Some limit) connected_only site_type db
        = Err RequestValidationError
     /\ get_routes skip (Some limit) status hc ds db = Err RequestValidationError).
  { intros skip limit active_only connected_only site_type status hc ds H.
    unfold get_heat_centers, get_demand_sites, get_routes.
    repeat split; now apply limit_rejected. }
  split; [exact Hrej|]. split; [|split].
  - intros skip active_only connected_only site_type status hc ds.
    destruct (Hrej skip 5000 active_only connected_only site_type status hc ds)
      as (H1 & H2 & H3); [lia|].
    destruct (Hrej skip 0 active_only connected_only site_type status hc ds)
      as (H4 & H5 & H6); [lia|].
    repeat split; assumption.
  - intros skip limit active_only connected_only site_type status hc ds Hs Hl Hhc Hds.
    unfold get_heat_centers, get_demand_sites, get_routes.
    rewrite !limit_accepted by lia. unfold all_rows.
    pose proof (page_params_bound [] skip limit eq_refl Hs Hl) as Hb.
    simpl app in Hb. rewrite Hb.
    rewrite app_assoc, page_params_bound; [| |assumption|assumption].
    + repeat split; eexists; (split; [reflexivity|apply page_length; lia]).
    + rewrite forallb_app. now rewrite !filter_param_bindable.
  - intros skip limit active_only connected_only site_type status hc ds Hs Hl.
    unfold get_heat_centers, get_demand_sites, get_routes.
    rewrite !limit_accepted by lia. unfold all_rows.
    pose proof (page_params_overflow [] skip limit Hs) as Hb.
    simpl app in Hb. rewrite Hb.
    rewrite app_assoc, page_params_overflow by assumption. repeat split.
Qed.

Lemma list_limit_validated_witness :
  get_heat_centers None (Some 5000) false seeded_centers = Err RequestValidationError
  /\ get_routes None (Some 0) None None None one_route = Err RequestValidationError
  /\ (exists l, get_heat_centers (Some 0) (Some 1000) false seeded_centers = Ok l
                 /\ Z.of_nat (List.length l) <= 1000)
  /\ get_heat_centers (Some (2 ^ 63)) (Some 1000) false seeded_centers = Err OverflowError.
Proof.
  destruct (list_limit_validated seeded_centers) as (Hrej & _ & Hacc & Hover).
  destruct (list_limit_validated one_route) as (Hrej' & _ & _).
  split; [|split; [|split]].
  - apply (Hrej None 5000 false false None None None None). right. lia.
  - apply (Hrej' None 0 false false None None None None). left. lia.
  - apply (Hacc 0 1000 false false None None None None); [lia|lia|reflexivity|reflexivity].
  - apply (Hover (2 ^ 63) 1000 false false None None None None); lia.
Defined.

(** C7 as stated fails: a limit of 5000 makes the request fail; it is not
    served as a request for 1000 records would be. *)
Lemma limit_5000_not_clamped :
  get_heat_centers None (Some 5000) false seeded_centers = Err RequestValidationError
  /\ get_heat_centers None (Some 1000) false seeded_centers
     = Ok (heat_centers seeded_centers)
  /\ get_heat_centers None (Some 5000) false seeded_centers
     <> get_heat_centers None (Some 1000) false seeded_centers.
Proof. repeat split. discriminate. Qed.

(** C9.  A [heat_center_id] or [demand_site_id] of 0 in the route listing,
    and an empty [site_type] in the demand site listing, give the answer
    the request gets without that parameter: with no other filter, the
    page of all routes and the page of all demand sites.  In a reachable
    database no route has an endpoint id of 0, so a filter by 0 would
    have selected nothing; in the database with one route and one demand
    site, whose site type is not empty, both listings return their
    record. *)
Theorem falsy_filter_ignored (db : Database) :
  (forall skip limit status ds,
     get_routes skip limit status (Some 0) ds db
     = get_routes skip limit status None ds db)
  /\ (forall skip limit status hc,
        get_routes skip limit status hc (Some 0) db
        = get_routes skip limit status hc None db)
  /\ (forall skip limit connected_only,
        get_demand_sites skip limit connected_only (Some "") db
        = get_demand_sites skip limit connected_only None db)
  /\ (reachable db ->
      filter (fun r => Route.heat_center_id r =? 0) (routes db) = []
      /\ filter (fun r => Route.demand_site_id r =? 0) (routes db) = [])
  /\ get_routes None None None (Some 0) (Some 0) one_route = Ok (routes one_route)
  /\ routes one_route <> []
  /\ (forall skip limit,
        0 <= skip < 2 ^ 63 -> 1 <= limit <= 1000 ->
        get_routes (Some skip) (Some limit) None (Some 0) (Some 0) db
        = Ok (page skip limit (routes db))
        /\ get_demand_sites (Some skip) (Some limit) false (Some "") db
           = Ok (page skip limit (demand_sites db)))
  /\ get_routes None None None (Some 0) (Some 0) db = Ok (page 0 100 (routes db))
  /\ get_demand_sites None None false (Some "") db = Ok (page 0 100 (demand_sites db))
  /\ get_demand_sites None None false (Some "") one_route = Ok (demand_sites one_route)
  /\ demand_sites one_route <> []
  /\ filter (fun s => option_eqb String.eqb (DemandSite.site_type s) (Some ""))
            (demand_sites one_route) = [].
Proof.
  split; [reflexivity|]. split; [reflexivity|]. split; [reflexivity|].
  split; [|split; [reflexivity|split; [discriminate|]]].
  - intros Hreach. apply reachable_consistent in Hreach.
    destruct (positive_ids _ Hreach) as [Hh Hd].
    pose proof (endpoints_exist _ Hreach) as He.
    split.
    + destruct (filter _ (routes db)) as [|r rest] eqn:E; [reflexivity|].
      assert (Hr : In r (filter (fun r => Route.heat_center_id r =? 0) (routes db)))
        by (rewrite E; now left).
      apply filter_In in Hr as [Hr H0]. apply Z.eqb_eq in H0.
      destruct (He r Hr) as [Hin _]. apply Hh in Hin. lia.
    + destruct (filter _ (routes db)) as [|r rest] eqn:E; [reflexivity|].
      assert (Hr : In r (filter (fun r => Route.demand_site_id r =? 0) (routes db)))
        by (rewrite E; now left).
      apply filter_In in Hr as [Hr H0]. apply Z.eqb_eq in H0.
      destruct (He r Hr) as [_ Hin]. apply Hd in Hin. lia.
  - split; [|repeat split; discriminate].
    intros skip limit Hs Hl. unfold get_routes, get_demand_sites.
    rewrite !limit_accepted by lia. unfold all_rows. simpl filter_param.
    pose proof (page_params_bound [] skip limit eq_refl Hs Hl) as Hb.
    simpl app in *. rewrite Hb. split; reflexivity.
Qed.

Lemma falsy_filter_ignored_witness :
  filter (fun r => Route.heat_center_id r =? 0) (routes one_route) = []
  /\ filter (fun r => Route.demand_site_id r =? 0) (routes one_route) = [].
Proof.
  apply (falsy_filter_ignored one_route). unfold one_route. reach.
Defined.

(** * Configuration *)

Lemma config_by_key_written db key config config' :
  config_by_key db key = Some config ->
  SystemConfig.id config' = SystemConfig.id config ->
  SystemConfig.config_key config' = key ->
  find (fun c => String.eqb (SystemConfig.config_key c) key)
       (write_config config' (system_config db)) = Some config'.
Proof.
  unfold config_by_key, write_config. intros Hfind Hid Hkey.
  induction (system_config db) as [|x l IH]; simpl in *; [discriminate|].
  destruct (String.eqb (SystemConfig.config_key x) key) eqn:Ex.
  - injection Hfind as ->. rewrite Hid, Z.eqb_refl, Hkey, String.eqb_refl. reflexivity.
  - destruct (SystemConfig.id x =? SystemConfig.id config').
    + now rewrite Hkey, String.eqb_refl.
    + rewrite Ex. auto.
Qed.

(** C8, as the code has it.  A configuration write to a key that exists
    overwrites the value and the type tag of that entry; it overwrites the
    description only when the supplied description is a non-empty string
    and keeps the prior one otherwise; id, key, [is_active] and
    [created_at] stay and the table keeps its size.  A write to a key that
    does not exist appends one entry with the supplied key, value, type and
    description and [is_active = true].  No other table changes. *)
Theorem set_config_upsert (db : Database)
    (key value type : string) (description : option string) (now : Z) :
  (forall config,
     config_by_key db key = Some config ->
     exists msg db' config',
       set_config key value type description now db = (Ok msg, db')
       /\ config_by_key db' key = Some config'
       /\ SystemConfig.config_value config' = value
       /\ SystemConfig.config_type config' = Some type
       /\ (truthy description = true -> SystemConfig.description config' = description)
       /\ (truthy description = false ->
           SystemConfig.description config' = SystemConfig.description config)
       /\ SystemConfig.id config' = SystemConfig.id config
       /\ SystemConfig.config_key config' = SystemConfig.config_key config
       /\ SystemConfig.is_active config' = SystemConfig.is_active config
       /\ SystemConfig.created_at config' = SystemConfig.created_at config
       /\ List.length (system_config db') = List.length (system_config db)
       /\ keeps_heat_centers db db' /\ keeps_demand_sites db db' /\ keeps_routes db db')
  /\ (config_by_key db key = None ->
      exists msg db' config',
        set_config key value type description now db = (Ok msg, db')
        /\ system_config db' = (system_config db ++ [config'])%list
        /\ SystemConfig.config_key config' = key
        /\ SystemConfig.config_value config' = value
        /\ SystemConfig.config_type config' = Some type
        /\ SystemConfig.description config' = description
        /\ SystemConfig.is_active config' = Some true
        /\ keeps_heat_centers db db' /\ keeps_demand_sites db db' /\ keeps_routes db db').
Proof.
  split.
  - intros config Hfind. unfold set_config. rewrite Hfind.
    do 3 eexists. split; [reflexivity|].
    split.
    { unfold config_by_key at 1, set_system_config. cbn [system_config].
      apply (config_by_key_written _ _ _ _ Hfind); [reflexivity|].
      simpl. now apply config_by_key_sound in Hfind. }
    simpl. repeat split.
    + now intros ->.
    + now intros ->.
    + unfold write_config. now rewrite length_map.
  - intros Hfind. unfold set_config. rewrite Hfind.
    do 3 eexists. repeat split.
Qed.

Lemma set_config_upsert_witness :
  (exists msg db' config',
     set_config "default_zoom" "14" "float" (Some "zoom") 9 configured = (Ok msg, db')
     /\ config_by_key db' "default_zoom" = Some config'
     /\ SystemConfig.config_value config' = "14"
     /\ SystemConfig.config_type config' = Some "float"
     /\ SystemConfig.description config' = Some "zoom")
  /\ (exists msg db' config',
        set_config "default_zoom" "14" "float" (Some "") 9 configured = (Ok msg, db')
        /\ config_by_key db' "default_zoom" = Some config'
        /\ SystemConfig.description config' = Some "initial zoom")
  /\ (exists msg db' config',
        set_config "max_zoom" "18" "integer" None 9 configured = (Ok msg, db')
        /\ system_config db' = (system_config configured ++ [config'])%list
        /\ SystemConfig.is_active config' = Some true).
Proof.
  split; [|split].
  - destruct (set_config_upsert configured "default_zoom" "14" "float" (Some "zoom") 9)
      as [H _].
    destruct (H _ eq_refl)
      as (msg & db' & c & Heq & Hfind & Hv & Ht & Hd & _).
    exists msg, db', c. repeat split; auto.
  - destruct (set_config_upsert configured "default_zoom" "14" "float" (Some "") 9)
      as [H _].
    destruct (H _ eq_refl)
      as (msg & db' & c & Heq & Hfind & _ & _ & _ & Hd & _).
    exists msg, db', c. repeat split; auto.
  - destruct (set_config_upsert configured "max_zoom" "18" "integer" None 9)
      as [_ H].
    destruct (H eq_refl) as (msg & db' & c & Heq & Happ & _ & _ & _ & _ & Ha & _).
    exists msg, db', c. repeat split; auto.
Defined.

(** C8 as stated fails on the description: a write without a description
    replaces the value and keeps the description the entry had. *)
Lemma set_config_keeps_description :
  exists config config',
    config_by_key configured "default_zoom" = Some config
    /\ SystemConfig.description config = Some "initial zoom"
    /\ config_by_key (snd (set_config "default_zoom" "14" "integer" None 9 configured))
         "default_zoom" = Some config'
    /\ SystemConfig.config_value config' = "14"
    /\ SystemConfig.description config' = Some "initial zoom"
    /\ SystemConfig.description config' <> None.
Proof. do 2 eexists. repeat split. discriminate. Qed.

Lemma dict_get_set_same {V} (d : list (string * V)) (k : string) (v : V) :
  dict_get (dict_set d k v) k = Some v.
Proof.
  induction d as [|[k' v'] d IH]; simpl.
  - now rewrite String.eqb_refl.
  - destruct (String.eqb k' k) eqn:E; simpl; rewrite E; auto.
Qed.

Lemma dict_get_set_other {V} (d : list (string * V)) (k k' : string) (v : V) :
  k <> k' -> dict_get (dict_set d k v) k' = dict_get d k'.
Proof.
  intros Hne. induction d as [|[k0 v0] d IH]; simpl.
  - destruct (String.eqb k k') eqn:E; [|reflexivity].
    apply String.eqb_eq in E. contradiction.
  - destruct (String.eqb k0 k) eqn:E; simpl.
    + apply String.eqb_eq in E. subst k0.
      destruct (String.eqb k k') eqn:E'; [|reflexivity].
      apply String.eqb_eq in E'. contradiction.
    + now rewrite IH.
Qed.

Section ConfigRead.

Variable Json : Type.
Variable py_int : string -> Result Z.
Variable py_float : string -> Result float.
Variable json_loads : string -> Result Json.

Local Abbreviation convert := (convert py_int py_float json_loads).
Local Abbreviation fill_config := (fill_config py_int py_float json_loads).
Local Abbreviation get_config := (get_config py_int py_float json_loads).

Lemma convert_verbatim (config : SystemConfig.t) :
  converted_type config = false ->
  convert config = Ok (VStr (SystemConfig.config_value config)).
Proof.
  unfold converted_type. intros H.
  apply orb_false_iff in H as [H Hj]. apply orb_false_iff in H as [H Hb].
  apply orb_false_iff in H as [Hi Hf].
  unfold convert. now rewrite Hi, Hf, Hb, Hj.
Qed.

Lemma fill_config_other (configs : list SystemConfig.t) d0 d (k : string) :
  ~ In k (map SystemConfig.config_key configs) ->
  fill_config configs d0 = Ok d -> dict_get d k = dict_get d0 k.
Proof.
  revert d0. induction configs as [|c configs IH]; intros d0 Hk H; simpl in *.
  - now injection H as <-.
  - apply bind_ok in H as (v & _ & H). rewrite (IH _ (fun Hin => Hk (or_intror Hin)) H).
    apply dict_get_set_other. intros Heq. apply Hk. now left.
Qed.

Lemma fill_config_entry (configs : list SystemConfig.t) d0 d (config : SystemConfig.t) v :
  NoDup (map SystemConfig.config_key configs) ->
  In config configs -> convert config = Ok v ->
  fill_config configs d0 = Ok d ->
  dict_get d (SystemConfig.config_key config) = Some v.
Proof.
  revert d0. induction configs as [|c configs IH]; intros d0 Hnd Hin Hv H;
    simpl in *; [contradiction|].
  inversion Hnd as [|? ? Hc Hnd']; subst.
  apply bind_ok in H as (v' & Hv' & H). destruct Hin as [->|Hin].
  - rewrite (fill_config_other _ _ _ _ Hc H).
    rewrite Hv in Hv'. injection Hv' as <-. apply dict_get_set_same.
  - now apply (IH _ Hnd' Hin Hv H).
Qed.

(** C10.  The conversion of an entry whose type tag is none of "integer",
    "float", "boolean", "json" is its stored value, as a string; so it is
    for the tag "structured".  When a read of a reachable database
    answers, each such active entry is in the answer under its key with
    that string; and a read of a database whose active entries are all of
    that kind does answer. *)
Theorem unconverted_value_verbatim (db : Database) :
  (forall config,
     converted_type config = false ->
     convert config = Ok (VStr (SystemConfig.config_value config)))
  /\ (forall config,
        type_is config "structured" = true ->
        convert config = Ok (VStr (SystemConfig.config_value config)))
  /\ (reachable db ->
      forall config config_dict,
        In config (system_config db) ->
        is_true (SystemConfig.is_active config) = true ->
        converted_type config = false ->
        get_config db = Ok config_dict ->
        dict_get config_dict (SystemConfig.config_key config)
        = Some (VStr (SystemConfig.config_value config)))
  /\ ((forall config, In config (system_config db) ->
         is_true (SystemConfig.is_active config) = true ->
         converted_type config = false) ->
      exists config_dict, get_config db = Ok config_dict).
Proof.
  split; [exact convert_verbatim|]. split; [|split].
  - intros config H. apply convert_verbatim. unfold converted_type, type_is in *.
    destruct (SystemConfig.config_type config) as [ty|]; [|discriminate].
    simpl in *. apply String.eqb_eq in H. subst ty. reflexivity.
  - intros Hreach config config_dict Hin Hact Hty Hget.
    apply reachable_consistent in Hreach. pose proof (config_keys _ Hreach) as Hk.
    unfold get_config in Hget.
    apply bind_ok in Hget as (d & Hfill & Hget).
    assert (Hd : dict_get d (SystemConfig.config_key config)
                 = Some (VStr (SystemConfig.config_value config))).
    { apply (fill_config_entry
               (filter (fun c => is_true (SystemConfig.is_active c)) (system_config db))
               [] d config).
      - now apply NoDup_map_filter.
      - apply filter_In. auto.
      - now apply convert_verbatim.
      - exact Hfill. }
    destruct d; [discriminate|]. now injection Hget as <-.
  - intros Hall. unfold get_config.
    assert (Hfill : forall configs d0,
              (forall c, In c configs -> converted_type c = false) ->
              exists d, fill_config configs d0 = Ok d).
    { induction configs as [|c configs IH]; intros d0 Hc; simpl; [eauto|].
      rewrite (convert_verbatim c) by (apply Hc; now left). simpl.
      apply IH. intros c' Hc'. apply Hc. now right. }
    destruct (Hfill (filter (fun c => is_true (SystemConfig.is_active c))
                            (system_config db)) []) as (d & Hd).
    { intros c Hc. apply filter_In in Hc as [Hc Ha]. auto. }
    rewrite Hd. simpl. destruct d; eauto.
Qed.

End ConfigRead.

Lemma unconverted_value_verbatim_witness :
  exists config config_dict,
    In config (system_config configured)
    /\ SystemConfig.config_type config = Some "structured"
    /\ get_config (Json := unit) (fun _ => Ok 12) (fun _ => Err ValueError)
        (fun _ => Err ValueError)
         configured = Ok config_dict
    /\ dict_get config_dict "layers" = Some (VStr "[1, 2]").
Proof.
  destruct (unconverted_value_verbatim unit
              (fun _ => Ok 12) (fun _ => Err ValueError) (fun _ => Err ValueError) configured)
    as (_ & _ & Hread & _).
  do 2 eexists. split; [right; left; reflexivity|]. split; [reflexivity|].
  split; [reflexivity|].
  apply (Hread ltac:(unfold configured; reach) _ _
           (or_intror (or_introl eq_refl)) eq_refl eq_refl eq_refl).
Defined.

(** * Lookups, insertions and deletions *)

Lemma find_app {A} (p : A -> bool) (l r : list A) :
  find p (l ++ r) = match find p l with Some a => Some a | None => find p r end.
Proof.
  induction l as [|x l IH]; simpl; [reflexivity|]. now destruct (p x).
Qed.

Section Lookup.

Context {A : Type} (key : A -> Z).

Lemma find_key_complete (l : list A) (a : A) :
  NoDup (map key l) -> In a l -> find (fun x => key x =? key a) l = Some a.
Proof.
  induction l as [|x l IH]; simpl; [tauto|]. intros Hnd Hin.
  inversion Hnd as [|? ? Hx Hl]; subst. destruct Hin as [->|Hin].
  - now rewrite Z.eqb_refl.
  - destruct (key x =? key a) eqn:E; [|auto].
    apply Z.eqb_eq in E. exfalso. apply Hx. rewrite E. now apply in_map.
Qed.

Lemma find_key_none (l : list A) (k : Z) :
  ~ In k (map key l) -> find (fun x => key x =? k) l = None.
Proof.
  intros H. destruct (find (fun x => key x =? k) l) as [a|] eqn:E; [|reflexivity].
  exfalso. apply H. apply (find_key_In key). eauto.
Qed.

Lemma find_key_deleted (l : list A) (k k0 : Z) :
  find (fun x => key x =? k) (filter (fun x => negb (key x =? k0)) l)
  = if k =? k0 then None else find (fun x => key x =? k) l.
Proof.
  induction l as [|x l IH]; simpl; [now destruct (k =? k0)|].
  destruct (key x =? k0) eqn:E0; simpl.
  - rewrite IH. destruct (k =? k0) eqn:E; [reflexivity|].
    destruct (key x =? k) eqn:Ex; [|reflexivity].
    apply Z.eqb_eq in E0, Ex. apply Z.eqb_neq in E. congruence.
  - destruct (key x =? k) eqn:Ex.
    + destruct (k =? k0) eqn:E; [|reflexivity].
      apply Z.eqb_eq in Ex, E. apply Z.eqb_neq in E0. congruence.
    + exact IH.
Qed.

End Lookup.

(** A fetch by id, by the cases of its query. *)
Lemma get_heat_center_cases (id : Z) (db : Database) :
  get_heat_center id db
  = if int64 id then
      match heat_center_by_id db id with
      | Some c => Ok c
      | None => Err (HTTPException 404 "Heat center not found")
      end
    else Err OverflowError.
Proof.
  unfold get_heat_center, query_heat_center, first_by_id. now destruct (int64 id).
Qed.

Lemma get_demand_site_cases (id : Z) (db : Database) :
  get_demand_site id db
  = if int64 id then
      match demand_site_by_id db id with
      | Some s => Ok s
      | None => Err (HTTPException 404 "Demand site not found")
      end
    else Err OverflowError.
Proof.
  unfold get_demand_site, query_demand_site, first_by_id. now destruct (int64 id).
Qed.

Lemma get_route_cases (id : Z) (db : Database) :
  get_route id db
  = if int64 id then
      match route_by_id db id with
      | Some r => Ok r
      | None => Err (HTTPException 404 "Route not found")
      end
    else Err OverflowError.
Proof.
  unfold get_route, query_route, first_by_id. now destruct (int64 id).
Qed.

Lemma get_heat_center_ok (id : Z) (db : Database) (c : HeatCenter.t) :
  get_heat_center id db = Ok c <-> heat_center_by_id db id = Some c.
Proof.
  rewrite get_heat_center_cases. split.
  - destruct (int64 id); [|discriminate].
    destruct (heat_center_by_id db id); [congruence|discriminate].
  - intros H. pose proof (query_heat_center_stored _ _ _ H) as Hq.
    apply first_by_id_ok in Hq as [-> _]. now rewrite H.
Qed.

Lemma get_demand_site_ok (id : Z) (db : Database) (s : DemandSite.t) :
  get_demand_site id db = Ok s <-> demand_site_by_id db id = Some s.
Proof.
  rewrite get_demand_site_cases. split.
  - destruct (int64 id); [|discriminate].
    destruct (demand_site_by_id db id); [congruence|discriminate].
  - intros H. pose proof (query_demand_site_stored _ _ _ H) as Hq.
    apply first_by_id_ok in Hq as [-> _]. now rewrite H.
Qed.

Lemma get_route_ok (id : Z) (db : Database) (r : Route.t) :
  get_route id db = Ok r <-> route_by_id db id = Some r.
Proof.
  rewrite get_route_cases. split.
  - destruct (int64 id); [|discriminate].
    destruct (route_by_id db id); [congruence|discriminate].
  - intros H. pose proof (query_route_stored _ _ _ H) as Hq.
    apply first_by_id_ok in Hq as [-> _]. now rewrite H.
Qed.

(** X1.  In a reachable database a fetch by id answers with a record
    exactly when that record is stored under that id: every stored heat
    center, demand site and route is what the fetch by its own id returns,
    and a fetch never returns anything else. *)
Theorem get_returns_stored (db : Database) :
  reachable db ->
  (forall center_id c,
     get_heat_center center_id db = Ok c
     <-> In c (heat_centers db) /\ HeatCenter.id c = center_id)
  /\ (forall site_id s,
        get_demand_site site_id db = Ok s
        <-> In s (demand_sites db) /\ DemandSite.id s = site_id)
  /\ (forall route_id r,
        get_route route_id db = Ok r
        <-> In r (routes db) /\ Route.id r = route_id).
Proof.
  intros Hreach. apply reachable_consistent in Hreach.
  split; [|split].
  - intros center_id c. rewrite get_heat_center_ok. unfold heat_center_by_id. split.
    + intros E. now apply (find_key_sound HeatCenter.id) in E.
    + intros [Hin <-].
      now rewrite (find_key_complete HeatCenter.id _ _ (heat_center_pk _ Hreach) Hin).
  - intros site_id s. rewrite get_demand_site_ok. unfold demand_site_by_id. split.
    + intros E. now apply (find_key_sound DemandSite.id) in E.
    + intros [Hin <-].
      now rewrite (find_key_complete DemandSite.id _ _ (demand_site_pk _ Hreach) Hin).
  - intros route_id r. rewrite get_route_ok. unfold route_by_id. split.
    + intros E. now apply (find_key_sound Route.id) in E.
    + intros [Hin <-].
      now rewrite (find_key_complete Route.id _ _ (route_pk _ Hreach) Hin).
Qed.

Lemma get_returns_stored_witness :
  (forall center_id c,
     get_heat_center center_id one_route = Ok c
     <-> In c (heat_centers one_route) /\ HeatCenter.id c = center_id)
  /\ (forall site_id s,
        get_demand_site site_id one_route = Ok s
        <-> In s (demand_sites one_route) /\ DemandSite.id s = site_id)
  /\ (forall route_id r,
        get_route route_id one_route = Ok r
        <-> In r (routes one_route) /\ Route.id r = route_id).
Proof. apply (get_returns_stored one_route). unfold one_route. reach. Defined.

Lemma sqlite_real_some (x : float) :
  is_nan x = false -> exists y, sqlite_real x = Some y.
Proof. unfold sqlite_real. intros ->. destruct (float_eqb x 0%float); eauto. Qed.

Lemma sqlite_real_nan (x : float) : is_nan x = true -> sqlite_real x = None.
Proof. unfold sqlite_real. now intros ->. Qed.

(** X2.  Creating a heat center or a demand site succeeds when the next
    row id is a 64-bit integer, the required coordinates and capacity (or
    peak demand) are numbers and, for a demand site, the priority and the
    building age are 64-bit integers.  The new record gets a positive id
    that resolved to nothing before, is what a fetch by that id returns
    afterwards, carries the creation time in [created_at] and no
    [updated_at], and has the defaults of the columns the request left
    out; every record that a fetch returned before is still returned, and
    the other tables are untouched.  A required float that is not a number
    is refused with [IntegrityError], a priority or building age beyond 64
    bits with [OverflowError]; both leave the database as it was. *)
Theorem create_then_get (db : Database) (now : Z) :
  (forall center,
     int64 (next_id (map HeatCenter.id (heat_centers db))) = true ->
     is_nan (HeatCenterCreate.location_lat center) = false ->
     is_nan (HeatCenterCreate.location_lng center) = false ->
     is_nan (HeatCenterCreate.max_capacity_mw center) = false ->
     exists c db',
       create_heat_center center now db = (Ok c, db')
       /\ 0 < HeatCenter.id c
       /\ get_heat_center (HeatCenter.id c) db
          = Err (HTTPException 404 "Heat center not found")
       /\ get_heat_center (HeatCenter.id c) db' = Ok c
       /\ (forall id c0, get_heat_center id db = Ok c0 -> get_heat_center id db' = Ok c0)
       /\ HeatCenter.created_at c = now /\ HeatCenter.updated_at c = None
       /\ HeatCenter.name c = HeatCenterCreate.name center
       /\ float_eqb (HeatCenterCreate.max_capacity_mw center) (HeatCenter.max_capacity_mw c)
          = true
       /\ (HeatCenterCreate.current_output_mw center = None ->
           HeatCenter.current_output_mw c = Some 0%float)
       /\ (HeatCenterCreate.efficiency_percent center = None ->
           HeatCenter.efficiency_percent c = Some 85%float)
       /\ HeatCenter.is_active c <> None
       /\ keeps_demand_sites db db' /\ keeps_routes db db'
       /\ keeps_system_config db db')
  /\ (forall center,
        int64 (next_id (map HeatCenter.id (heat_centers db))) = true ->
        is_nan (HeatCenterCreate.location_lat center)
        || is_nan (HeatCenterCreate.location_lng center)
        || is_nan (HeatCenterCreate.max_capacity_mw center) = true ->
        create_heat_center center now db = (Err IntegrityError, db))
  /\ (forall site,
        int64 (next_id (map DemandSite.id (demand_sites db))) = true ->
        bindable (DemandSiteCreate.priority_level site) = true ->
        bindable (DemandSiteCreate.building_age_years site) = true ->
        is_nan (DemandSiteCreate.location_lat site) = false ->
        is_nan (DemandSiteCreate.location_lng site) = false ->
        is_nan (DemandSiteCreate.peak_demand_mw site) = false ->
        exists s db',
          create_demand_site site now db = (Ok s, db')
          /\ 0 < DemandSite.id s
          /\ get_demand_site (DemandSite.id s) db
             = Err (HTTPException 404 "Demand site not found")
          /\ get_demand_site (DemandSite.id s) db' = Ok s
          /\ (forall id s0, get_demand_site id db = Ok s0 -> get_demand_site id db' = Ok s0)
          /\ DemandSite.created_at s = now /\ DemandSite.updated_at s = None
          /\ DemandSite.name s = DemandSiteCreate.name site
          /\ float_eqb (DemandSiteCreate.peak_demand_mw site) (DemandSite.peak_demand_mw s)
             = true
          /\ (DemandSiteCreate.current_demand_mw site = None ->
              DemandSite.current_demand_mw s = Some 0%float)
          /\ DemandSite.is_connected s <> None
          /\ DemandSite.priority_level s <> None
          /\ keeps_heat_centers db db' /\ keeps_routes db db'
          /\ keeps_system_config db db')
  /\ (forall site,
        bindable (DemandSiteCreate.priority_level site)
        && bindable (DemandSiteCreate.building_age_years site) = false ->
        create_demand_site site now db = (Err OverflowError, db)).
Proof.
  split; [|split; [|split]].
  - intros center Hfit Hlat Hlng Hcap. unfold create_heat_center.
    destruct (fits_some _ Hfit) as (Hid & ->).
    destruct (sqlite_real_some _ Hlat) as (lat & Elat).
    destruct (sqlite_real_some _ Hlng) as (lng & Elng).
    destruct (sqlite_real_some _ Hcap) as (cap & Ecap).
    rewrite Elat, Elng, Ecap. do 2 eexists. split; [reflexivity|].
    assert (Hfresh : heat_center_by_id db (next_id (map HeatCenter.id (heat_centers db)))
                     = None)
      by (apply (find_key_none HeatCenter.id), next_id_fresh).
    split; [apply next_id_positive|].
    split; [rewrite get_heat_center_cases; cbn [HeatCenter.id]; now rewrite Hfit, Hfresh|].
    split.
    { apply get_heat_center_ok. unfold heat_center_by_id in *. unfold set_heat_centers.
      cbn [heat_centers HeatCenter.id]. rewrite find_app, Hfresh. simpl.
      now rewrite Z.eqb_refl. }
    split.
    { intros id c0 H. apply get_heat_center_ok in H. apply get_heat_center_ok.
      unfold heat_center_by_id in *. unfold set_heat_centers.
      cbn [heat_centers]. rewrite find_app. now rewrite H. }
    cbn [HeatCenter.created_at HeatCenter.updated_at HeatCenter.current_output_mw
         HeatCenter.efficiency_percent HeatCenter.is_active HeatCenter.name
         HeatCenter.max_capacity_mw].
    unfold column_default.
    repeat split; try (now intros ->);
      try (now apply sqlite_real_eqb);
      try (destruct (HeatCenterCreate.is_active center); discriminate).
  - intros center Hfit Hnan. unfold create_heat_center.
    destruct (fits_some _ Hfit) as (Hid & ->).
    apply orb_true_iff in Hnan as [Hnan|Hnan];
      [apply orb_true_iff in Hnan as [Hnan|Hnan]|];
      rewrite (sqlite_real_nan _ Hnan);
      repeat (destruct (sqlite_real _)); reflexivity.
  - intros site Hfit Hprio Hage Hlat Hlng Hpeak. unfold create_demand_site.
    rewrite Hprio, Hage. cbn [andb].
    destruct (fits_some _ Hfit) as (Hid & ->).
    destruct (sqlite_real_some _ Hlat) as (lat & Elat).
    destruct (sqlite_real_some _ Hlng) as (lng & Elng).
    destruct (sqlite_real_some _ Hpeak) as (peak & Epeak).
    rewrite Elat, Elng, Epeak. do 2 eexists. split; [reflexivity|].
    assert (Hfresh : demand_site_by_id db (next_id (map DemandSite.id (demand_sites db)))
                     = None)
      by (apply (find_key_none DemandSite.id), next_id_fresh).
    split; [apply next_id_positive|].
    split; [rewrite get_demand_site_cases; cbn [DemandSite.id]; now rewrite Hfit, Hfresh|].
    split.
    { apply get_demand_site_ok. unfold demand_site_by_id in *. unfold set_demand_sites.
      cbn [demand_sites DemandSite.id]. rewrite find_app, Hfresh. simpl.
      now rewrite Z.eqb_refl. }
    split.
    { intros id s0 H. apply get_demand_site_ok in H. apply get_demand_site_ok.
      unfold demand_site_by_id in *. unfold set_demand_sites.
      cbn [demand_sites]. rewrite find_app. now rewrite H. }
    cbn [DemandSite.created_at DemandSite.updated_at DemandSite.current_demand_mw
         DemandSite.is_connected DemandSite.priority_level DemandSite.name
         DemandSite.peak_demand_mw].
    unfold column_default.
    repeat split; try (now intros ->);
      try (now apply sqlite_real_eqb);
      try (destruct (DemandSiteCreate.is_connected site); discriminate);
      try (destruct (DemandSiteCreate.priority_level site); discriminate).
  - intros site H. unfold create_demand_site. now rewrite H.
Qed.

Lemma create_then_get_witness :
  (exists c db',
     create_heat_center (sample_center "Standby boiler" 160%float 23%float) 1 empty_db
     = (Ok c, db')
     /\ get_heat_center (HeatCenter.id c) db' = Ok c
     /\ HeatCenter.efficiency_percent c = Some 85%float)
  /\ create_heat_center unplaced_center 1 empty_db = (Err IntegrityError, empty_db)
  /\ create_demand_site huge_priority_site 2 center_only = (Err OverflowError, center_only).
Proof.
  split; [|split].
  - destruct (create_then_get empty_db 1) as (H & _).
    destruct (H (sample_center "Standby boiler" 160%float 23%float))
      as (c & db' & Hc & _ & _ & Hget & _); try reflexivity.
    exists c, db'. split; [exact Hc|]. split; [exact Hget|].
    injection Hc as <- _. reflexivity.
  - destruct (create_then_get empty_db 1) as (_ & H & _). apply H; reflexivity.
  - destruct (create_then_get center_only 2) as (_ & _ & _ & H). apply H. reflexivity.
Defined.

Lemma stored_id_fits_heat_center (db : Database) (id : Z) :
  In id (map HeatCenter.id (heat_centers db)) -> int64 id = true.
Proof. intros H. apply in_map_iff in H as (c & <- & _). apply HeatCenter.id_fits. Qed.

Lemma stored_id_fits_demand_site (db : Database) (id : Z) :
  In id (map DemandSite.id (demand_sites db)) -> int64 id = true.
Proof. intros H. apply in_map_iff in H as (s & <- & _). apply DemandSite.id_fits. Qed.

Lemma stored_id_fits_route (db : Database) (id : Z) :
  In id (map Route.id (routes db)) -> int64 id = true.
Proof. intros H. apply in_map_iff in H as (r & <- & _). apply Route.id_fits. Qed.

(** X3.  A route creation whose two endpoints resolve and whose pair no
    route connects is refused with [OverflowError] when its pipe diameter
    or its installation year is beyond 64 bits.  When they are 64-bit
    integers, the next row id is one, and the distance and maximum flow
    are numbers, it succeeds: the new route connects the requested pair,
    has the defaults of the flow and the status the request left out, is
    what a fetch by its id returns, and the heat centers and demand sites
    are untouched.  The same request sent again is refused with 400 and
    changes nothing. *)
Theorem create_route_then_repeat (db : Database) (route : RouteCreate.t) (now now' : Z) :
  In (RouteCreate.heat_center_id route) (map HeatCenter.id (heat_centers db)) ->
  In (RouteCreate.demand_site_id route) (map DemandSite.id (demand_sites db)) ->
  ~ In (RouteCreate.heat_center_id route, RouteCreate.demand_site_id route)
       (map endpoints (routes db)) ->
  (bindable (RouteCreate.pipe_diameter_mm route)
   && bindable (RouteCreate.installation_year route) = false ->
   create_route route now db = (Err OverflowError, db))
  /\ (bindable (RouteCreate.pipe_diameter_mm route) = true ->
      bindable (RouteCreate.installation_year route) = true ->
      int64 (next_id (map Route.id (routes db))) = true ->
      is_nan (RouteCreate.distance_km route) = false ->
      is_nan (RouteCreate.max_flow_capacity_mw route) = false ->
      exists r db',
        create_route route now db = (Ok r, db')
        /\ endpoints r = (RouteCreate.heat_center_id route, RouteCreate.demand_site_id route)
        /\ (RouteCreate.current_flow_mw route = None ->
            Route.current_flow_mw r = Some 0%float)
        /\ (RouteCreate.status route = None -> Route.status r = Some ACTIVE)
        /\ Route.status r <> None
        /\ Route.created_at r = now
        /\ get_route (Route.id r) db' = Ok r
        /\ routes db' = (routes db ++ [r])%list
        /\ keeps_heat_centers db db' /\ keeps_demand_sites db db'
        /\ keeps_system_config db db'
        /\ create_route route now' db'
           = (Err (HTTPException 400 "Route already exists between these locations"), db')).
Proof.
  intros Hh Hd Hfree.
  pose proof (stored_id_fits_heat_center _ _ Hh) as Hhfit.
  pose proof (stored_id_fits_demand_site _ _ Hd) as Hdfit.
  apply (find_key_In HeatCenter.id) in Hh as (c & Hc).
  apply (find_key_In DemandSite.id) in Hd as (s & Hs).
  assert (Hqc : query_heat_center db (RouteCreate.heat_center_id route) = Ok (Some c))
    by now apply query_heat_center_stored.
  assert (Hqs : query_demand_site db (RouteCreate.demand_site_id route) = Ok (Some s))
    by now apply query_demand_site_stored.
  assert (Hnone : route_between db (RouteCreate.heat_center_id route)
                    (RouteCreate.demand_site_id route) = None).
  { destruct (route_between db _ _) as [r|] eqn:E; [|reflexivity].
    exfalso. apply Hfree. apply find_some in E as [Hin Hp].
    apply andb_true_iff in Hp as [H1 H2]. apply Z.eqb_eq in H1, H2.
    apply in_map_iff. exists r. unfold endpoints. split; [congruence|assumption]. }
  split.
  - intros Hover. unfold create_route. now rewrite Hqc, Hqs, Hnone, Hover.
  - intros Hpd Hiy Hfit Hdist Hcap. unfold create_route at 1.
    rewrite Hqc, Hqs, Hnone, Hpd, Hiy. cbn [andb].
    destruct (fits_some _ Hfit) as (Hid & ->).
    destruct (sqlite_real_some _ Hdist) as (dist & ->).
    destruct (sqlite_real_some _ Hcap) as (cap & ->).
    do 2 eexists. split; [reflexivity|].
    split; [reflexivity|].
    split; [cbn [Route.current_flow_mw]; now intros ->|].
    split; [cbn [Route.status]; now intros ->|].
    split; [cbn [Route.status]; unfold column_default;
            destruct (RouteCreate.status route); discriminate|].
    split; [reflexivity|].
    split.
    { apply get_route_ok. unfold route_by_id, set_routes. cbn [routes Route.id].
      rewrite find_app, (find_key_none Route.id) by apply next_id_fresh.
      simpl. now rewrite Z.eqb_refl. }
    split; [reflexivity|]. split; [reflexivity|]. split; [reflexivity|].
    split; [reflexivity|].
    unfold create_route, query_heat_center, query_demand_site, first_by_id.
    rewrite Hhfit, Hdfit.
    unfold heat_center_by_id, demand_site_by_id, set_routes in *.
    cbn [heat_centers demand_sites]. rewrite Hc, Hs.
    unfold route_between in *. cbn [routes]. rewrite find_app, Hnone. simpl.
    now rewrite !Z.eqb_refl.
Qed.

Lemma create_route_then_repeat_witness :
  (exists r db',
     create_route (sample_route 1 1) 3 no_route = (Ok r, db')
     /\ endpoints r = (1, 1)
     /\ get_route (Route.id r) db' = Ok r
     /\ create_route (sample_route 1 1) 4 db'
        = (Err (HTTPException 400 "Route already exists between these locations"), db'))
  /\ create_route wide_route 3 no_route = (Err OverflowError, no_route).
Proof.
  split.
  - destruct (create_route_then_repeat no_route (sample_route 1 1) 3 4) as (_ & H).
    + left. reflexivity.
    + left. reflexivity.
    + intros [].
    + destruct H as (r & db' & H1 & H2 & _ & _ & _ & _ & H3 & _ & _ & _ & _ & H4);
        try reflexivity.
      exists r, db'. auto.
  - destruct (create_route_then_repeat no_route wide_route 3 4) as (H & _).
    + left. reflexivity.
    + left. reflexivity.
    + intros [].
    + apply H. reflexivity.
Defined.

Lemma query_missing {A} (key : A -> Z) (rows : list A) (id : Z) :
  ~ In id (map key rows) ->
  first_by_id (fun i => find (fun a => key a =? i) rows) id
  = if int64 id then Ok None else Err OverflowError.
Proof.
  intros H. unfold first_by_id. now rewrite (find_key_none key _ _ H).
Qed.

(** X4.  An id that no stored record carries is answered by every
    operation that takes it (fetch, update, delete and the drill-down for
    heat centers and demand sites; fetch and delete for routes) with 404
    when it is a 64-bit integer and with [OverflowError] when it is not;
    the writing ones leave the database as it was. *)
Theorem unknown_id_not_found (db : Database) (id now : Z) :
  (~ In id (map HeatCenter.id (heat_centers db)) ->
   int64 id = true ->
     get_heat_center id db = Err (HTTPException 404 "Heat center not found")
     /\ get_heat_center_analytics id db = Err (HTTPException 404 "Heat center not found")
     /\ delete_heat_center id db = (Err (HTTPException 404 "Heat center not found"), db)
     /\ forall u, update_heat_center id u now db
                  = (Err (HTTPException 404 "Heat center not found"), db))
  /\ (~ In id (map DemandSite.id (demand_sites db)) ->
      int64 id = true ->
      get_demand_site id db = Err (HTTPException 404 "Demand site not found")
      /\ get_demand_site_analytics id db = Err (HTTPException 404 "Demand site not found")
      /\ delete_demand_site id db = (Err (HTTPException 404 "Demand site not found"), db)
      /\ forall u, update_demand_site id u now db
                   = (Err (HTTPException 404 "Demand site not found"), db))
  /\ (~ In id (map Route.id (routes db)) ->
      int64 id = true ->
      get_route id db = Err (HTTPException 404 "Route not found")
      /\ delete_route id db = (Err (HTTPException 404 "Route not found"), db))
  /\ (int64 id = false ->
      get_heat_center id db = Err OverflowError
      /\ get_heat_center_analytics id db = Err OverflowError
      /\ delete_heat_center id db = (Err OverflowError, db)
      /\ (forall u, update_heat_center id u now db = (Err OverflowError, db))
      /\ get_demand_site id db = Err OverflowError
      /\ get_demand_site_analytics id db = Err OverflowError
      /\ delete_demand_site id db = (Err OverflowError, db)
      /\ (forall u, update_demand_site id u now db = (Err OverflowError, db))
      /\ get_route id db = Err OverflowError
      /\ delete_route id db = (Err OverflowError, db)).
Proof.
  split; [|split; [|split]].
  - intros H Hfit. apply (query_missing HeatCenter.id) in H. rewrite Hfit in H.
    unfold get_heat_center, get_heat_center_analytics, delete_heat_center,
      update_heat_center, query_heat_center, heat_center_by_id. rewrite H. auto.
  - intros H Hfit. apply (query_missing DemandSite.id) in H. rewrite Hfit in H.
    unfold get_demand_site, get_demand_site_analytics, delete_demand_site,
      update_demand_site, query_demand_site, demand_site_by_id. rewrite H. auto.
  - intros H Hfit. apply (query_missing Route.id) in H. rewrite Hfit in H.
    unfold get_route, delete_route, query_route, route_by_id. rewrite H. auto.
  - intros Hfit.
    unfold get_heat_center, get_heat_center_analytics, delete_heat_center,
      update_heat_center, query_heat_center, get_demand_site, get_demand_site_analytics,
      delete_demand_site, update_demand_site, query_demand_site, get_route, delete_route,
      query_route, first_by_id.
    rewrite Hfit. repeat split.
Qed.

Lemma unknown_id_not_found_witness :
  get_heat_center 2 one_route = Err (HTTPException 404 "Heat center not found")
  /\ delete_demand_site 2 one_route
     = (Err (HTTPException 404 "Demand site not found"), one_route)
  /\ get_route 2 one_route = Err (HTTPException 404 "Route not found")
  /\ get_route (2 ^ 63) one_route = Err OverflowError
  /\ delete_heat_center (- 2 ^ 63 - 1) one_route = (Err OverflowError, one_route).
Proof.
  destruct (unknown_id_not_found one_route 2 9) as (Hh & Hd & Hr & _).
  split; [|split; [|split; [|split]]].
  - apply Hh; [|reflexivity]. simpl. intros [H|[]]. discriminate.
  - apply Hd; [|reflexivity]. simpl. intros [H|[]]. discriminate.
  - apply Hr; [|reflexivity]. simpl. intros [H|[]]. discriminate.
  - destruct (unknown_id_not_found one_route (2 ^ 63) 9) as (_ & _ & _ & H).
    apply H. reflexivity.
  - destruct (unknown_id_not_found one_route (- 2 ^ 63 - 1) 9) as (_ & _ & _ & H).
    apply H. reflexivity.
Defined.

(** X5.  Once a delete of a heat center, a demand site or a route has
    succeeded, a fetch by that id and a second delete are answered with
    404, and a fetch by any other id answers as before. *)
Theorem delete_then_gone (db : Database) (id : Z) :
  (forall msg db',
     delete_heat_center id db = (Ok msg, db') ->
     get_heat_center id db' = Err (HTTPException 404 "Heat center not found")
     /\ delete_heat_center id db'
        = (Err (HTTPException 404 "Heat center not found"), db')
     /\ forall other, other <> id -> get_heat_center other db' = get_heat_center other db)
  /\ (forall msg db',
        delete_demand_site id db = (Ok msg, db') ->
        get_demand_site id db' = Err (HTTPException 404 "Demand site not found")
        /\ delete_demand_site id db'
           = (Err (HTTPException 404 "Demand site not found"), db')
        /\ forall other, other <> id -> get_demand_site other db' = get_demand_site other db)
  /\ (forall msg db',
        delete_route id db = (Ok msg, db') ->
        get_route id db' = Err (HTTPException 404 "Route not found")
        /\ delete_route id db' = (Err (HTTPException 404 "Route not found"), db')
        /\ forall other, other <> id -> get_route other db' = get_route other db).
Proof.
  split; [|split]; intros msg db'.
  - unfold delete_heat_center at 1.
    destruct (query_heat_center db id) as [[c|]|e] eqn:E; try discriminate.
    destruct (0 <? _)%nat; [discriminate|]. intros H. injection H as _ <-.
    apply first_by_id_ok in E as [Hfit E]. symmetry in E.
    apply (find_key_sound HeatCenter.id) in E as [_ ->].
    unfold delete_heat_center, query_heat_center. rewrite !get_heat_center_cases.
    unfold first_by_id. rewrite Hfit.
    unfold heat_center_by_id, set_heat_centers.
    cbn [heat_centers]. rewrite (find_key_deleted HeatCenter.id), Z.eqb_refl.
    repeat split. intros other Hne. rewrite !get_heat_center_cases.
    unfold heat_center_by_id. cbn [heat_centers].
    rewrite (find_key_deleted HeatCenter.id).
    apply Z.eqb_neq in Hne. now rewrite Hne.
  - unfold delete_demand_site at 1.
    destruct (query_demand_site db id) as [[s|]|e] eqn:E; try discriminate.
    destruct (0 <? _)%nat; [discriminate|]. intros H. injection H as _ <-.
    apply first_by_id_ok in E as [Hfit E]. symmetry in E.
    apply (find_key_sound DemandSite.id) in E as [_ ->].
    unfold delete_demand_site, query_demand_site. rewrite !get_demand_site_cases.
    unfold first_by_id. rewrite Hfit.
    unfold demand_site_by_id, set_demand_sites.
    cbn [demand_sites]. rewrite (find_key_deleted DemandSite.id), Z.eqb_refl.
    repeat split. intros other Hne. rewrite !get_demand_site_cases.
    unfold demand_site_by_id. cbn [demand_sites].
    rewrite (find_key_deleted DemandSite.id).
    apply Z.eqb_neq in Hne. now rewrite Hne.
  - unfold delete_route at 1.
    destruct (query_route db id) as [[r|]|e] eqn:E; try discriminate.
    intros H. injection H as _ <-.
    apply first_by_id_ok in E as [Hfit E]. symmetry in E.
    apply (find_key_sound Route.id) in E as [_ ->].
    unfold delete_route, query_route. rewrite !get_route_cases.
    unfold first_by_id. rewrite Hfit.
    unfold route_by_id, set_routes.
    cbn [routes]. rewrite (find_key_deleted Route.id), Z.eqb_refl.
    repeat split. intros other Hne. rewrite !get_route_cases.
    unfold route_by_id. cbn [routes].
    rewrite (find_key_deleted Route.id).
    apply Z.eqb_neq in Hne. now rewrite Hne.
Qed.

Lemma delete_then_gone_witness :
  get_route 1 (snd (delete_route 1 one_route)) = Err (HTTPException 404 "Route not found")
  /\ get_heat_center 1 (snd (delete_heat_center 1 no_route))
     = Err (HTTPException 404 "Heat center not found").
Proof.
  split.
  - destruct (delete_then_gone one_route 1) as (_ & _ & H).
    now apply (H "Route deleted successfully" (snd (delete_route 1 one_route)) eq_refl).
  - destruct (delete_then_gone no_route 1) as (H & _).
    now apply (H "Heat center deleted successfully"
                 (snd (delete_heat_center 1 no_route)) eq_refl).
Defined.

(** X6.  Deleting a route unblocks its endpoints: when the route with a
    given id is the only one that references a stored heat center (or a
    stored demand site), the delete of that heat center (demand site)
    succeeds right after the delete of the route, and the record is gone. *)
Theorem delete_route_unblocks (db : Database) (route_id : Z) :
  (forall h,
     In h (map HeatCenter.id (heat_centers db)) ->
     (forall r, In r (routes db) -> Route.heat_center_id r = h -> Route.id r = route_id) ->
     exists msg db',
       delete_heat_center h (snd (delete_route route_id db)) = (Ok msg, db')
       /\ get_heat_center h db' = Err (HTTPException 404 "Heat center not found"))
  /\ (forall d,
        In d (map DemandSite.id (demand_sites db)) ->
        (forall r, In r (routes db) -> Route.demand_site_id r = d -> Route.id r = route_id) ->
        exists msg db',
          delete_demand_site d (snd (delete_route route_id db)) = (Ok msg, db')
          /\ get_demand_site d db' = Err (HTTPException 404 "Demand site not found")).
Proof.
  assert (Hroutes : forall r, In r (routes (snd (delete_route route_id db))) ->
                      In r (routes db) /\ Route.id r <> route_id).
  { intros r. unfold delete_route.
    destruct (query_route db route_id) as [[r0|]|e] eqn:E.
    - apply first_by_id_ok in E as [_ E]. symmetry in E.
      apply (find_key_sound Route.id) in E as [_ E]. cbn [snd set_routes routes].
      rewrite filter_In, negb_true_iff, Z.eqb_neq, E. tauto.
    - cbn [snd]. intros Hin. split; [assumption|].
      apply first_by_id_ok in E as [_ E]. symmetry in E.
      pose proof (find_none _ _ E r Hin) as Hf. simpl in Hf. now apply Z.eqb_neq.
    - cbn [snd]. intros Hin. split; [assumption|].
      apply first_by_id_err in E as [_ E]. intros <-.
      now rewrite (Route.id_fits r) in E. }
  assert (Hh : heat_centers (snd (delete_route route_id db)) = heat_centers db)
    by (unfold delete_route; now destruct (query_route db route_id) as [[?|]|?]).
  assert (Hd : demand_sites (snd (delete_route route_id db)) = demand_sites db)
    by (unfold delete_route; now destruct (query_route db route_id) as [[?|]|?]).
  split.
  - intros h Hin Honly. pose proof (stored_id_fits_heat_center _ _ Hin) as Hfit.
    apply (find_key_In HeatCenter.id) in Hin as (c & Hc).
    do 2 eexists. split.
    { unfold delete_heat_center, query_heat_center, first_by_id, heat_center_by_id.
      rewrite Hfit, Hh, Hc.
      destruct (0 <? _)%nat eqn:E; [|reflexivity].
      apply (@referencing_routes_count Route.heat_center_id) in E as (r & Hr & Hk).
      apply Hroutes in Hr as [Hr Hne]. now destruct (Hne (Honly r Hr Hk)). }
    rewrite get_heat_center_cases, Hfit.
    unfold heat_center_by_id, set_heat_centers. cbn [heat_centers].
    rewrite ?Hh, (find_key_deleted HeatCenter.id).
    apply (find_key_sound HeatCenter.id) in Hc as [_ ->]. now rewrite Z.eqb_refl.
  - intros d Hin Honly. pose proof (stored_id_fits_demand_site _ _ Hin) as Hfit.
    apply (find_key_In DemandSite.id) in Hin as (c & Hc).
    do 2 eexists. split.
    { unfold delete_demand_site, query_demand_site, first_by_id, demand_site_by_id.
      rewrite Hfit, Hd, Hc.
      destruct (0 <? _)%nat eqn:E; [|reflexivity].
      apply (@referencing_routes_count Route.demand_site_id) in E as (r & Hr & Hk).
      apply Hroutes in Hr as [Hr Hne]. now destruct (Hne (Honly r Hr Hk)). }
    rewrite get_demand_site_cases, Hfit.
    unfold demand_site_by_id, set_demand_sites. cbn [demand_sites].
    rewrite ?Hd, (find_key_deleted DemandSite.id).
    apply (find_key_sound DemandSite.id) in Hc as [_ ->]. now rewrite Z.eqb_refl.
Qed.

Lemma delete_route_unblocks_witness :
  (exists msg db',
     delete_heat_center 1 (snd (delete_route 1 one_route)) = (Ok msg, db')
     /\ get_heat_center 1 db' = Err (HTTPException 404 "Heat center not found"))
  /\ (exists msg db',
        delete_demand_site 1 (snd (delete_route 1 one_route)) = (Ok msg, db')
        /\ get_demand_site 1 db' = Err (HTTPException 404 "Demand site not found")).
Proof.
  destruct (delete_route_unblocks one_route 1) as [Hh Hd].
  split.
  - apply Hh; [left; reflexivity|]. intros r [<-|[]] _. reflexivity.
  - apply Hd; [left; reflexivity|]. intros r [<-|[]] _. reflexivity.
Defined.

(** X7.  In a reachable database both endpoints of every stored route
    resolve: the fetch of its heat center and the fetch of its demand site
    answer with a record. *)
Theorem route_endpoints_resolve (db : Database) :
  reachable db ->
  forall r, In r (routes db) ->
    exists c s,
      get_heat_center (Route.heat_center_id r) db = Ok c
      /\ get_demand_site (Route.demand_site_id r) db = Ok s.
Proof.
  intros Hreach r Hr. apply reachable_consistent in Hreach.
  destruct (endpoints_exist _ Hreach r Hr) as [Hh Hd].
  apply (find_key_In HeatCenter.id) in Hh as (c & Hc).
  apply (find_key_In DemandSite.id) in Hd as (s & Hs).
  exists c, s. split; [now apply get_heat_center_ok|now apply get_demand_site_ok].
Qed.

Lemma route_endpoints_resolve_witness :
  exists r c s,
    get_route 1 one_route = Ok r
    /\ get_heat_center (Route.heat_center_id r) one_route = Ok c
    /\ get_demand_site (Route.demand_site_id r) one_route = Ok s.
Proof.
  eexists.
  destruct (route_endpoints_resolve one_route ltac:(unfold one_route; reach) _
              (or_introl eq_refl)) as (c & s & Hc & Hs).
  exists c, s. split; [reflexivity|]. split; [exact Hc|exact Hs].
Defined.

(** * What requests keep *)

Lemma serve_keeps_heat_center now req db id c c' :
  heat_center_by_id db id = Some c ->
  heat_center_by_id (serve now req db) id = Some c' ->
  HeatCenter.id c' = HeatCenter.id c
  /\ HeatCenter.created_at c' = HeatCenter.created_at c.
Proof.
  intros Hc. unfold heat_center_by_id in *.
  assert (Hsame : find (fun x => HeatCenter.id x =? id) (heat_centers db) = Some c' ->
                  HeatCenter.id c' = HeatCenter.id c
                  /\ HeatCenter.created_at c' = HeatCenter.created_at c)
    by (rewrite Hc; intros H; injection H as <-; auto).
  destruct req as [center|cid cu|cid|site|sid su|sid|route|rid|k v t d]; cbn [serve].
  - unfold create_heat_center. destruct (fits _); [|exact Hsame].
    destruct (sqlite_real _); [|exact Hsame].
    destruct (sqlite_real _); [|exact Hsame].
    destruct (sqlite_real _); [|exact Hsame].
    cbn [snd set_heat_centers heat_centers].
    rewrite find_app, Hc. intros H. injection H as <-. auto.
  - unfold update_heat_center.
    destruct (query_heat_center db cid) as [[center|]|e] eqn:E; try exact Hsame.
    destruct (heat_center_not_null_violation cu); [exact Hsame|].
    apply query_heat_center_ok in E.
    cbn [snd set_heat_centers heat_centers]. unfold write_heat_center.
    destruct (Z.eq_dec id cid) as [->|Hne].
    + unfold heat_center_by_id in E. rewrite Hc in E. injection E as <-.
      rewrite (find_write_same HeatCenter.id c _ _ _ Hc)
        by (now apply (find_key_sound HeatCenter.id) in Hc).
      intros H. injection H as <-. auto.
    + rewrite (find_write_other HeatCenter.id); [exact Hsame|].
      apply (find_key_sound HeatCenter.id) in E as [_ E].
      unfold heat_center_setattrs. cbn [HeatCenter.id]. congruence.
  - unfold delete_heat_center.
    destruct (query_heat_center db cid) as [[center|]|e]; try exact Hsame.
    destruct (0 <? _)%nat; [exact Hsame|].
    cbn [snd set_heat_centers heat_centers].
    rewrite (find_key_deleted HeatCenter.id).
    destruct (id =? HeatCenter.id center); [discriminate|exact Hsame].
  - unfold create_demand_site. destruct (_ && _); [|exact Hsame].
    destruct (fits _); [|exact Hsame].
    repeat (destruct (sqlite_real _); [|exact Hsame]). exact Hsame.
  - unfold update_demand_site.
    destruct (query_demand_site db sid) as [[site|]|e]; try exact Hsame.
    destruct (demand_site_overflow site su); [exact Hsame|].
    now destruct (demand_site_not_null_violation su).
  - unfold delete_demand_site.
    destruct (query_demand_site db sid) as [[site|]|e]; try exact Hsame.
    now destruct (0 <? _)%nat.
  - unfold create_route.
    destruct (query_heat_center db _) as [[heat_center|]|e]; try exact Hsame.
    destruct (query_demand_site db _) as [[demand_site|]|e]; try exact Hsame.
    destruct (route_between db _ _); [exact Hsame|].
    destruct (_ && _); [|exact Hsame].
    destruct (fits _); [|exact Hsame].
    repeat (destruct (sqlite_real _); [|exact Hsame]). exact Hsame.
  - unfold delete_route. now destruct (query_route db rid) as [[route|]|e].
  - unfold set_config. now destruct (config_by_key db k).
Qed.

Lemma serve_keeps_demand_site now req db id s s' :
  demand_site_by_id db id = Some s ->
  demand_site_by_id (serve now req db) id = Some s' ->
  DemandSite.id s' = DemandSite.id s
  /\ DemandSite.created_at s' = DemandSite.created_at s.
Proof.
  intros Hs. unfold demand_site_by_id in *.
  assert (Hsame : find (fun x => DemandSite.id x =? id) (demand_sites db) = Some s' ->
                  DemandSite.id s' = DemandSite.id s
                  /\ DemandSite.created_at s' = DemandSite.created_at s)
    by (rewrite Hs; intros H; injection H as <-; auto).
  destruct req as [center|cid cu|cid|site|sid su|sid|route|rid|k v t d]; cbn [serve].
  - unfold create_heat_center. destruct (fits _); [|exact Hsame].
    repeat (destruct (sqlite_real _); [|exact Hsame]). exact Hsame.
  - unfold update_heat_center.
    destruct (query_heat_center db cid) as [[center|]|e]; try exact Hsame.
    now destruct (heat_center_not_null_violation cu).
  - unfold delete_heat_center.
    destruct (query_heat_center db cid) as [[center|]|e]; try exact Hsame.
    now destruct (0 <? _)%nat.
  - unfold create_demand_site. destruct (_ && _); [|exact Hsame].
    destruct (fits _); [|exact Hsame].
    destruct (sqlite_real _); [|exact Hsame].
    destruct (sqlite_real _); [|exact Hsame].
    destruct (sqlite_real _); [|exact Hsame].
    cbn [snd set_demand_sites demand_sites].
    rewrite find_app, Hs. intros H. injection H as <-. auto.
  - unfold update_demand_site.
    destruct (query_demand_site db sid) as [[site|]|e] eqn:E; try exact Hsame.
    destruct (demand_site_overflow site su); [exact Hsame|].
    destruct (demand_site_not_null_violation su); [exact Hsame|].
    apply query_demand_site_ok in E.
    cbn [snd set_demand_sites demand_sites]. unfold write_demand_site.
    destruct (Z.eq_dec id sid) as [->|Hne].
    + unfold demand_site_by_id in E. rewrite Hs in E. injection E as <-.
      rewrite (find_write_same DemandSite.id s _ _ _ Hs)
        by (now apply (find_key_sound DemandSite.id) in Hs).
      intros H. injection H as <-. auto.
    + rewrite (find_write_other DemandSite.id); [exact Hsame|].
      apply (find_key_sound DemandSite.id) in E as [_ E].
      unfold demand_site_setattrs. cbn [DemandSite.id]. congruence.
  - unfold delete_demand_site.
    destruct (query_demand_site db sid) as [[site|]|e]; try exact Hsame.
    destruct (0 <? _)%nat; [exact Hsame|].
    cbn [snd set_demand_sites demand_sites].
    rewrite (find_key_deleted DemandSite.id).
    destruct (id =? DemandSite.id site); [discriminate|exact Hsame].
  - unfold create_route.
    destruct (query_heat_center db _) as [[heat_center|]|e]; try exact Hsame.
    destruct (query_demand_site db _) as [[demand_site|]|e]; try exact Hsame.
    destruct (route_between db _ _); [exact Hsame|].
    destruct (_ && _); [|exact Hsame].
    destruct (fits _); [|exact Hsame].
    repeat (destruct (sqlite_real _); [|exact Hsame]). exact Hsame.
  - unfold delete_route. now destruct (query_route db rid) as [[route|]|e].
  - unfold set_config. now destruct (config_by_key db k).
Qed.

Lemma serve_keeps_route now req db id r r' :
  route_by_id db id = Some r ->
  route_by_id (serve now req db) id = Some r' -> r' = r.
Proof.
  intros Hr. unfold route_by_id in *.
  assert (Hsame : find (fun x => Route.id x =? id) (routes db) = Some r' -> r' = r)
    by (rewrite Hr; intros H; now injection H as <-).
  destruct req as [center|cid cu|cid|site|sid su|sid|route|rid|k v t d]; cbn [serve].
  - unfold create_heat_center. destruct (fits _); [|exact Hsame].
    repeat (destruct (sqlite_real _); [|exact Hsame]). exact Hsame.
  - unfold update_heat_center.
    destruct (query_heat_center db cid) as [[center|]|e]; try exact Hsame.
    now destruct (heat_center_not_null_violation cu).
  - unfold delete_heat_center.
    destruct (query_heat_center db cid) as [[center|]|e]; try exact Hsame.
    now destruct (0 <? _)%nat.
  - unfold create_demand_site. destruct (_ && _); [|exact Hsame].
    destruct (fits _); [|exact Hsame].
    repeat (destruct (sqlite_real _); [|exact Hsame]). exact Hsame.
  - unfold update_demand_site.
    destruct (query_demand_site db sid) as [[site|]|e]; try exact Hsame.
    destruct (demand_site_overflow site su); [exact Hsame|].
    now destruct (demand_site_not_null_violation su).
  - unfold delete_demand_site.
    destruct (query_demand_site db sid) as [[site|]|e]; try exact Hsame.
    now destruct (0 <? _)%nat.
  - unfold create_route.
    destruct (query_heat_center db _) as [[heat_center|]|e]; try exact Hsame.
    destruct (query_demand_site db _) as [[demand_site|]|e]; try exact Hsame.
    destruct (route_between db _ _); [exact Hsame|].
    destruct (_ && _); [|exact Hsame].
    destruct (fits _); [|exact Hsame].
    destruct (sqlite_real _); [|exact Hsame].
    destruct (sqlite_real _); [|exact Hsame].
    cbn [snd set_routes routes]. rewrite find_app, Hr. intros H. now injection H as <-.
  - unfold delete_route.
    destruct (query_route db rid) as [[route|]|e]; try exact Hsame.
    cbn [snd set_routes routes]. rewrite (find_key_deleted Route.id).
    destruct (id =? Route.id route); [discriminate|exact Hsame].
  - unfold set_config. now destruct (config_by_key db k).
Qed.

(** X8.  Whatever single request is served, a heat center or demand site
    that can be fetched by an id before and after it has kept its id and
    its [created_at], and a route that can be fetched before and after is
    the same record: no request modifies a route. *)
Theorem created_at_and_routes_immutable (db : Database) (now : Z) (req : Request) :
  (forall id c c',
     get_heat_center id db = Ok c ->
     get_heat_center id (serve now req db) = Ok c' ->
     HeatCenter.id c' = HeatCenter.id c
     /\ HeatCenter.created_at c' = HeatCenter.created_at c)
  /\ (forall id s s',
        get_demand_site id db = Ok s ->
        get_demand_site id (serve now req db) = Ok s' ->
        DemandSite.id s' = DemandSite.id s
        /\ DemandSite.created_at s' = DemandSite.created_at s)
  /\ (forall id r r',
        get_route id db = Ok r ->
        get_route id (serve now req db) = Ok r' -> r' = r).
Proof.
  split; [|split].
  - intros id c c' H H'. apply get_heat_center_ok in H, H'.
    exact (serve_keeps_heat_center now req db id c c' H H').
  - intros id s s' H H'. apply get_demand_site_ok in H, H'.
    exact (serve_keeps_demand_site now req db id s s' H H').
  - intros id r r' H H'. apply get_route_ok in H, H'.
    exact (serve_keeps_route now req db id r r' H H').
Qed.

Lemma created_at_and_routes_immutable_witness :
  exists c c',
    get_heat_center 1 center_only = Ok c
    /\ get_heat_center 1 (serve 50 (UpdateHeatCenter 1 output_update) center_only) = Ok c'
    /\ HeatCenter.created_at c' = HeatCenter.created_at c
    /\ HeatCenter.updated_at c' <> HeatCenter.updated_at c.
Proof.
  do 2 eexists. split; [reflexivity|]. split; [reflexivity|]. split.
  - now apply (created_at_and_routes_immutable center_only 50
                 (UpdateHeatCenter 1 output_update)) with (id := 1).
  - discriminate.
Defined.

(** * Repeated writes *)

Lemma option_eqb_refl {A} (eqb : A -> A -> bool) (x : option A) :
  (forall a, eqb a a = true) -> option_eqb eqb x x = true.
Proof. intros H. destruct x; simpl; auto. Qed.

Lemma bool_eqb_refl (b : bool) : Bool.eqb b b = true.
Proof. now destruct b. Qed.

(** A column that has taken a supplied value is found unchanged when the
    value is supplied again. *)
Lemma nullable_settled {A} (eqb : A -> A -> bool) (supplied : option (option A))
    (current : option A) :
  (forall a, eqb a a = true) ->
  modifies (same_nullable eqb) supplied
    (setattr (same_nullable eqb) store_nullable supplied current) = false.
Proof.
  intros H. destruct supplied as [v|]; simpl; [|reflexivity].
  destruct (same_nullable eqb v current) eqn:E; [now rewrite E|].
  unfold same_nullable. now rewrite option_eqb_refl.
Qed.

Lemma required_settled {A} (eqb : A -> A -> bool) (supplied : option (option A))
    (current : A) :
  (forall a, eqb a a = true) ->
  violates_not_null store_required supplied = false ->
  modifies (same_required eqb) supplied
    (setattr (same_required eqb) store_required supplied current) = false.
Proof.
  intros H. destruct supplied as [v|]; simpl; [|reflexivity].
  destruct (same_required eqb v current) eqn:E; [now rewrite E|].
  unfold store_required. destruct v as [a|]; [|discriminate].
  intros _. unfold same_required. simpl. now rewrite H.
Qed.

Lemma real_settled (supplied : option (option float)) (current : option float) :
  is_number supplied = true ->
  modifies (same_nullable float_eqb) supplied
    (setattr (same_nullable float_eqb) store_real supplied current) = false.
Proof.
  destruct supplied as [v|]; simpl; [|reflexivity].
  destruct (same_nullable float_eqb v current) eqn:E; [now rewrite E|].
  unfold store_real, nullable_real, same_nullable. destruct v as [x|]; [|reflexivity].
  rewrite negb_true_iff. intros Hn. destruct (sqlite_real_some _ Hn) as (y & Hy).
  rewrite Hy. simpl. now rewrite (sqlite_real_eqb _ _ Hy).
Qed.

Lemma required_real_settled (supplied : option (option float)) (current : float) :
  violates_not_null store_required_real supplied = false ->
  modifies (same_required float_eqb) supplied
    (setattr (same_required float_eqb) store_required_real supplied current) = false.
Proof.
  destruct supplied as [v|]; simpl; [|reflexivity].
  destruct (same_required float_eqb v current) eqn:E; [now rewrite E|].
  unfold store_required_real, nullable_real, same_required.
  destruct v as [x|]; [|discriminate].
  destruct (sqlite_real x) as [y|] eqn:Hy; [|discriminate].
  intros _. simpl. now rewrite (sqlite_real_eqb _ _ Hy).
Qed.

Lemma datetime_settled (supplied : option (option datetime)) (current : option DateTime) :
  is_naive supplied = true ->
  modifies same_datetime supplied
    (setattr same_datetime store_datetime supplied current) = false.
Proof.
  destruct supplied as [v|]; simpl; [|reflexivity].
  destruct (same_datetime v current) eqn:E; [now rewrite E|].
  unfold store_datetime, same_datetime. destruct v as [[w|w o]|]; simpl;
    [|discriminate|reflexivity].
  intros _. now rewrite Z.eqb_refl.
Qed.

Ltac split_andb H :=
  repeat match type of H with
         | (_ && _)%bool = true =>
             let H' := fresh "Hs" in
             apply andb_true_iff in H; destruct H as [H H']
         end.

Lemma heat_center_written_clean c u now :
  heat_center_not_null_violation u = false ->
  heat_center_settles u = true ->
  heat_center_dirty (heat_center_setattrs c u now) u = false.
Proof.
  intros H Hs. unfold heat_center_not_null_violation in H. split_orb H.
  unfold heat_center_settles in Hs. split_andb Hs.
  unfold heat_center_dirty, heat_center_setattrs.
  cbn [HeatCenter.name HeatCenter.location_lat HeatCenter.location_lng
       HeatCenter.address HeatCenter.max_capacity_mw HeatCenter.current_output_mw
       HeatCenter.efficiency_percent HeatCenter.fuel_type HeatCenter.is_active
       HeatCenter.commissioning_date HeatCenter.last_maintenance
       HeatCenter.description].
  rewrite !required_settled by auto using String.eqb_refl.
  rewrite !required_real_settled by assumption.
  rewrite !real_settled by assumption.
  rewrite !datetime_settled by assumption.
  rewrite !nullable_settled by auto using String.eqb_refl, bool_eqb_refl, Z.eqb_refl.
  reflexivity.
Qed.

Lemma demand_site_written_clean s u now :
  demand_site_not_null_violation u = false ->
  demand_site_settles u = true ->
  demand_site_dirty (demand_site_setattrs s u now) u = false
  /\ demand_site_overflow (demand_site_setattrs s u now) u = false.
Proof.
  intros H Hs. unfold demand_site_not_null_violation in H. split_orb H.
  unfold demand_site_settles in Hs. split_andb Hs.
  unfold demand_site_dirty, demand_site_overflow, overflows, demand_site_setattrs.
  cbn [DemandSite.name DemandSite.location_lat DemandSite.location_lng
       DemandSite.address DemandSite.site_type DemandSite.peak_demand_mw
       DemandSite.current_demand_mw DemandSite.annual_consumption_mwh
       DemandSite.is_connected DemandSite.connection_date DemandSite.priority_level
       DemandSite.floor_area_sqm DemandSite.building_age_years
       DemandSite.insulation_rating DemandSite.description].
  rewrite !required_settled by auto using String.eqb_refl.
  rewrite !required_real_settled by assumption.
  rewrite !real_settled by assumption.
  rewrite !datetime_settled by assumption.
  rewrite !nullable_settled by auto using String.eqb_refl, bool_eqb_refl, Z.eqb_refl.
  split; reflexivity.
Qed.

Lemma write_twice {A} (key : A -> Z) (a : A) (l : list A) :
  map (fun x => if key x =? key a then a else x)
      (map (fun x => if key x =? key a then a else x) l)
  = map (fun x => if key x =? key a then a else x) l.
Proof.
  rewrite map_map. apply map_ext. intros x.
  destruct (key x =? key a) eqn:E; [now rewrite Z.eqb_refl|now rewrite E].
Qed.

(** X9.  Repeating an update changes nothing when the floats it sets are
    numbers and the datetimes it sets carry no UTC offset: the same
    partial update of a heat center or a demand site, sent again at a
    later time to the database the first one left, gives the same answer
    and leaves that database as it is, [updated_at] included.  This
    covers the failing updates (unknown id, id or integer beyond 64 bits,
    null for a NOT NULL column) as well.  An update that sets a datetime
    with an offset is written again each time it is sent: the repeat
    advances [updated_at]. *)
Theorem update_idempotent (db : Database) (id now now' : Z) :
  (forall u,
     heat_center_settles u = true ->
     update_heat_center id u now' (snd (update_heat_center id u now db))
     = update_heat_center id u now db)
  /\ (forall u,
        demand_site_settles u = true ->
        update_demand_site id u now' (snd (update_demand_site id u now db))
        = update_demand_site id u now db)
  /\ (exists c c',
        update_heat_center 1 dated_update 50 center_only
        = (Ok c, serve 50 (UpdateHeatCenter 1 dated_update) center_only)
        /\ fst (update_heat_center 1 dated_update 60
                  (serve 50 (UpdateHeatCenter 1 dated_update) center_only)) = Ok c'
        /\ HeatCenter.updated_at c = Some 50
        /\ HeatCenter.updated_at c' = Some 60
        /\ HeatCenter.commissioning_date c' = HeatCenter.commissioning_date c).
Proof.
  split; [|split].
  - intros u Hs. unfold update_heat_center at 2 3.
    destruct (query_heat_center db id) as [[c|]|e] eqn:E;
      try (unfold update_heat_center; cbn [snd]; now rewrite E).
    destruct (heat_center_not_null_violation u) eqn:V;
      [unfold update_heat_center; cbn [snd]; now rewrite E, V|].
    cbn [snd]. apply first_by_id_ok in E as [Hfit E]. symmetry in E.
    unfold update_heat_center, query_heat_center, first_by_id. rewrite Hfit.
    unfold heat_center_by_id, set_heat_centers in *.
    cbn [heat_centers demand_sites routes system_config]. unfold write_heat_center at 1.
    rewrite (find_write_same HeatCenter.id c _ _ _ E)
      by (now apply (find_key_sound HeatCenter.id) in E).
    rewrite V, (heat_center_clean _ _ _ (heat_center_written_clean c u now V Hs)).
    unfold write_heat_center. now rewrite write_twice.
  - intros u Hs. unfold update_demand_site at 2 3.
    destruct (query_demand_site db id) as [[s|]|e] eqn:E;
      try (unfold update_demand_site; cbn [snd]; now rewrite E).
    destruct (demand_site_overflow s u) eqn:O;
      [unfold update_demand_site; cbn [snd]; now rewrite E, O|].
    destruct (demand_site_not_null_violation u) eqn:V;
      [unfold update_demand_site; cbn [snd]; now rewrite E, O, V|].
    cbn [snd]. apply first_by_id_ok in E as [Hfit E]. symmetry in E.
    unfold update_demand_site, query_demand_site, first_by_id. rewrite Hfit.
    unfold demand_site_by_id, set_demand_sites in *.
    cbn [heat_centers demand_sites routes system_config]. unfold write_demand_site at 1.
    rewrite (find_write_same DemandSite.id s _ _ _ E)
      by (now apply (find_key_sound DemandSite.id) in E).
    destruct (demand_site_written_clean s u now V Hs) as [Hd Ho].
    rewrite Ho, V, (demand_site_clean _ _ _ Hd).
    unfold write_demand_site. now rewrite write_twice.
  - do 2 eexists. split; [reflexivity|]. split; [reflexivity|]. repeat split.
Qed.

Lemma update_idempotent_witness :
  update_heat_center 1 output_update 60
    (snd (update_heat_center 1 output_update 50 center_only))
  = update_heat_center 1 output_update 50 center_only
  /\ update_demand_site 1 huge_priority_update 60
       (snd (update_demand_site 1 huge_priority_update 50 one_route))
     = update_demand_site 1 huge_priority_update 50 one_route.
Proof.
  destruct (update_idempotent center_only 1 50 60) as (Hc & _).
  destruct (update_idempotent one_route 1 50 60) as (_ & Hs & _).
  split; [apply Hc|apply Hs]; reflexivity.
Defined.

Lemma write_fresh {A} (key : A -> Z) (a : A) (l : list A) :
  ~ In (key a) (map key l) ->
  map (fun x => if key x =? key a then a else x) l = l.
Proof.
  intros H. rewrite <- (map_id l) at 2. apply map_ext_in. intros x Hx.
  destruct (key x =? key a) eqn:E; [|reflexivity].
  apply Z.eqb_eq in E. exfalso. apply H. rewrite <- E. now apply in_map.
Qed.

(** X10.  Repeating a configuration write changes nothing: the same write,
    sent again at a later time to the database the first one left, gives
    the same answer and leaves that database as it is; in particular it
    adds no second entry for the key. *)
Theorem set_config_idempotent (db : Database)
    (key value type : string) (description : option string) (now now' : Z) :
  set_config key value type description now'
    (snd (set_config key value type description now db))
  = set_config key value type description now db.
Proof.
  unfold set_config at 2 3. destruct (config_by_key db key) as [config|] eqn:E.
  - cbn [snd]. apply config_by_key_sound in E as Hkey. destruct Hkey as [_ Hkey].
    unfold set_config, config_by_key, set_system_config.
    cbn [heat_centers demand_sites routes system_config].
    match goal with
    | |- context [write_config ?c' _] =>
        rewrite (config_by_key_written db key config c' E eq_refl Hkey)
    end.
    cbn [SystemConfig.id SystemConfig.config_key SystemConfig.config_value
         SystemConfig.config_type SystemConfig.description SystemConfig.is_active
         SystemConfig.created_at SystemConfig.updated_at].
    assert (Hd : (if truthy description then description
                  else if truthy description then description
                       else SystemConfig.description config)
                 = (if truthy description then description
                    else SystemConfig.description config))
      by now destruct (truthy description).
    rewrite Hd, String.eqb_refl. cbn [option_eqb]. rewrite String.eqb_refl.
    rewrite (option_eqb_refl String.eqb _ String.eqb_refl).
    cbn [negb orb onupdate]. unfold write_config.
    now rewrite (write_twice SystemConfig.id).
  - cbn [snd]. pose proof (config_by_key_none _ _ E) as Hnone.
    unfold set_config, config_by_key, set_system_config.
    cbn [heat_centers demand_sites routes system_config].
    unfold config_by_key in E. rewrite find_app, E. cbn [find SystemConfig.config_key].
    rewrite String.eqb_refl.
    cbn [SystemConfig.id SystemConfig.config_key SystemConfig.config_value
         SystemConfig.config_type SystemConfig.description SystemConfig.is_active
         SystemConfig.created_at SystemConfig.updated_at].
    assert (Hd : (if truthy description then description else description) = description)
      by now destruct (truthy description).
    rewrite Hd, String.eqb_refl. cbn [option_eqb]. rewrite String.eqb_refl.
    rewrite (option_eqb_refl String.eqb _ String.eqb_refl).
    cbn [negb orb onupdate]. unfold write_config. rewrite map_app.
    rewrite (write_fresh SystemConfig.id) by apply next_id_fresh.
    cbn [map SystemConfig.id]. now rewrite Z.eqb_refl.
Qed.

(** * Reading the configuration *)

Lemma serve_config_active now req db :
  (forall c, In c (system_config db) -> SystemConfig.is_active c = Some true) ->
  forall c, In c (system_config (serve now req db)) ->
    SystemConfig.is_active c = Some true.
Proof.
  intros H. destruct req as [center|cid cu|cid|site|sid su|sid|route|rid|k v t d];
    cbn [serve].
  - unfold create_heat_center. destruct (fits _); [|exact H].
    repeat (destruct (sqlite_real _); [|exact H]). exact H.
  - unfold update_heat_center.
    destruct (query_heat_center db cid) as [[center|]|e]; try exact H.
    now destruct (heat_center_not_null_violation cu).
  - unfold delete_heat_center.
    destruct (query_heat_center db cid) as [[center|]|e]; try exact H.
    now destruct (0 <? _)%nat.
  - unfold create_demand_site. destruct (_ && _); [|exact H].
    destruct (fits _); [|exact H].
    repeat (destruct (sqlite_real _); [|exact H]). exact H.
  - unfold update_demand_site.
    destruct (query_demand_site db sid) as [[site|]|e]; try exact H.
    destruct (demand_site_overflow site su); [exact H|].
    now destruct (demand_site_not_null_violation su).
  - unfold delete_demand_site.
    destruct (query_demand_site db sid) as [[site|]|e]; try exact H.
    now destruct (0 <? _)%nat.
  - unfold create_route.
    destruct (query_heat_center db _) as [[heat_center|]|e]; try exact H.
    destruct (query_demand_site db _) as [[demand_site|]|e]; try exact H.
    destruct (route_between db _ _); [exact H|].
    destruct (_ && _); [|exact H].
    destruct (fits _); [|exact H].
    repeat (destruct (sqlite_real _); [|exact H]). exact H.
  - unfold delete_route. now destruct (query_route db rid) as [[route|]|e].
  - unfold set_config. destruct (config_by_key db k) as [config|] eqn:E;
      cbn [snd set_system_config system_config]; intros c Hc.
    + apply config_by_key_sound in E as [Hin _]. unfold write_config in Hc.
      apply in_map_iff in Hc as (x & Hx & Hxin).
      destruct (SystemConfig.id x =? _); subst c; [|auto].
      cbn [SystemConfig.is_active]. auto.
    + apply in_app_or in Hc as [Hc|[<-|[]]]; [auto|reflexivity].
Qed.

Lemma reachable_config_active db :
  reachable db ->
  forall c, In c (system_config db) -> SystemConfig.is_active c = Some true.
Proof.
  induction 1 as [|now req db _ IH]; [intros c []|]. now apply serve_config_active.
Qed.

Section ConfigAnswers.

Variable Json : Type.
Variable py_int : string -> Result Z.
Variable py_float : string -> Result float.
Variable json_loads : string -> Result Json.

Local Abbreviation convert := (convert py_int py_float json_loads).
Local Abbreviation fill_config := (fill_config py_int py_float json_loads).
Local Abbreviation get_config := (get_config py_int py_float json_loads).

(** A conversion fails with the error of the parser of its type. *)
Lemma convert_error (config : SystemConfig.t) (e : Error) :
  convert config = Err e ->
  (type_is config "integer" = true /\ py_int (SystemConfig.config_value config) = Err e)
  \/ (type_is config "float" = true /\ py_float (SystemConfig.config_value config) = Err e)
  \/ (type_is config "json" = true /\ json_loads (SystemConfig.config_value config) = Err e).
Proof.
  unfold convert.
  destruct (type_is config "integer").
  { destruct (py_int _); simpl; intros H; [discriminate H|]. injection H as <-. auto. }
  destruct (type_is config "float").
  { destruct (py_float _); simpl; intros H; [discriminate H|]. injection H as <-. auto. }
  destruct (type_is config "boolean"); [intros H; discriminate H|].
  destruct (type_is config "json").
  { destruct (json_loads _); simpl; intros H; [discriminate H|]. injection H as <-. auto. }
  intros H. discriminate H.
Qed.

Lemma fill_config_ok (configs : list SystemConfig.t) d0 d :
  fill_config configs d0 = Ok d ->
  forall c, In c configs -> exists v, convert c = Ok v.
Proof.
  revert d0. induction configs as [|x configs IH]; intros d0 H c Hc; [destruct Hc|].
  simpl in H. apply bind_ok in H as (v & Hv & H). destruct Hc as [<-|Hc]; eauto.
Qed.

(** The filling fails with the error of the first entry that does not
    convert. *)
Lemma fill_config_err (configs : list SystemConfig.t) d0 e :
  fill_config configs d0 = Err e
  <-> exists before c after,
        configs = (before ++ c :: after)%list
        /\ (forall x, In x before -> exists v, convert x = Ok v)
        /\ convert c = Err e.
Proof.
  revert d0. induction configs as [|x configs IH]; intros d0; simpl.
  - split; [discriminate|]. intros (before & c & after & H & _). now destruct before.
  - destruct (convert x) as [v|e'] eqn:E; simpl.
    + rewrite IH. split.
      * intros (before & c & after & -> & Hb & Hc). exists (x :: before), c, after.
        split; [reflexivity|]. split; [|exact Hc].
        intros y [<-|Hy]; eauto.
      * intros (before & c & after & Heq & Hb & Hc). destruct before as [|y before].
        -- simpl in Heq. injection Heq as <- _. congruence.
        -- simpl in Heq. injection Heq as <- ->. exists before, c, after.
           split; [reflexivity|]. split; [|exact Hc]. intros z Hz. apply Hb. now right.
    + split.
      * intros H. injection H as <-. exists [], x, configs. split; [reflexivity|].
        split; [intros y []|exact E].
      * intros (before & c & after & Heq & Hb & Hc). destruct before as [|y before].
        -- simpl in Heq. injection Heq as <- _. congruence.
        -- simpl in Heq. injection Heq as <- _.
           destruct (Hb x (or_introl eq_refl)) as (v & Hv). congruence.
Qed.

Lemma fill_config_all (configs : list SystemConfig.t) d0 :
  (forall c, In c configs -> exists v, convert c = Ok v) ->
  exists d, fill_config configs d0 = Ok d.
Proof.
  revert d0. induction configs as [|x configs IH]; intros d0 H; simpl; [eauto|].
  destruct (H x (or_introl eq_refl)) as (v & ->). simpl.
  apply IH. intros c Hc. apply H. now right.
Qed.

Lemma fill_config_origin (configs : list SystemConfig.t) d0 d k v :
  fill_config configs d0 = Ok d -> dict_get d k = Some v ->
  dict_get d0 k = Some v
  \/ exists c, In c configs /\ SystemConfig.config_key c = k /\ convert c = Ok v.
Proof.
  revert d0. induction configs as [|x configs IH]; intros d0 H Hk; simpl in H.
  - injection H as <-. now left.
  - apply bind_ok in H as (vx & Hvx & H).
    destruct (IH _ H Hk) as [Hd|(c & Hc & Hck & Hcv)].
    + destruct (String.eqb (SystemConfig.config_key x) k) eqn:E.
      * apply String.eqb_eq in E. subst k. rewrite dict_get_set_same in Hd.
        injection Hd as <-. right. exists x. split; [now left|auto].
      * apply String.eqb_neq in E. rewrite dict_get_set_other in Hd by assumption.
        now left.
    + right. exists c. split; [now right|auto].
Qed.

Lemma dict_set_nonempty {V} (d : list (string * V)) k v : dict_set d k v <> [].
Proof. destruct d as [|[k' v'] d]; simpl; [discriminate|]. now destruct (String.eqb k' k). Qed.

Lemma fill_config_nonempty (configs : list SystemConfig.t) d0 d :
  fill_config configs d0 = Ok d -> d0 <> [] -> d <> [].
Proof.
  revert d0. induction configs as [|x configs IH]; intros d0 H Hne; simpl in H.
  - now injection H as <-.
  - apply bind_ok in H as (v & _ & H). apply (IH _ H). apply dict_set_nonempty.
Qed.

(** X11.  In a reachable database a configuration write is visible to the
    next read: the entry found under the key afterwards is active and
    holds the written value and type, and if the read answers, it holds
    under that key the conversion of that entry; for a type that is not
    converted this is the written value itself. *)
Theorem set_config_then_read (db : Database)
    (key value type : string) (description : option string) (now : Z) :
  reachable db ->
  exists c,
    config_by_key (snd (set_config key value type description now db)) key = Some c
    /\ SystemConfig.config_value c = value
    /\ SystemConfig.config_type c = Some type
    /\ SystemConfig.is_active c = Some true
    /\ forall config_dict,
         get_config (snd (set_config key value type description now db)) = Ok config_dict ->
         (exists v, convert c = Ok v /\ dict_get config_dict key = Some v)
         /\ (converted_type c = false -> dict_get config_dict key = Some (VStr value)).
Proof.
  intros Hreach.
  assert (Hreach' : reachable (snd (set_config key value type description now db)))
    by apply (reachable_serve now (SetConfig key value type description) db Hreach).
  pose proof (config_keys _ (reachable_consistent _ Hreach')) as Hkeys.
  pose proof (reachable_config_active _ Hreach') as Hactive.
  assert (Hc : exists c,
             config_by_key (snd (set_config key value type description now db)) key = Some c
             /\ SystemConfig.config_value c = value
             /\ SystemConfig.config_type c = Some type).
  { unfold set_config. destruct (config_by_key db key) as [config|] eqn:E.
    - eexists. split; [|split]; cycle 1; [| |].
      3: { unfold config_by_key at 1. cbn [snd set_system_config system_config].
           apply (config_by_key_written _ _ _ _ E); [reflexivity|].
           cbn [SystemConfig.config_key]. now apply config_by_key_sound in E. }
      all: reflexivity.
    - eexists. split; [|split]; cycle 1; [| |].
      3: { unfold config_by_key in *. cbn [snd set_system_config system_config].
           rewrite find_app, E. cbn [find SystemConfig.config_key].
           now rewrite String.eqb_refl. }
      all: reflexivity. }
  destruct Hc as (c & Hfind & Hv & Ht). exists c.
  apply config_by_key_sound in Hfind as Hin. destruct Hin as [Hin Hk].
  split; [exact Hfind|]. split; [exact Hv|]. split; [exact Ht|].
  split; [now apply Hactive|].
  intros config_dict Hget. unfold get_config in Hget.
  apply bind_ok in Hget as (d & Hfill & Hget).
  assert (Hinf : In c (filter (fun c => is_true (SystemConfig.is_active c))
                         (system_config (snd (set_config key value type description now db))))).
  { apply filter_In. split; [assumption|]. now rewrite (Hactive c Hin). }
  destruct (fill_config_ok _ _ _ Hfill c Hinf) as (v & Hcv).
  assert (Hd : dict_get d key = Some v).
  { rewrite <- Hk.
    eapply (fill_config_entry Json py_int py_float json_loads);
      [|exact Hinf|exact Hcv|exact Hfill]. now apply NoDup_map_filter. }
  assert (Hdict : config_dict = d).
  { destruct d; [discriminate|]. now injection Hget as <-. }
  subst config_dict. split; [eauto|].
  intros Hty. rewrite (convert_verbatim Json py_int py_float json_loads c Hty) in Hcv.
  injection Hcv as <-. now rewrite <- Hv.
Qed.

(** X12.  The default display settings are an alternative to the stored
    configuration, never a supplement: a read of a database with no active
    entry answers with the defaults, and a read of a database with an
    active entry answers, when it answers, with a mapping in which every
    key is the key of an active entry and its value that entry's
    conversion. *)
Theorem get_config_defaults_or_entries (db : Database) :
  ((forall c, In c (system_config db) -> is_true (SystemConfig.is_active c) = false) ->
     get_config db = Ok default_map_config)
  /\ (forall config_dict,
        (exists c, In c (system_config db) /\ is_true (SystemConfig.is_active c) = true) ->
        get_config db = Ok config_dict ->
        forall k v,
          dict_get config_dict k = Some v ->
          exists c,
            In c (system_config db) /\ is_true (SystemConfig.is_active c) = true
            /\ SystemConfig.config_key c = k /\ convert c = Ok v).
Proof.
  split.
  - intros Hnone. unfold get_config.
    assert (Hf : filter (fun c => is_true (SystemConfig.is_active c)) (system_config db) = []).
    { induction (system_config db) as [|x l IH]; [reflexivity|]. simpl.
      rewrite (Hnone x (or_introl eq_refl)). apply IH. intros c Hc. apply Hnone.
      now right. }
    now rewrite Hf.
  - intros config_dict (c0 & Hc0 & Ha0) Hget k v Hk. unfold get_config in Hget.
    apply bind_ok in Hget as (d & Hfill & Hget).
    assert (Hne : d <> []).
    { destruct (filter _ (system_config db)) as [|x l] eqn:Ef.
      - assert (Hin : In c0 (filter (fun c => is_true (SystemConfig.is_active c))
                               (system_config db))) by (apply filter_In; auto).
        rewrite Ef in Hin. destruct Hin.
      - simpl in Hfill. apply bind_ok in Hfill as (vx & _ & Hfill).
        apply (fill_config_nonempty _ _ _ Hfill). discriminate. }
    assert (Hdict : config_dict = d).
    { destruct d; [contradiction|]. now injection Hget as <-. }
    subst config_dict.
    destruct (fill_config_origin _ _ _ _ _ Hfill Hk) as [Hd|(c & Hc & Hck & Hcv)];
      [discriminate|].
    apply filter_In in Hc as [Hc Ha]. eauto.
Qed.

(** X13.  A configuration read is all or nothing: it answers exactly when
    every active entry converts, and otherwise it fails with the error of
    the first active entry that does not convert, which is the error that
    [int], [float] or [json.loads] raises on the value of that entry.
    Entries that are not active never make it fail. *)
Theorem get_config_all_or_nothing (db : Database) :
  ((forall c, In c (system_config db) -> is_true (SystemConfig.is_active c) = true ->
              exists v, convert c = Ok v)
   <-> exists config_dict, get_config db = Ok config_dict)
  /\ (forall e,
        get_config db = Err e
        <-> exists before c after,
              filter (fun c => is_true (SystemConfig.is_active c)) (system_config db)
              = (before ++ c :: after)%list
              /\ (forall x, In x before -> exists v, convert x = Ok v)
              /\ convert c = Err e)
  /\ (forall e,
        get_config db = Err e ->
        exists c,
          In c (system_config db) /\ is_true (SystemConfig.is_active c) = true
          /\ ((type_is c "integer" = true
               /\ py_int (SystemConfig.config_value c) = Err e)
              \/ (type_is c "float" = true
                  /\ py_float (SystemConfig.config_value c) = Err e)
              \/ (type_is c "json" = true
                  /\ json_loads (SystemConfig.config_value c) = Err e))).
Proof.
  assert (Herr : forall e,
            get_config db = Err e
            <-> fill_config (filter (fun c => is_true (SystemConfig.is_active c))
                                    (system_config db)) [] = Err e).
  { intros e. unfold get_config.
    destruct (fill_config _ []) as [d|e'] eqn:Ef; simpl.
    - destruct d; split; discriminate.
    - reflexivity. }
  assert (Hok : (forall c, In c (system_config db) ->
                   is_true (SystemConfig.is_active c) = true ->
                   exists v, convert c = Ok v) ->
                exists config_dict, get_config db = Ok config_dict).
  { intros Hall. unfold get_config.
    destruct (fill_config_all
                (filter (fun c => is_true (SystemConfig.is_active c)) (system_config db)) [])
      as (d & Hd).
    { intros c Hc. apply filter_In in Hc as [Hc Ha]. auto. }
    rewrite Hd. simpl. destruct d; eauto. }
  split; [|split].
  - split; [exact Hok|]. intros (config_dict & Hget) c Hc Ha.
    unfold get_config in Hget. apply bind_ok in Hget as (d & Hfill & _).
    apply (fill_config_ok _ _ _ Hfill). apply filter_In. auto.
  - intros e. rewrite Herr. apply fill_config_err.
  - intros e H. apply Herr, fill_config_err in H as (before & c & after & Heq & _ & Hc).
    assert (Hin : In c (filter (fun c => is_true (SystemConfig.is_active c))
                           (system_config db)))
      by (rewrite Heq; apply in_or_app; right; now left).
    apply filter_In in Hin as [Hin Ha]. exists c. split; [exact Hin|].
    split; [exact Ha|]. now apply convert_error.
Qed.

End ConfigAnswers.

Lemma set_config_then_read_witness :
  exists c,
    config_by_key (snd (set_config "route_color" "#00ff00" "string" None 9 configured))
      "route_color" = Some c
    /\ SystemConfig.config_value c = "#00ff00"
    /\ SystemConfig.is_active c = Some true
    /\ forall config_dict,
         get_config (Json := unit) (fun _ => Ok 12) (fun _ => Err ValueError)
             (fun _ => Err ValueError)
           (snd (set_config "route_color" "#00ff00" "string" None 9 configured))
         = Ok config_dict ->
         dict_get config_dict "route_color" = Some (VStr "#00ff00").
Proof.
  destruct (set_config_then_read unit (fun _ => Ok 12) (fun _ => Err ValueError)
      (fun _ => Err ValueError)
              configured "route_color" "#00ff00" "string" None 9
              ltac:(unfold configured; reach))
    as (c & H1 & H2 & H3 & H4 & H5).
  exists c. split; [exact H1|]. split; [exact H2|]. split; [exact H4|].
  intros config_dict Hget. apply (H5 config_dict Hget).
  unfold converted_type, type_is. rewrite H3. reflexivity.
Defined.

Lemma get_config_defaults_or_entries_witness :
  get_config (Json := unit) (fun _ => Ok 12) (fun _ => Err ValueError)
      (fun _ => Err ValueError) empty_db
  = Ok default_map_config
  /\ exists c,
       In c (system_config configured)
       /\ is_true (SystemConfig.is_active c) = true
       /\ SystemConfig.config_key c = "default_zoom"
       /\ convert (Json := unit) (fun _ => Ok 12) (fun _ => Err ValueError)
           (fun _ => Err ValueError) c
          = Ok (VInt 12).
Proof.
  split.
  - apply (get_config_defaults_or_entries unit (fun _ => Ok 12) (fun _ => Err ValueError)
             (fun _ => Err ValueError) empty_db). intros c [].
  - eapply (get_config_defaults_or_entries unit (fun _ => Ok 12) (fun _ => Err ValueError)
              (fun _ => Err ValueError) configured).
    + eexists. split; [left; reflexivity|reflexivity].
    + reflexivity.
    + reflexivity.
Defined.

Lemma get_config_all_or_nothing_witness :
  get_config (Json := unit) (fun _ => Err ValueError) (fun _ => Err ValueError)
    (fun _ => Err RecursionError) configured
  = Err ValueError
  /\ get_config (Json := unit) (fun _ => Err ValueError) (fun _ => Err ValueError)
       (fun _ => Err RecursionError) nested
     = Err RecursionError
  /\ exists config_dict,
       get_config (Json := unit) (fun _ => Ok 12) (fun _ => Err ValueError)
         (fun _ => Err ValueError) configured = Ok config_dict.
Proof.
  split; [|split].
  - apply (get_config_all_or_nothing unit (fun _ => Err ValueError)
             (fun _ => Err ValueError) (fun _ => Err RecursionError) configured).
    exists []. do 2 eexists. split; [reflexivity|]. split; [intros x []|reflexivity].
  - apply (get_config_all_or_nothing unit (fun _ => Err ValueError)
             (fun _ => Err ValueError) (fun _ => Err RecursionError) nested).
    exists []. do 2 eexists. split; [reflexivity|]. split; [intros x []|reflexivity].
  - apply (get_config_all_or_nothing unit (fun _ => Ok 12) (fun _ => Err ValueError)
             (fun _ => Err ValueError) configured).
    intros c [<-|[<-|[]]] _; eexists; reflexivity.
Defined.

(** * Listings *)

Lemma page_In {A} (skip limit : Z) (query : list A) (x : A) :
  In x (page skip limit query) -> In x query.
Proof.
  unfold page. intros H.
  rewrite <- (firstn_skipn (Z.to_nat skip) query). apply in_or_app. right.
  rewrite <- (firstn_skipn (Z.to_nat limit) (skipn (Z.to_nat skip) query)).
  apply in_or_app. now left.
Qed.

Lemma firstn_sum {A} (n m : nat) (l : list A) :
  firstn (n + m) l = (firstn n l ++ firstn m (skipn n l))%list.
Proof.
  revert l. induction n as [|n IH]; intros l; [reflexivity|].
  destruct l as [|x l]; simpl; [now rewrite firstn_nil|]. now rewrite IH.
Qed.

Lemma page_next {A} (skip n m : Z) (query : list A) :
  0 <= skip -> 0 <= n -> 0 <= m ->
  page skip (n + m) query = (page skip n query ++ page (skip + n) m query)%list.
Proof.
  intros Hs Hn Hm. unfold page.
  rewrite !Z2Nat.inj_add by assumption. rewrite firstn_sum, skipn_skipn.
  now rewrite (Nat.add_comm (Z.to_nat n)).
Qed.

Lemma is_true_eq (v : option bool) : is_true v = true -> v = Some true.
Proof. destruct v as [[|]|]; simpl; congruence. Qed.

Lemma status_eqb_eq (v : option RouteStatus) (st : RouteStatus) :
  option_eqb RouteStatus_eqb v (Some st) = true -> v = Some st.
Proof. destruct v as [[]|], st; simpl; congruence. Qed.

(** X14.  A listing only returns stored records that pass the requested
    filters: with [active_only] every heat center returned is active, with
    [connected_only] every demand site returned is connected, a non-empty
    [site_type] is the site type of every demand site returned, and a given
    status and non-zero endpoint ids are those of every route returned. *)
Theorem listing_sound (db : Database) :
  (forall skip limit active_only l,
     get_heat_centers skip limit active_only db = Ok l ->
     forall c, In c l ->
       In c (heat_centers db)
       /\ (active_only = true -> HeatCenter.is_active c = Some true))
  /\ (forall skip limit connected_only site_type l,
        get_demand_sites skip limit connected_only site_type db = Ok l ->
        forall s, In s l ->
          In s (demand_sites db)
          /\ (connected_only = true -> DemandSite.is_connected s = Some true)
          /\ (forall ty, site_type = Some ty -> ty <> "" ->
                         DemandSite.site_type s = Some ty))
  /\ (forall skip limit status heat_center_id demand_site_id l,
        get_routes skip limit status heat_center_id demand_site_id db = Ok l ->
        forall r, In r l ->
          In r (routes db)
          /\ (forall st, status = Some st -> Route.status r = Some st)
          /\ (forall hc, heat_center_id = Some hc -> hc <> 0 -> Route.heat_center_id r = hc)
          /\ (forall ds, demand_site_id = Some ds -> ds <> 0 -> Route.demand_site_id r = ds)).
Proof.
  split; [|split].
  - intros skip limit active_only l H c Hc. unfold get_heat_centers in H.
    apply bind_ok in H as (s & _ & H). apply bind_ok in H as (n & _ & H).
    apply all_rows_ok in H. subst l. apply page_In in Hc. destruct active_only.
    + apply filter_In in Hc as [Hc Ha]. split; [assumption|]. intros _.
      now apply is_true_eq.
    + split; [assumption|discriminate].
  - intros skip limit connected_only site_type l H s Hs. unfold get_demand_sites in H.
    apply bind_ok in H as (k & _ & H). apply bind_ok in H as (n & _ & H).
    apply all_rows_ok in H. subst l. apply page_In in Hs.
    assert (Hty : In s (if connected_only
                        then filter (fun s => is_true (DemandSite.is_connected s))
                               (demand_sites db)
                        else demand_sites db)
                  /\ forall ty, site_type = Some ty -> ty <> "" ->
                                DemandSite.site_type s = Some ty).
    { destruct site_type as [ty|]; [|split; [assumption|discriminate]].
      destruct (String.eqb ty "") eqn:E.
      - apply String.eqb_eq in E. split; [assumption|].
        intros ty' H. injection H as <-. contradiction.
      - apply filter_In in Hs as [Hs Hf]. split; [assumption|].
        intros ty' H _. injection H as <-.
        now apply (option_eqb_eq String.eqb _ _ string_eqb_true). }
    destruct Hty as [Hin Hty]. destruct connected_only.
    + apply filter_In in Hin as [Hin Ha]. split; [assumption|].
      split; [intros _; now apply is_true_eq|assumption].
    + split; [assumption|]. split; [discriminate|assumption].
  - intros skip limit status heat_center_id demand_site_id l H r Hr.
    unfold get_routes in H.
    apply bind_ok in H as (k & _ & H). apply bind_ok in H as (n & _ & H).
    apply all_rows_ok in H. subst l. apply page_In in Hr.
    set (q1 := match status with
               | Some st => filter (fun r => option_eqb RouteStatus_eqb (Route.status r)
                                               (Some st)) (routes db)
               | None => routes db
               end) in *.
    set (q2 := match heat_center_id with
               | Some hc => if hc =? 0 then q1
                            else filter (fun r => Route.heat_center_id r =? hc) q1
               | None => q1
               end) in *.
    assert (H3 : In r q2 /\ forall ds, demand_site_id = Some ds -> ds <> 0 ->
                                        Route.demand_site_id r = ds).
    { destruct demand_site_id as [ds|]; [|split; [assumption|discriminate]].
      destruct (ds =? 0) eqn:E.
      - apply Z.eqb_eq in E. split; [assumption|].
        intros ds' H. injection H as <-. contradiction.
      - apply filter_In in Hr as [Hr Hf]. split; [assumption|].
        intros ds' H _. injection H as <-. now apply Z.eqb_eq. }
    destruct H3 as [H2 H3].
    assert (H2' : In r q1 /\ forall hc, heat_center_id = Some hc -> hc <> 0 ->
                                         Route.heat_center_id r = hc).
    { subst q2. destruct heat_center_id as [hc|]; [|split; [assumption|discriminate]].
      destruct (hc =? 0) eqn:E.
      - apply Z.eqb_eq in E. split; [assumption|].
        intros hc' H. injection H as <-. contradiction.
      - apply filter_In in H2 as [H2 Hf]. split; [assumption|].
        intros hc' H _. injection H as <-. now apply Z.eqb_eq. }
    destruct H2' as [H1 H2'].
    assert (H1' : In r (routes db) /\ forall st, status = Some st ->
                                                 Route.status r = Some st).
    { subst q1. destruct status as [st|]; [|split; [assumption|discriminate]].
      apply filter_In in H1 as [H1 Hf]. split; [assumption|].
      intros st' H. injection H as <-. now apply status_eqb_eq. }
    destruct H1' as [H0 H1']. auto.
Qed.

Lemma listing_sound_witness :
  exists l,
    get_routes None None (Some ACTIVE) (Some 1) None one_route = Ok l
    /\ l <> []
    /\ forall r, In r l ->
         In r (routes one_route) /\ Route.status r = Some ACTIVE
         /\ Route.heat_center_id r = 1.
Proof.
  eexists. split; [reflexivity|]. split; [discriminate|]. intros r Hr.
  destruct (listing_sound one_route) as (_ & _ & H).
  destruct (H None None (Some ACTIVE) (Some 1) None _ eq_refl r Hr) as (H0 & H1 & H2 & _).
  split; [exact H0|]. split; [now apply H1|]. apply H2; [reflexivity|discriminate].
Defined.

(** X15.  Consecutive pages tile a listing: for [0 <= skip], page sizes
    [n, m >= 1] with [n + m <= 1000], offsets [skip] and [skip + n] that
    are 64-bit integers and filter ids that are, the page of size [n] at
    [skip] followed by the page of size [m] at [skip + n] is the page of
    size [n + m] at [skip], for each of the three listings and any
    filters. *)
Theorem pages_tile (db : Database) (skip n m : Z) :
  0 <= skip -> skip + n < 2 ^ 63 -> 1 <= n -> 1 <= m -> n + m <= 1000 ->
  (forall active_only,
     exists l1 l2,
       get_heat_centers (Some skip) (Some n) active_only db = Ok l1
       /\ get_heat_centers (Some (skip + n)) (Some m) active_only db = Ok l2
       /\ get_heat_centers (Some skip) (Some (n + m)) active_only db = Ok (l1 ++ l2)%list)
  /\ (forall connected_only site_type,
        exists l1 l2,
          get_demand_sites (Some skip) (Some n) connected_only site_type db = Ok l1
          /\ get_demand_sites (Some (skip + n)) (Some m) connected_only site_type db = Ok l2
          /\ get_demand_sites (Some skip) (Some (n + m)) connected_only site_type db
             = Ok (l1 ++ l2)%list)
  /\ (forall status hc ds,
        bindable hc = true -> bindable ds = true ->
        exists l1 l2,
          get_routes (Some skip) (Some n) status hc ds db = Ok l1
          /\ get_routes (Some (skip + n)) (Some m) status hc ds db = Ok l2
          /\ get_routes (Some skip) (Some (n + m)) status hc ds db = Ok (l1 ++ l2)%list).
Proof.
  intros Hs Hsn Hn Hm Hnm.
  assert (Hp : forall ids limit offset,
            forallb int64 ids = true -> 0 <= offset < 2 ^ 63 -> 1 <= limit <= 1000 ->
            forallb int64 (ids ++ [limit; offset]) = true)
    by (intros; now apply page_params_bound).
  split; [|split]; intros; unfold get_heat_centers, get_demand_sites, get_routes;
    rewrite !limit_accepted by lia; unfold all_rows.
  - pose proof (Hp [] n skip eq_refl ltac:(lia) ltac:(lia)) as H1.
    pose proof (Hp [] m (skip + n) eq_refl ltac:(lia) ltac:(lia)) as H2.
    pose proof (Hp [] (n + m) skip eq_refl ltac:(lia) ltac:(lia)) as H3.
    simpl app in H1, H2, H3. rewrite H1, H2, H3.
    do 2 eexists. split; [reflexivity|]. split; [reflexivity|].
    rewrite page_next by lia. reflexivity.
  - pose proof (Hp [] n skip eq_refl ltac:(lia) ltac:(lia)) as H1.
    pose proof (Hp [] m (skip + n) eq_refl ltac:(lia) ltac:(lia)) as H2.
    pose proof (Hp [] (n + m) skip eq_refl ltac:(lia) ltac:(lia)) as H3.
    simpl app in H1, H2, H3. rewrite H1, H2, H3.
    do 2 eexists. split; [reflexivity|]. split; [reflexivity|].
    rewrite page_next by lia. reflexivity.
  - assert (Hids : forallb int64 (filter_param hc ++ filter_param ds) = true)
      by (rewrite forallb_app; now rewrite !filter_param_bindable).
    rewrite !app_assoc.
    rewrite (Hp _ n skip Hids ltac:(lia) ltac:(lia)).
    rewrite (Hp _ m (skip + n) Hids ltac:(lia) ltac:(lia)).
    rewrite (Hp _ (n + m) skip Hids ltac:(lia) ltac:(lia)).
    do 2 eexists. split; [reflexivity|]. split; [reflexivity|].
    rewrite page_next by lia. reflexivity.
Qed.

Lemma pages_tile_witness :
  exists l1 l2,
    get_heat_centers (Some 1) (Some 1) false seeded_centers = Ok l1
    /\ get_heat_centers (Some 2) (Some 2) false seeded_centers = Ok l2
    /\ get_heat_centers (Some 1) (Some 3) false seeded_centers = Ok (l1 ++ l2)%list
    /\ l1 <> [] /\ l2 <> [].
Proof.
  destruct (pages_tile seeded_centers 1 1 2) as (H & _); try lia.
  destruct (H false) as (l1 & l2 & H1 & H2 & H3). exists l1, l2.
  split; [exact H1|]. split; [exact H2|]. split; [exact H3|].
  vm_compute in H1, H2. injection H1 as <-. injection H2 as <-. split; discriminate.
Defined.

(** * Overview and drill-downs *)

Lemma count_filter_le {A} (p : A -> bool) (l : list A) :
  0 <= count (filter p l) <= count l.
Proof.
  unfold count. induction l as [|x l IH]; simpl; [lia|].
  destruct (p x); simpl List.length; lia.
Qed.

(** A total of the overview: the sum of the column, or 0.0 when that sum
    is zero or not a number. *)
Lemma as_float_or_0_sql_sum (col : list (option float)) :
  as_float (or_0 (sql_sum col))
  = Ok (let s := float_total (non_null col) in
        if is_nan s || float_eqb s 0%float then 0%float else s).
Proof.
  unfold sql_sum. destruct (non_null col) as [|v values]; [reflexivity|].
  cbv zeta. generalize (float_total (v :: values)). intros s.
  destruct (is_nan s); [reflexivity|]. simpl.
  destruct (float_eqb s 0%float); reflexivity.
Qed.

(** X16.  In a database built by the service the overview answers, and its
    counts are consistent: the totals are the sizes of the three tables,
    the active and connected counts lie between 0 and their totals, and
    there are at most as many routes as pairs of a heat center and a
    demand site.  The reported generation and pipeline length are the
    sums, in double precision and from left to right, of the outputs that
    are not null and of the distances; a sum that is zero or not a number
    is reported as 0.0. *)
Theorem overview_counts (db : Database) :
  reachable db ->
  exists o,
    get_analytics_overview db = Ok o
    /\ heat_centers_total o = count (heat_centers db)
    /\ demand_sites_total o = count (demand_sites db)
    /\ routes_total o = count (routes db)
    /\ 0 <= heat_centers_active o <= heat_centers_total o
    /\ 0 <= demand_sites_connected o <= demand_sites_total o
    /\ 0 <= routes_active o <= routes_total o
    /\ routes_total o <= heat_centers_total o * demand_sites_total o
    /\ current_generation_mw o
       = (let s := float_total (non_null (map HeatCenter.current_output_mw (heat_centers db)))
          in if is_nan s || float_eqb s 0%float then 0%float else s)
    /\ total_pipeline_km o
       = (let s := float_total (map Route.distance_km (routes db))
          in if is_nan s || float_eqb s 0%float then 0%float else s).
Proof.
  intros Hreach. apply reachable_consistent in Hreach.
  destruct (get_analytics_overview_answers db (route_count_bound _ Hreach)) as (o & Ho).
  exists o. split; [exact Ho|].
  apply get_analytics_overview_ok in Ho
    as (_ & Hout & _ & _ & Hkm & _ & _ & _ & Hh & Hha & Hd & Hdc & Hr & Hra).
  rewrite Hh, Hha, Hd, Hdc, Hr, Hra.
  split; [reflexivity|]. split; [reflexivity|]. split; [reflexivity|].
  split; [apply count_filter_le|]. split; [apply count_filter_le|].
  split; [apply count_filter_le|]. split; [|split].
  - pose proof (unique_pairs _ Hreach) as Hnd. pose proof (endpoints_exist _ Hreach) as He.
    assert (Hincl : incl (map endpoints (routes db))
                         (list_prod (map HeatCenter.id (heat_centers db))
                                    (map DemandSite.id (demand_sites db)))).
    { intros [h d] Hin. apply in_map_iff in Hin as (r & Hr' & Hin).
      unfold endpoints in Hr'. injection Hr' as <- <-.
      destruct (He r Hin). now apply in_prod. }
    apply (NoDup_incl_length Hnd) in Hincl.
    rewrite length_prod, !length_map in Hincl. unfold count. nia.
  - unfold output_sum in Hout. rewrite as_float_or_0_sql_sum in Hout.
    now injection Hout as <-.
  - unfold distance_sum in Hkm. rewrite as_float_or_0_sql_sum, non_null_filled in Hkm.
    now injection Hkm as <-.
Qed.

Lemma overview_counts_witness :
  (exists o,
     get_analytics_overview one_route = Ok o
     /\ routes_total o = 1
     /\ routes_total o <= heat_centers_total o * demand_sites_total o)
  /\ (exists o,
        get_analytics_overview seeded_centers = Ok o
        /\ current_generation_mw o = 139.20000000000002%float).
Proof.
  split.
  - destruct (overview_counts one_route ltac:(unfold one_route; reach))
      as (o & Ho & _ & _ & Hr & _ & _ & _ & Hb & _).
    exists o. split; [exact Ho|]. split; [rewrite Hr; reflexivity|exact Hb].
  - destruct (overview_counts seeded_centers ltac:(unfold seeded_centers; reach))
      as (o & Ho & _ & _ & _ & _ & _ & _ & _ & Hg & _).
    exists o. split; [exact Ho|]. rewrite Hg. reflexivity.
Defined.

(** X17.  In a reachable database the drill-down of a stored heat center
    fails with [TypeError] when one of its routes has no flow, or when its
    current output is null and its capacity is positive.  Otherwise it
    answers: the answer is about that heat center, lists exactly its
    routes with their demand sites, counts them, reports the sum of their
    flows in double precision, and reports for an output [out] and a
    positive capacity [cap] the utilization [round(out / cap * 100, 2)],
    for a capacity that is not positive the integer 0. *)
Theorem heat_center_analytics_answer (db : Database) (id : Z) (c : HeatCenter.t) :
  reachable db ->
  get_heat_center id db = Ok c ->
  (In None (map Route.current_flow_mw (routes_of_heat_center db id)) ->
   get_heat_center_analytics id db = Err TypeError)
  /\ (HeatCenter.current_output_mw c = None ->
      float_gt (HeatCenter.max_capacity_mw c) 0%float = true ->
      get_heat_center_analytics id db = Err TypeError)
  /\ ((forall r, In r (routes_of_heat_center db id) -> Route.current_flow_mw r <> None) ->
      HeatCenter.current_output_mw c <> None
      \/ float_gt (HeatCenter.max_capacity_mw c) 0%float = false ->
      exists a,
        get_heat_center_analytics id db = Ok a
        /\ center_info a = c
        /\ map route_id (hc_routes a) = map Route.id (routes_of_heat_center db id)
        /\ map counterpart_id (hc_routes a)
           = map Route.demand_site_id (routes_of_heat_center db id)
        /\ hc_number_of_routes a = count (routes_of_heat_center db id)
        /\ connected_demand_mw a
           = float_total (non_null (map Route.current_flow_mw
                                        (routes_of_heat_center db id)))
        /\ (forall out,
              HeatCenter.current_output_mw c = Some out ->
              float_gt (HeatCenter.max_capacity_mw c) 0%float = true ->
              hc_capacity_utilization_percent a
              = Float (float_round2 (out / HeatCenter.max_capacity_mw c * 100)%float))
        /\ (float_gt (HeatCenter.max_capacity_mw c) 0%float = false ->
            hc_capacity_utilization_percent a = Int 0)).
Proof.
  intros Hreach Hget. apply reachable_consistent in Hreach.
  apply get_heat_center_ok in Hget.
  destruct (heat_center_analytics_stored db id c Hreach Hget) as (Hnull & Hout & Hans).
  split; [exact Hnull|]. split; [exact Hout|].
  intros Hflows Hok.
  destruct (Hans Hflows Hok) as (a & Ha & Hc & Hids & Hcps & Hn & Hsum & Hu).
  exists a. rewrite percent_of_column in Hu.
  repeat (split; [assumption|]). split.
  - intros out Eout Hpos. rewrite Hpos, Eout in Hu. now injection Hu as <-.
  - intros Hcap. rewrite Hcap in Hu. now injection Hu as <-.
Qed.

Lemma heat_center_analytics_answer_witness :
  get_heat_center_analytics 1 silent_center = Err TypeError
  /\ get_heat_center_analytics 1 unmetered = Err TypeError
  /\ exists a,
       get_heat_center_analytics 1 one_route = Ok a
       /\ hc_number_of_routes a = 1
       /\ map counterpart_id (hc_routes a) = [1]
       /\ hc_capacity_utilization_percent a = Float 82%float.
Proof.
  split; [|split].
  - eapply (heat_center_analytics_answer silent_center 1).
    + unfold silent_center, center_only. reach.
    + reflexivity.
    + reflexivity.
    + reflexivity.
  - destruct (heat_center_analytics_answer unmetered 1 _
                ltac:(unfold unmetered, no_route; reach) eq_refl) as (H & _).
    apply H. vm_compute. left. reflexivity.
  - edestruct (heat_center_analytics_answer one_route 1) as (_ & _ & H).
    + unfold one_route. reach.
    + reflexivity.
    + destruct H as (a & Ha & _ & _ & Hc & Hn & _ & Hu & _).
      * intros r [<-|[]]. discriminate.
      * left. discriminate.
      * exists a. split; [exact Ha|]. split; [rewrite Hn; reflexivity|].
        split; [rewrite Hc; reflexivity|].
        rewrite (Hu _ eq_refl eq_refl). reflexivity.
Defined.

(** X18.  In a reachable database the drill-down of a stored demand site
    fails with [TypeError] when one of its routes has no flow, or when its
    current demand is null and its peak demand is positive.  Otherwise it
    answers: the answer is about that demand site, lists exactly its
    routes with their heat centers, reports the sums of their capacities
    and flows in double precision, and for a positive peak demand [peak]
    the coverage [round(capacity sum / peak * 100, 2)] and the utilization
    [round(current demand / peak * 100, 2)], for a peak demand that is
    not positive the integer 0 for both. *)
Theorem demand_site_analytics_answer (db : Database) (id : Z) (s : DemandSite.t) :
  reachable db ->
  get_demand_site id db = Ok s ->
  (In None (map Route.current_flow_mw (routes_of_demand_site db id)) ->
   get_demand_site_analytics id db = Err TypeError)
  /\ (DemandSite.current_demand_mw s = None ->
      float_gt (DemandSite.peak_demand_mw s) 0%float = true ->
      get_demand_site_analytics id db = Err TypeError)
  /\ ((forall r, In r (routes_of_demand_site db id) -> Route.current_flow_mw r <> None) ->
      DemandSite.current_demand_mw s <> None
      \/ float_gt (DemandSite.peak_demand_mw s) 0%float = false ->
      exists a,
        get_demand_site_analytics id db = Ok a
        /\ site_info a = s
        /\ map route_id (ds_routes a) = map Route.id (routes_of_demand_site db id)
        /\ map counterpart_id (ds_routes a)
           = map Route.heat_center_id (routes_of_demand_site db id)
        /\ total_supply_capacity_mw a
           = float_total (map Route.max_flow_capacity_mw (routes_of_demand_site db id))
        /\ current_supply_mw a
           = float_total (non_null (map Route.current_flow_mw
                                        (routes_of_demand_site db id)))
        /\ (float_gt (DemandSite.peak_demand_mw s) 0%float = true ->
            ds_demand_coverage_percent a
            = Float (float_round2 (total_supply_capacity_mw a
                                   / DemandSite.peak_demand_mw s * 100)%float))
        /\ (forall dem,
              DemandSite.current_demand_mw s = Some dem ->
              float_gt (DemandSite.peak_demand_mw s) 0%float = true ->
              current_utilization_percent a
              = Float (float_round2 (dem / DemandSite.peak_demand_mw s * 100)%float))
        /\ (float_gt (DemandSite.peak_demand_mw s) 0%float = false ->
            ds_demand_coverage_percent a = Int 0
            /\ current_utilization_percent a = Int 0)).
Proof.
  intros Hreach Hget. apply reachable_consistent in Hreach.
  apply get_demand_site_ok in Hget.
  destruct (demand_site_analytics_stored db id s Hreach Hget) as (Hnull & Hdem & Hans).
  split; [exact Hnull|]. split; [exact Hdem|].
  intros Hflows Hok.
  destruct (Hans Hflows Hok) as (a & Ha & Hs & Hids & Hcps & Hcap & Hflow & Hcov & Hu).
  exists a. rewrite percent_of_column in Hu.
  repeat (split; [assumption|]). split; [|split].
  - intros Hpos. now rewrite Hpos in Hcov.
  - intros dem Edem Hpos. rewrite Hpos, Edem in Hu. now injection Hu as <-.
  - intros Hpeak. rewrite Hpeak in Hcov, Hu. split; [exact Hcov|now injection Hu as <-].
Qed.

Lemma demand_site_analytics_answer_witness :
  get_demand_site_analytics 1 silent_site = Err TypeError
  /\ get_demand_site_analytics 1 unmetered = Err TypeError
  /\ exists a,
       get_demand_site_analytics 1 one_route = Ok a
       /\ map counterpart_id (ds_routes a) = [1]
       /\ total_supply_capacity_mw a = 10%float
       /\ ds_demand_coverage_percent a = Float 117.65%float
       /\ current_utilization_percent a = Float 0%float.
Proof.
  split; [|split].
  - eapply (demand_site_analytics_answer silent_site 1).
    + unfold silent_site, one_route. reach.
    + reflexivity.
    + reflexivity.
    + reflexivity.
  - destruct (demand_site_analytics_answer unmetered 1 _
                ltac:(unfold unmetered, no_route; reach) eq_refl) as (H & _).
    apply H. vm_compute. left. reflexivity.
  - edestruct (demand_site_analytics_answer one_route 1) as (_ & _ & H).
    + unfold one_route. reach.
    + reflexivity.
    + destruct H as (a & Ha & _ & _ & Hc & Ht & _ & Hcov & Hu & _).
      * intros r [<-|[]]. discriminate.
      * left. discriminate.
      * exists a. split; [exact Ha|]. split; [rewrite Hc; reflexivity|].
        split; [rewrite Ht; reflexivity|].
        rewrite (Hcov eq_refl), Ht, (Hu _ eq_refl eq_refl). split; reflexivity.
Defined.

Section ConfigComplete.

Variable Json : Type.
Variable py_int : string -> Result Z.
Variable py_float : string -> Result float.
Variable json_loads : string -> Result Json.

Local Abbreviation convert := (convert py_int py_float json_loads).
Local Abbreviation get_config := (get_config py_int py_float json_loads).

(** X19.  In a reachable database every stored configuration entry is
    active and alone under its key, so a read that answers holds every
    stored entry: under the key of each entry it has the conversion of
    that entry's value. *)
Theorem get_config_complete (db : Database) :
  reachable db ->
  forall config_dict,
    get_config db = Ok config_dict ->
    forall c, In c (system_config db) ->
      SystemConfig.is_active c = Some true
      /\ config_by_key db (SystemConfig.config_key c) = Some c
      /\ exists v, convert c = Ok v
                   /\ dict_get config_dict (SystemConfig.config_key c) = Some v.
Proof.
  intros Hreach config_dict Hget c Hc.
  pose proof (reachable_config_active _ Hreach c Hc) as Ha.
  pose proof (config_keys _ (reachable_consistent _ Hreach)) as Hkeys.
  split; [exact Ha|]. split.
  - unfold config_by_key. clear Hget.
    induction (system_config db) as [|x l IH]; [destruct Hc|].
    simpl in *. inversion Hkeys as [|? ? Hx Hl]; subst. destruct Hc as [->|Hc].
    + now rewrite String.eqb_refl.
    + destruct (String.eqb (SystemConfig.config_key x) (SystemConfig.config_key c)) eqn:E;
        [|auto].
      apply String.eqb_eq in E. exfalso. apply Hx. rewrite E. now apply in_map.
  - unfold get_config in Hget. apply bind_ok in Hget as (d & Hfill & Hget).
    assert (Hin : In c (filter (fun c => is_true (SystemConfig.is_active c))
                          (system_config db)))
      by (apply filter_In; split; [assumption|now rewrite Ha]).
    destruct (fill_config_ok Json py_int py_float json_loads _ _ _ Hfill c Hin)
      as (v & Hv).
    exists v. split; [exact Hv|].
    assert (Hd : dict_get d (SystemConfig.config_key c) = Some v).
    { eapply (fill_config_entry Json py_int py_float json_loads);
        [|exact Hin|exact Hv|exact Hfill]. now apply NoDup_map_filter. }
    destruct d; [discriminate|]. now injection Hget as <-.
Qed.

End ConfigComplete.

Lemma get_config_complete_witness :
  exists config_dict,
    get_config (Json := unit) (fun _ => Ok 12) (fun _ => Err ValueError)
      (fun _ => Err ValueError) configured = Ok config_dict
    /\ dict_get config_dict "default_zoom" = Some (VInt 12)
    /\ dict_get config_dict "layers" = Some (VStr "[1, 2]").
Proof.
  eexists. split; [reflexivity|].
  pose proof (get_config_complete unit (fun _ => Ok 12) (fun _ => Err ValueError)
                (fun _ => Err ValueError) configured
                ltac:(unfold configured; reach) _ eq_refl) as H.
  split.
  - destruct (H _ (or_introl eq_refl)) as (_ & _ & v & Hv & Hd).
    injection Hv as <-. exact Hd.
  - destruct (H _ (or_intror (or_introl eq_refl))) as (_ & _ & v & Hv & Hd).
    injection Hv as <-. exact Hd.
Defined.
